(** * NvestivSignalDB: the investor normalisation scripts

    A shallow embedding of the extraction logic of

      - [export_relational.py]        (row-at-a-time export, [process_investor_data])
      - [export_relational_fast.py]   (bulk export, [extract_and_bulk_insert])
      - [populate_nested_data.py]     ([safe_int] and [process_nested_data],
                                       first version)
      - [populate_nested_data_fixed.py] ([process_nested_data])
      - [complete_population.py]      ([process_all_nested_data])
      - [export_to_postgres.py]       ([safe_json_serialize], [flatten_complex_columns])

    Python values are a tagged union, Python exceptions are an explicit
    outcome, the mutable batches and registries of a script are a state
    that survives an exception (as the mutated lists do in Python), and
    the relational tables are lists of rows with the identifiers a
    [SERIAL] column hands out.

    A frame is the list of its rows, each row the list of its labelled
    cells; the index of the frame is the default one, so the [idx] of
    [df.iterrows()] is the position of the row, counted from 0.  A write
    to the database is taken to succeed, and a value read back from a
    column is the value that was written: the constraints of the schema
    (REFERENCES, UNIQUE, VARCHAR(n), JSONB) and the conversion to text of
    a key that is not text are not modelled.  A statement that follows a
    key into a table is made for text keys, and a statement about a run
    that fails is made about the loops, in which nothing is written. *)

From Stdlib Require Import ZArith List String Ascii Bool Lia Arith.
From Stdlib Require Import DecimalString DecimalZ DecimalNat.
Import ListNotations.

Set Warnings "-register-all".

Local Open Scope string_scope.
Local Open Scope list_scope.

(* ===================================================================== *)
(** * Python values and the builtins the scripts call *)
(* ===================================================================== *)

Module Py.

(** The objects a cell of the DataFrame, or anything nested in it, can be.
    [VNaN] is the float [nan] pandas uses for a missing number; other
    floats are outside the universe.  [VArr] is a one-dimensional numpy
    object array (what pyarrow makes of a parquet list), [VList] a Python
    list, [VDict] a Python [dict] in insertion order, and [VSeries] a
    pandas [Series], which is what [df.iterrows()] yields for a row. *)
Inductive pyval : Type :=
| VNone
| VNaN
| VBool (b : bool)
| VInt (z : Z)
| VStr (s : string)
| VList (l : list pyval)
| VArr (l : list pyval)
| VDict (d : list (string * pyval))
| VSeries (d : list (string * pyval)).

(** The exceptions that can reach a handler. *)
Inductive exn : Type :=
| TypeError
| ValueError
| OverflowError
| DatabaseError.

Inductive outcome (A : Type) : Type :=
| Returns (a : A)
| Raises (e : exn).
Arguments Returns {A} a.
Arguments Raises {A} e.

Definition obind {A B} (m : outcome A) (f : A -> outcome B) : outcome B :=
  match m with
  | Returns a => f a
  | Raises e => Raises e
  end.

Definition returned {A} (m : outcome A) : bool :=
  match m with Returns _ => true | Raises _ => false end.

(** [try: return body / except: return handler], the bare handler of
    [safe_int]. *)
Definition try_except {A} (body : outcome A) (handler : A) : A :=
  match body with
  | Returns a => a
  | Raises _ => handler
  end.

(** A list comprehension whose element expression can raise. *)
Fixpoint map_outcome {A B} (f : A -> outcome B) (l : list A) : outcome (list B) :=
  match l with
  | [] => Returns []
  | x :: r =>
      obind (f x) (fun y =>
      obind (map_outcome f r) (fun ys => Returns (y :: ys)))
  end.

(** ** Mappings *)

(** First binding wins; the writers below never bind a key twice. *)
Fixpoint assoc {A} (k : string) (d : list (string * A)) : option A :=
  match d with
  | [] => None
  | (k', v) :: r => if String.eqb k k' then Some v else assoc k r
  end.

(** [d.get(k, default)] on a dict, and on a Series (an absent label makes
    [Series.get] return the default). *)
Definition get (d : list (string * pyval)) (k : string) (default : pyval) : pyval :=
  match assoc k d with
  | Some v => v
  | None => default
  end.

(** ** [isinstance] tests *)

Definition is_dict (v : pyval) : bool :=
  match v with VDict _ => true | _ => false end.
Definition is_str (v : pyval) : bool :=
  match v with VStr _ => true | _ => false end.
Definition is_ndarray (v : pyval) : bool :=
  match v with VArr _ => true | _ => false end.
Definition is_list (v : pyval) : bool :=
  match v with VList _ => true | _ => false end.
Definition is_null (v : pyval) : bool :=
  match v with VNone | VNaN => true | _ => false end.

Definition nonempty {A} (l : list A) : bool :=
  match l with [] => false | _ => true end.

(** ** Truth value

    [bool(v)], as an [if] or an [and] evaluates it.  A numpy array of two
    or more elements and every Series raise [ValueError]; an array of one
    element has the truth value of that element.  An empty array raises as
    well (NumPy 2.2 and later; earlier releases answered [False] with a
    deprecation warning): no statement below rests on that case. *)
Fixpoint truthy (v : pyval) : outcome bool :=
  match v with
  | VNone => Returns false
  | VNaN => Returns true
  | VBool b => Returns b
  | VInt z => Returns (negb (z =? 0)%Z)
  | VStr s => Returns (negb (String.eqb s ""))
  | VList l => Returns (nonempty l)
  | VDict d => Returns (nonempty d)
  | VArr l =>
      match l with
      | [x] => truthy x
      | _ => Raises ValueError
      end
  | VSeries _ => Raises ValueError
  end.

(** [ndarray.tolist()] of an object array: the elements are handed over
    as they are, so an array nested in the array stays an array. *)
Definition tolist (l : list pyval) : pyval := VList l.

(** ** Decimal text of integers *)

Definition decimal (z : Z) : string := NilZero.string_of_int (Z.to_int z).
Definition decimal_nat (n : nat) : string := decimal (Z.of_nat n).

(** A plain literal: an optional minus sign and one or more ASCII digits. *)
Definition plain_decimal (s : string) : option Z :=
  option_map Z.of_int (NilZero.int_of_string s).

(** ** [json.dumps]

    Default separators, [ensure_ascii]: a character is a Latin-1 code
    point, and whatever is not printable ASCII is escaped.  numpy arrays
    and Series are not serialisable. *)

Definition hex_digit (n : nat) : ascii :=
  nth n (list_ascii_of_string "0123456789abcdef") "0"%char.

Definition quote_char : ascii := ascii_of_nat 34.
Definition backslash : string := String (ascii_of_nat 92) "".

Definition json_escape_char (c : ascii) : string :=
  let n := nat_of_ascii c in
  (if Nat.eqb n 34 then backslash ++ String quote_char ""
   else if Nat.eqb n 92 then backslash ++ backslash
   else if Nat.eqb n 10 then backslash ++ "n"
   else if Nat.eqb n 13 then backslash ++ "r"
   else if Nat.eqb n 9 then backslash ++ "t"
   else if Nat.eqb n 8 then backslash ++ "b"
   else if Nat.eqb n 12 then backslash ++ "f"
   else if Nat.ltb n 32 || Nat.ltb 126 n then
     backslash ++ "u00" ++
     String (hex_digit (n / 16)) (String (hex_digit (n mod 16)) "")
   else String c "")%string.

Fixpoint json_escape (s : string) : string :=
  match s with
  | EmptyString => ""
  | String c r => (json_escape_char c ++ json_escape r)%string
  end.

Definition json_string (s : string) : string :=
  String quote_char (json_escape s ++ String quote_char "")%string.

Fixpoint json_dumps (v : pyval) : outcome string :=
  match v with
  | VNone => Returns "null"
  | VNaN => Returns "NaN"
  | VBool true => Returns "true"
  | VBool false => Returns "false"
  | VInt z => Returns (decimal z)
  | VStr s => Returns (json_string s)
  | VList l =>
      obind
        ((fix items (l : list pyval) : outcome (list string) :=
            match l with
            | [] => Returns []
            | x :: r =>
                obind (json_dumps x) (fun s =>
                obind (items r) (fun ss => Returns (s :: ss)))
            end) l)
        (fun ss => Returns ("[" ++ String.concat ", " ss ++ "]")%string)
  | VDict d =>
      obind
        ((fix members (d : list (string * pyval)) : outcome (list string) :=
            match d with
            | [] => Returns []
            | (k, x) :: r =>
                obind (json_dumps x) (fun s =>
                obind (members r) (fun ss =>
                Returns ((json_string k ++ ": " ++ s)%string :: ss)))
            end) d)
        (fun ss => Returns ("{" ++ String.concat ", " ss ++ "}")%string)
  | VArr _ => Raises TypeError
  | VSeries _ => Raises TypeError
  end.

(** ** Hashing

    What a [dict] or a hash table of pandas compares keys by: [True] and
    [1] are one key, lists, dicts, arrays and Series cannot be hashed. *)
Inductive hkey : Type :=
| KNone
| KNaN
| KNum (z : Z)
| KStr (s : string).

Definition hkey_eqb (a b : hkey) : bool :=
  match a, b with
  | KNone, KNone => true
  | KNaN, KNaN => true
  | KNum x, KNum y => (x =? y)%Z
  | KStr x, KStr y => String.eqb x y
  | _, _ => false
  end.

Definition hash_key (v : pyval) : outcome hkey :=
  match v with
  | VNone => Returns KNone
  | VNaN => Returns KNaN
  | VBool b => Returns (KNum (if b then 1 else 0)%Z)
  | VInt z => Returns (KNum z)
  | VStr s => Returns (KStr s)
  | VList _ | VArr _ | VDict _ | VSeries _ => Raises TypeError
  end.

(** A Python [dict] keyed by hashable values, in insertion order. *)
Definition pydict (A : Type) : Type := list (hkey * A).

Fixpoint reg_get {A} (k : hkey) (m : pydict A) : option A :=
  match m with
  | [] => None
  | (k', i) :: r => if hkey_eqb k k' then Some i else reg_get k r
  end.

Definition reg_mem {A} (k : hkey) (m : pydict A) : bool :=
  match reg_get k m with Some _ => true | None => false end.

(** [m[k] = i]: the value of an existing key is replaced in place, a new
    key goes to the end. *)
Fixpoint reg_set {A} (k : hkey) (i : A) (m : pydict A) : pydict A :=
  match m with
  | [] => [(k, i)]
  | (k', j) :: r =>
      if hkey_eqb k k' then (k', i) :: r else (k', j) :: reg_set k i r
  end.

(** A registry: natural key to surrogate id. *)
Definition registry : Type := pydict nat.

(** ** [pd.notna] in a condition

    [pd.notna] answers a scalar for a scalar or a dict, and an array of
    answers for a list or an array; the condition then takes the truth
    value of that array. *)
Fixpoint notna_truth (v : pyval) : outcome bool :=
  match v with
  | VNone | VNaN => Returns false
  | VBool _ | VInt _ | VStr _ | VDict _ => Returns true
  | VArr l =>
      match l with
      | [x] => Returns (negb (is_null x))
      | _ => Raises ValueError
      end
  | VList l =>
      match l with
      | [x] =>
          match x with
          | VList _ | VArr _ => notna_truth x
          | _ => Returns (negb (is_null x))
          end
      | _ => Raises ValueError
      end
  | VSeries _ => Raises ValueError
  end.

End Py.

(* ===================================================================== *)
(** * The helpers every script carries *)
(* ===================================================================== *)

Module Helpers.
Import Py.

(** The parts of CPython's [str], [float] and [int] that stay outside the
    embedding: the [repr] of a container, the reading of a float literal
    followed by truncation ([int(float(s))]), and the reading of an integer
    literal ([int(s)]).  Every definition that needs them takes them as
    one argument. *)
Record builtins : Type := {
  py_repr : pyval -> string;
  float_int : string -> outcome Z;
  int_str : string -> outcome Z
}.

(** [safe_get], word for word the same in [export_relational.py],
    [populate_nested_data.py], [populate_nested_data_fixed.py] and
    [complete_population.py]. *)
Definition safe_get (obj : pyval) (key : string) (default : pyval) : pyval :=
  match obj with
  | VDict d => get d key default
  | _ => default
  end.

(** [is_valid_array] of [populate_nested_data_fixed.py]. *)
Definition is_valid_array (arr : pyval) : bool :=
  match arr with
  | VArr l => nonempty l
  | _ => false
  end.

(** [f'person_{idx}'] and [f'firm_{idx}']. *)
Definition person_token (idx : nat) : pyval :=
  VStr ("person_" ++ decimal_nat idx)%string.
Definition firm_token (idx : nat) : pyval :=
  VStr ("firm_" ++ decimal_nat idx)%string.

Section Builtins.
Variable B : builtins.

(** [str(v)]. *)
Definition py_str (v : pyval) : string :=
  match v with
  | VNone => "None"
  | VNaN => "nan"
  | VBool true => "True"
  | VBool false => "False"
  | VInt z => decimal z
  | VStr s => s
  | VList _ | VArr _ | VDict _ | VSeries _ => py_repr B v
  end.

(** The characters [str.strip()] removes (Latin-1). *)
Definition is_space (c : ascii) : bool :=
  let n := nat_of_ascii c in
  (Nat.leb 9 n && Nat.leb n 13) || (Nat.leb 28 n && Nat.leb n 32)
  || Nat.eqb n 133 || Nat.eqb n 160.

(** [bool(s.strip())]: some character is left. *)
Definition strip_nonempty (s : string) : bool :=
  existsb (fun c => negb (is_space c)) (list_ascii_of_string s).

(** [int(float(s))].  A plain decimal literal of magnitude at most [2^53]
    is read exactly by [float] and given back by [int]; every other text
    goes to [float_int]. *)
Definition int_of_float_of_str (s : string) : outcome Z :=
  match plain_decimal s with
  | Some z => if (Z.abs z <=? 2 ^ 53)%Z then Returns z else float_int B s
  | None => float_int B s
  end.

(** [int(v)].  An array or a Series of one element converts as that
    element does. *)
Fixpoint py_int (v : pyval) : outcome Z :=
  match v with
  | VInt z => Returns z
  | VBool b => Returns (if b then 1 else 0)%Z
  | VStr s => int_str B s
  | VNaN => Raises ValueError
  | VArr l =>
      match l with
      | [x] => py_int x
      | _ => Raises TypeError
      end
  | VSeries d =>
      match d with
      | [(_, x)] => py_int x
      | _ => Raises TypeError
      end
  | VNone | VList _ | VDict _ => Raises TypeError
  end.

End Builtins.

End Helpers.

(** [safe_int] of [export_relational.py] and [populate_nested_data.py]. *)
Module PopulateNestedData.
Import Py Helpers.

Section Builtins.
Variable B : builtins.

(** The body of the [try]. *)
Definition safe_int_body (value default : pyval) : outcome pyval :=
  obind (truthy value) (fun t =>
  if t && strip_nonempty (py_str B value)
  then obind (int_of_float_of_str B (py_str B value)) (fun z => Returns (VInt z))
  else Returns default).

Definition safe_int (value default : pyval) : pyval :=
  try_except (safe_int_body value default) default.

End Builtins.

End PopulateNestedData.

(* ===================================================================== *)
(** * Mutable state under exceptions *)
(* ===================================================================== *)

(** A computation over the lists and dicts a script mutates: what was
    appended before an exception is still there after it. *)
Module Run.
Import Py.

Definition M (S A : Type) : Type := S -> S * outcome A.

Definition ret {S A} (a : A) : M S A := fun s => (s, Returns a).

Definition bind {S A B} (m : M S A) (f : A -> M S B) : M S B :=
  fun s =>
    match m s with
    | (s', Returns a) => f a s'
    | (s', Raises e) => (s', Raises e)
    end.

Definition lift {S A} (o : outcome A) : M S A := fun s => (s, o).

Definition modify {S} (f : S -> S) : M S unit := fun s => (f s, Returns tt).

Definition gets {S A} (f : S -> A) : M S A := fun s => (s, Returns (f s)).

(** [for x in l: body(x)] *)
Fixpoint for_each {S X} (l : list X) (body : X -> M S unit) : M S unit :=
  match l with
  | [] => ret tt
  | x :: r => bind (body x) (fun _ => for_each r body)
  end.

(** [if c: body] *)
Definition when {S} (c : bool) (body : M S unit) : M S unit :=
  if c then body else ret tt.

(** A computation moves the state along [R] when the state it leaves
    behind, whether it returns or raises, is related to the one it
    started from. *)
Definition moves {S A} (R : S -> S -> Prop) (m : M S A) : Prop :=
  forall s, R s (fst (m s)).

(** A relation that a sequence of moves can be chained through. *)
Record preorder {S} (R : S -> S -> Prop) : Prop := {
  pre_refl : forall s, R s s;
  pre_trans : forall a b c, R a b -> R b c -> R a c
}.
Arguments pre_refl {S R} _ _.
Arguments pre_trans {S R} _ _ _ _ _ _.

End Run.

Declare Scope run_scope.
Delimit Scope run_scope with run.
Notation "x <- m ;; k" := (Run.bind m (fun x => k))
  (at level 61, m at next level, right associativity) : run_scope.
Notation "m ;;; k" := (Run.bind m (fun _ => k))
  (at level 61, right associativity) : run_scope.

(* ===================================================================== *)
(** * Tables *)
(* ===================================================================== *)

Module Storage.
Import Py.

(** A table with a [SERIAL] key: the rows with their ids, and the next
    value of the sequence.  [TRUNCATE] empties the rows and leaves the
    sequence where it is; rows are never updated or deleted otherwise.
    A write is taken to succeed. *)
Record table (A : Type) : Type := {
  rows : list (nat * A);
  next_id : nat
}.
Arguments rows {A} t.
Arguments next_id {A} t.

Definition created {A} : table A := {| rows := []; next_id := 1 |}.

Definition truncate {A} (t : table A) : table A :=
  {| rows := []; next_id := next_id t |}.

(** [INSERT ... RETURNING id] *)
Definition insert {A} (r : A) (t : table A) : table A * nat :=
  ({| rows := rows t ++ [(next_id t, r)]; next_id := S (next_id t) |},
   next_id t).

(** [DataFrame(rs).to_sql(..., if_exists='append')] *)
Fixpoint append_all {A} (rs : list A) (t : table A) : table A :=
  match rs with
  | [] => t
  | r :: rest => append_all rest (fst (insert r t))
  end.

Definition ids {A} (t : table A) : list nat := map fst (rows t).
Definition contents {A} (t : table A) : list A := map snd (rows t).

(** [{row[1]: row[0] for row in SELECT id, key FROM t}]: a later row
    replaces an earlier one under the same key.  A key column holds text
    or NULL, which always hash; the case is there for totality. *)
Definition select_map {A} (key : A -> pyval) (t : table A) : registry :=
  fold_left
    (fun m (r : nat * A) =>
       match hash_key (key (snd r)) with
       | Returns k => reg_set k (fst r) m
       | Raises _ => m
       end)
    (rows t) [].

End Storage.

(* ===================================================================== *)
(** * Rows *)
(* ===================================================================== *)

Module Rows.
Import Py.

(** [areas_of_interest], [investment_locations], [investor_stages] *)
Record kind_row : Type := {
  kr_investor_id : nat;
  kr_kind : pyval;
  kr_display_name : pyval
}.

Record image_row : Type := {
  im_investor_id : nat;
  im_url : pyval;
  im_is_edit_mode : bool
}.

Record media_row : Type := {
  ml_investor_id : nat;
  ml_url : pyval;
  ml_title : pyval;
  ml_image_url : pyval
}.

Record investment_row : Type := {
  inv_investor_id : nat;
  inv_company_display_name : pyval;
  inv_total_raised_json : option string
}.

Record position_row : Type := {
  pos_person_id : nat;
  pos_company_id : option nat;
  pos_title : pyval;
  pos_start_month : pyval;
  pos_start_year : pyval;
  pos_end_month : pyval;
  pos_end_year : pyval
}.

Record degree_row : Type := {
  deg_person_id : nat;
  deg_school_id : option nat;
  deg_degree_name : pyval;
  deg_field_of_study : pyval
}.

Record company_row : Type := {
  co_name : pyval;
  co_display_name : pyval;
  co_total_employee_count : pyval
}.

Record school_row : Type := {
  sc_name : pyval;
  sc_display_name : pyval;
  sc_total_student_count : pyval
}.

(** A person, a firm or a location: the natural key and the other
    columns in the order the script lists them. *)
Record dimension_row : Type := {
  dim_key : pyval;
  dim_columns : list (string * pyval)
}.

Record investor_row : Type := {
  i_person_id : option nat;
  i_firm_id : option nat;
  i_location_id : option nat;
  i_texts : list (string * pyval);
  i_vote_count : pyval;
  i_flags : list (string * pyval)
}.

(** [if person_id:] *)
Definition id_truthy (i : option nat) : bool :=
  match i with
  | Some (S _) => true
  | _ => false
  end.

End Rows.

(* ===================================================================== *)
(** * The database *)
(* ===================================================================== *)

Module Database.
Import Py Storage Rows.

Record database : Type := {
  persons : table dimension_row;
  firms : table dimension_row;
  locations : table dimension_row;
  investors : table investor_row;
  companies : table company_row;
  schools : table school_row;
  positions : table position_row;
  degrees : table degree_row;
  investments : table investment_row;
  areas_of_interest : table kind_row;
  investment_locations : table kind_row;
  investor_stages : table kind_row;
  image_urls : table image_row;
  media_links : table media_row
}.

(** After [create_relational_schema]: every table dropped and created. *)
Definition fresh : database :=
  {| persons := created; firms := created; locations := created;
     investors := created; companies := created; schools := created;
     positions := created; degrees := created; investments := created;
     areas_of_interest := created; investment_locations := created;
     investor_stages := created; image_urls := created;
     media_links := created |}.

Definition set_persons (t : table dimension_row) (db : database) : database :=
  {| persons := t; firms := firms db; locations := locations db;
     investors := investors db; companies := companies db;
     schools := schools db; positions := positions db; degrees := degrees db;
     investments := investments db;
     areas_of_interest := areas_of_interest db;
     investment_locations := investment_locations db;
     investor_stages := investor_stages db; image_urls := image_urls db;
     media_links := media_links db |}.
Definition set_firms (t : table dimension_row) (db : database) : database :=
  {| persons := persons db; firms := t; locations := locations db;
     investors := investors db; companies := companies db;
     schools := schools db; positions := positions db; degrees := degrees db;
     investments := investments db;
     areas_of_interest := areas_of_interest db;
     investment_locations := investment_locations db;
     investor_stages := investor_stages db; image_urls := image_urls db;
     media_links := media_links db |}.
Definition set_locations (t : table dimension_row) (db : database) : database :=
  {| persons := persons db; firms := firms db; locations := t;
     investors := investors db; companies := companies db;
     schools := schools db; positions := positions db; degrees := degrees db;
     investments := investments db;
     areas_of_interest := areas_of_interest db;
     investment_locations := investment_locations db;
     investor_stages := investor_stages db; image_urls := image_urls db;
     media_links := media_links db |}.
Definition set_investors (t : table investor_row) (db : database) : database :=
  {| persons := persons db; firms := firms db; locations := locations db;
     investors := t; companies := companies db; schools := schools db;
     positions := positions db; degrees := degrees db;
     investments := investments db;
     areas_of_interest := areas_of_interest db;
     investment_locations := investment_locations db;
     investor_stages := investor_stages db; image_urls := image_urls db;
     media_links := media_links db |}.
Definition set_companies (t : table company_row) (db : database) : database :=
  {| persons := persons db; firms := firms db; locations := locations db;
     investors := investors db; companies := t; schools := schools db;
     positions := positions db; degrees := degrees db;
     investments := investments db;
     areas_of_interest := areas_of_interest db;
     investment_locations := investment_locations db;
     investor_stages := investor_stages db; image_urls := image_urls db;
     media_links := media_links db |}.
Definition set_schools (t : table school_row) (db : database) : database :=
  {| persons := persons db; firms := firms db; locations := locations db;
     investors := investors db; companies := companies db; schools := t;
     positions := positions db; degrees := degrees db;
     investments := investments db;
     areas_of_interest := areas_of_interest db;
     investment_locations := investment_locations db;
     investor_stages := investor_stages db; image_urls := image_urls db;
     media_links := media_links db |}.
Definition set_positions (t : table position_row) (db : database) : database :=
  {| persons := persons db; firms := firms db; locations := locations db;
     investors := investors db; companies := companies db;
     schools := schools db; positions := t; degrees := degrees db;
     investments := investments db;
     areas_of_interest := areas_of_interest db;
     investment_locations := investment_locations db;
     investor_stages := investor_stages db; image_urls := image_urls db;
     media_links := media_links db |}.
Definition set_degrees (t : table degree_row) (db : database) : database :=
  {| persons := persons db; firms := firms db; locations := locations db;
     investors := investors db; companies := companies db;
     schools := schools db; positions := positions db; degrees := t;
     investments := investments db;
     areas_of_interest := areas_of_interest db;
     investment_locations := investment_locations db;
     investor_stages := investor_stages db; image_urls := image_urls db;
     media_links := media_links db |}.
Definition set_investments (t : table investment_row) (db : database) : database :=
  {| persons := persons db; firms := firms db; locations := locations db;
     investors := investors db; companies := companies db;
     schools := schools db; positions := positions db; degrees := degrees db;
     investments := t; areas_of_interest := areas_of_interest db;
     investment_locations := investment_locations db;
     investor_stages := investor_stages db; image_urls := image_urls db;
     media_links := media_links db |}.
Definition set_areas_of_interest (t : table kind_row) (db : database) : database :=
  {| persons := persons db; firms := firms db; locations := locations db;
     investors := investors db; companies := companies db;
     schools := schools db; positions := positions db; degrees := degrees db;
     investments := investments db; areas_of_interest := t;
     investment_locations := investment_locations db;
     investor_stages := investor_stages db; image_urls := image_urls db;
     media_links := media_links db |}.
Definition set_investment_locations (t : table kind_row) (db : database) : database :=
  {| persons := persons db; firms := firms db; locations := locations db;
     investors := investors db; companies := companies db;
     schools := schools db; positions := positions db; degrees := degrees db;
     investments := investments db;
     areas_of_interest := areas_of_interest db; investment_locations := t;
     investor_stages := investor_stages db; image_urls := image_urls db;
     media_links := media_links db |}.
Definition set_investor_stages (t : table kind_row) (db : database) : database :=
  {| persons := persons db; firms := firms db; locations := locations db;
     investors := investors db; companies := companies db;
     schools := schools db; positions := positions db; degrees := degrees db;
     investments := investments db;
     areas_of_interest := areas_of_interest db;
     investment_locations := investment_locations db; investor_stages := t;
     image_urls := image_urls db; media_links := media_links db |}.
Definition set_image_urls (t : table image_row) (db : database) : database :=
  {| persons := persons db; firms := firms db; locations := locations db;
     investors := investors db; companies := companies db;
     schools := schools db; positions := positions db; degrees := degrees db;
     investments := investments db;
     areas_of_interest := areas_of_interest db;
     investment_locations := investment_locations db;
     investor_stages := investor_stages db; image_urls := t;
     media_links := media_links db |}.
Definition set_media_links (t : table media_row) (db : database) : database :=
  {| persons := persons db; firms := firms db; locations := locations db;
     investors := investors db; companies := companies db;
     schools := schools db; positions := positions db; degrees := degrees db;
     investments := investments db;
     areas_of_interest := areas_of_interest db;
     investment_locations := investment_locations db;
     investor_stages := investor_stages db; image_urls := image_urls db;
     media_links := t |}.

(** [DataFrame(rs).to_sql(name, ...)] behind [if rs:]; with no rows the
    call is skipped, which leaves the table as it is just the same. *)
Definition to_sql_persons (rs : list dimension_row) (db : database) : database :=
  set_persons (append_all rs (persons db)) db.
Definition to_sql_firms (rs : list dimension_row) (db : database) : database :=
  set_firms (append_all rs (firms db)) db.
Definition to_sql_locations (rs : list dimension_row) (db : database) : database :=
  set_locations (append_all rs (locations db)) db.
Definition to_sql_investors (rs : list investor_row) (db : database) : database :=
  set_investors (append_all rs (investors db)) db.
Definition to_sql_companies (rs : list company_row) (db : database) : database :=
  set_companies (append_all rs (companies db)) db.
Definition to_sql_schools (rs : list school_row) (db : database) : database :=
  set_schools (append_all rs (schools db)) db.
Definition to_sql_positions (rs : list position_row) (db : database) : database :=
  set_positions (append_all rs (positions db)) db.
Definition to_sql_degrees (rs : list degree_row) (db : database) : database :=
  set_degrees (append_all rs (degrees db)) db.
Definition to_sql_investments (rs : list investment_row) (db : database) : database :=
  set_investments (append_all rs (investments db)) db.
Definition to_sql_areas_of_interest (rs : list kind_row) (db : database) : database :=
  set_areas_of_interest (append_all rs (areas_of_interest db)) db.
Definition to_sql_investment_locations (rs : list kind_row) (db : database) : database :=
  set_investment_locations (append_all rs (investment_locations db)) db.
Definition to_sql_investor_stages (rs : list kind_row) (db : database) : database :=
  set_investor_stages (append_all rs (investor_stages db)) db.
Definition to_sql_image_urls (rs : list image_row) (db : database) : database :=
  set_image_urls (append_all rs (image_urls db)) db.
Definition to_sql_media_links (rs : list media_row) (db : database) : database :=
  set_media_links (append_all rs (media_links db)) db.

End Database.

(* ===================================================================== *)
(** * complete_population.py *)
(* ===================================================================== *)

Module CompletePopulation.
Import Py Helpers Run Storage Rows Database.
Local Open Scope run_scope.

(** An entry of [all_positions]: the company is still a name. *)
Record position_draft : Type := {
  pd_person_id : nat;
  pd_company_name : pyval;
  pd_company_display_name : pyval;
  pd_company_employee_count : pyval;
  pd_title : pyval;
  pd_start_month : pyval;
  pd_start_year : pyval;
  pd_end_month : pyval;
  pd_end_year : pyval
}.

Record degree_draft : Type := {
  dd_person_id : nat;
  dd_school_name : pyval;
  dd_school_display_name : pyval;
  dd_school_student_count : pyval;
  dd_degree_name : pyval;
  dd_field_of_study : pyval
}.

(** The eight lists the loop appends to. *)
Record batches : Type := {
  all_positions : list position_draft;
  all_degrees : list degree_draft;
  all_investments : list investment_row;
  all_areas : list kind_row;
  all_locations : list kind_row;
  all_stages : list kind_row;
  all_images : list image_row;
  all_media : list media_row
}.

Definition no_batches : batches :=
  {| all_positions := []; all_degrees := []; all_investments := [];
     all_areas := []; all_locations := []; all_stages := [];
     all_images := []; all_media := [] |}.

Definition push_position (r : position_draft) (b : batches) : batches :=
  {| all_positions := all_positions b ++ [r]; all_degrees := all_degrees b;
     all_investments := all_investments b; all_areas := all_areas b;
     all_locations := all_locations b; all_stages := all_stages b;
     all_images := all_images b; all_media := all_media b |}.
Definition push_degree (r : degree_draft) (b : batches) : batches :=
  {| all_positions := all_positions b; all_degrees := all_degrees b ++ [r];
     all_investments := all_investments b; all_areas := all_areas b;
     all_locations := all_locations b; all_stages := all_stages b;
     all_images := all_images b; all_media := all_media b |}.
Definition push_investment (r : investment_row) (b : batches) : batches :=
  {| all_positions := all_positions b; all_degrees := all_degrees b;
     all_investments := all_investments b ++ [r]; all_areas := all_areas b;
     all_locations := all_locations b; all_stages := all_stages b;
     all_images := all_images b; all_media := all_media b |}.
Definition push_area (r : kind_row) (b : batches) : batches :=
  {| all_positions := all_positions b; all_degrees := all_degrees b;
     all_investments := all_investments b; all_areas := all_areas b ++ [r];
     all_locations := all_locations b; all_stages := all_stages b;
     all_images := all_images b; all_media := all_media b |}.
Definition push_location (r : kind_row) (b : batches) : batches :=
  {| all_positions := all_positions b; all_degrees := all_degrees b;
     all_investments := all_investments b; all_areas := all_areas b;
     all_locations := all_locations b ++ [r]; all_stages := all_stages b;
     all_images := all_images b; all_media := all_media b |}.
Definition push_stage (r : kind_row) (b : batches) : batches :=
  {| all_positions := all_positions b; all_degrees := all_degrees b;
     all_investments := all_investments b; all_areas := all_areas b;
     all_locations := all_locations b; all_stages := all_stages b ++ [r];
     all_images := all_images b; all_media := all_media b |}.
Definition push_image (r : image_row) (b : batches) : batches :=
  {| all_positions := all_positions b; all_degrees := all_degrees b;
     all_investments := all_investments b; all_areas := all_areas b;
     all_locations := all_locations b; all_stages := all_stages b;
     all_images := all_images b ++ [r]; all_media := all_media b |}.
Definition push_media (r : media_row) (b : batches) : batches :=
  {| all_positions := all_positions b; all_degrees := all_degrees b;
     all_investments := all_investments b; all_areas := all_areas b;
     all_locations := all_locations b; all_stages := all_stages b;
     all_images := all_images b; all_media := all_media b ++ [r] |}.

(** What [for x in arr] goes through. *)
Definition elements (v : pyval) : list pyval :=
  match v with
  | VArr l | VList l => l
  | _ => []
  end.

(** Lines 72-77: the person of the row.  The row is a Series. *)
Definition person_id_of (person_map : registry) (idx : nat)
    (row : list (string * pyval)) : outcome (option nat) :=
  let person_data := safe_get (VSeries row) "person" (VDict []) in
  match person_data with
  | VDict (_ :: _) =>
      let person_slug := safe_get person_data "slug" (person_token idx) in
      obind (hash_key person_slug) (fun k => Returns (reg_get k person_map))
  | _ => Returns None
  end.

(** The three loops of one shape: sections 1, 2 and 3. *)
Definition kind_step (field : string) (push : kind_row -> batches -> batches)
    (investor_id : nat) (row : list (string * pyval)) : M batches unit :=
  let items := get row field VNone in
  when (is_valid_array items)
    (for_each (elements items) (fun item =>
       when (is_dict item)
         (modify (push {| kr_investor_id := investor_id;
                          kr_kind := safe_get item "kind" VNone;
                          kr_display_name := safe_get item "display_name" VNone |})))).

(** Section 4, both arrays. *)
Definition image_step (field : string) (edit_mode : bool)
    (investor_id : nat) (row : list (string * pyval)) : M batches unit :=
  let images := get row field VNone in
  when (is_valid_array images)
    (for_each (elements images) (fun img =>
       t <- lift (truthy img) ;;
       when (t && is_str img)
         (modify (push_image {| im_investor_id := investor_id;
                                im_url := img;
                                im_is_edit_mode := edit_mode |})))).

(** Section 5. *)
Definition media_step (investor_id : nat) (row : list (string * pyval))
    : M batches unit :=
  let media := get row "media_links" VNone in
  when (is_valid_array media)
    (for_each (elements media) (fun m =>
       when (is_dict m)
         (modify (push_media {| ml_investor_id := investor_id;
                                ml_url := safe_get m "url" VNone;
                                ml_title := safe_get m "title" VNone;
                                ml_image_url := safe_get m "image_url" VNone |})))).

(** [safe_get(d, k) if isinstance(d, dict) else None] *)
Definition date_part (d : pyval) (k : string) : pyval :=
  if is_dict d then safe_get d k VNone else VNone.

(** Section 6, inside [if person_id:]. *)
Definition positions_step (person_id : nat) (row : list (string * pyval))
    : M batches unit :=
  let positions := get row "positions" VNone in
  when (is_valid_array positions)
    (for_each (elements positions) (fun pos =>
       when (is_dict pos)
         (let company_data := safe_get pos "company" (VDict []) in
          t <- lift (truthy company_data) ;;
          let start_date := safe_get pos "start_date" (VDict []) in
          let end_date := safe_get pos "end_date" (VDict []) in
          modify (push_position
            {| pd_person_id := person_id;
               pd_company_name :=
                 if t then safe_get company_data "name" VNone else VNone;
               pd_company_display_name :=
                 if t then safe_get company_data "display_name" VNone else VNone;
               pd_company_employee_count :=
                 if t then safe_get company_data "total_employee_count" VNone
                 else VNone;
               pd_title := safe_get pos "title" VNone;
               pd_start_month := date_part start_date "month";
               pd_start_year := date_part start_date "year";
               pd_end_month := date_part end_date "month";
               pd_end_year := date_part end_date "year" |})))).

(** Section 7, inside [if person_id:]. *)
Definition degrees_step (person_id : nat) (row : list (string * pyval))
    : M batches unit :=
  let degrees := get row "degrees" VNone in
  when (is_valid_array degrees)
    (for_each (elements degrees) (fun deg =>
       when (is_dict deg)
         (let school_data := safe_get deg "school" (VDict []) in
          t <- lift (truthy school_data) ;;
          modify (push_degree
            {| dd_person_id := person_id;
               dd_school_name :=
                 if t then safe_get school_data "name" VNone else VNone;
               dd_school_display_name :=
                 if t then safe_get school_data "display_name" VNone else VNone;
               dd_school_student_count :=
                 if t then safe_get school_data "total_student_count" VNone
                 else VNone;
               dd_degree_name := safe_get deg "name" VNone;
               dd_field_of_study := safe_get deg "field_of_study" VNone |})))).

(** Lines 197-205: one node of an edge. *)
Definition investment_of_node (investor_id : nat) (node : pyval)
    : outcome investment_row :=
  let total_raised := safe_get node "total_raised" (VList []) in
  let total_raised :=
    match total_raised with
    | VArr l => tolist l
    | _ => total_raised
    end in
  let company_display_name := safe_get node "company_display_name" VNone in
  obind (truthy total_raised) (fun t =>
  obind (if t then obind (json_dumps total_raised) (fun s => Returns (Some s))
         else Returns None) (fun json =>
  Returns {| inv_investor_id := investor_id;
             inv_company_display_name := company_display_name;
             inv_total_raised_json := json |})).

(** Section 8. *)
Definition investments_step (investor_id : nat) (row : list (string * pyval))
    : M batches unit :=
  let investments := get row "investments_on_record" VNone in
  when (is_dict investments)
    (let edges := safe_get investments "edges" (VList []) in
     when (is_valid_array edges)
       (for_each (elements edges) (fun edge =>
          when (is_dict edge)
            (let node := safe_get edge "node" (VDict []) in
             when (is_dict node)
               (r <- lift (investment_of_node investor_id node) ;;
                modify (push_investment r)))))).

(** The body of the loop, lines 66-206. *)
Definition extract_row (person_map : registry) (idx : nat)
    (row : list (string * pyval)) : M batches unit :=
  let investor_id := idx + 1 in
  person_id <- lift (person_id_of person_map idx row) ;;
  kind_step "areas_of_interest" push_area investor_id row ;;;
  kind_step "investment_locations" push_location investor_id row ;;;
  kind_step "stages" push_stage investor_id row ;;;
  image_step "image_urls" false investor_id row ;;;
  image_step "image_urls_edit_mode" true investor_id row ;;;
  media_step investor_id row ;;;
  match person_id with
  | Some (S _ as p) => positions_step p row ;;; degrees_step p row
  | _ => ret tt
  end ;;;
  investments_step investor_id row.

(** [for idx, row in df.iterrows()], no handler around the body. *)
Fixpoint extract_from (person_map : registry) (idx : nat)
    (df : list (list (string * pyval))) : M batches unit :=
  match df with
  | [] => ret tt
  | row :: rest =>
      extract_row person_map idx row ;;;
      extract_from person_map (S idx) rest
  end.

Definition extract_all (person_map : registry)
    (df : list (list (string * pyval))) : M batches unit :=
  extract_from person_map 0 df.

(** Lines 248-255: [unique_companies], keyed by name; a later position of
    the same name replaces the entry. *)
Definition company_of (pos : position_draft) : company_row :=
  {| co_name := pd_company_name pos;
     co_display_name := pd_company_display_name pos;
     co_total_employee_count := pd_company_employee_count pos |}.

Fixpoint unique_companies (ps : list position_draft)
    (acc : pydict company_row) : outcome (pydict company_row) :=
  match ps with
  | [] => Returns acc
  | pos :: rest =>
      obind (truthy (pd_company_name pos)) (fun t =>
      if t then
        obind (hash_key (pd_company_name pos)) (fun k =>
        unique_companies rest (reg_set k (company_of pos) acc))
      else unique_companies rest acc)
  end.

(** Lines 266-276: an entry of [positions_with_fk]. *)
Definition position_with_fk (company_map : registry) (pos : position_draft)
    : outcome position_row :=
  obind (hash_key (pd_company_name pos)) (fun k =>
  Returns {| pos_person_id := pd_person_id pos;
             pos_company_id := reg_get k company_map;
             pos_title := pd_title pos;
             pos_start_month := pd_start_month pos;
             pos_start_year := pd_start_year pos;
             pos_end_month := pd_end_month pos;
             pos_end_year := pd_end_year pos |}).

(** Lines 246-279. *)
Definition insert_positions (ps : list position_draft) : M database unit :=
  when (nonempty ps)
    (uc <- lift (unique_companies ps []) ;;
     modify (to_sql_companies (map snd uc)) ;;;
     company_map <- gets (fun db => select_map co_name (companies db)) ;;
     with_fk <- lift (map_outcome (position_with_fk company_map) ps) ;;
     modify (to_sql_positions with_fk)).

Definition school_of (deg : degree_draft) : school_row :=
  {| sc_name := dd_school_name deg;
     sc_display_name := dd_school_display_name deg;
     sc_total_student_count := dd_school_student_count deg |}.

Fixpoint unique_schools (ds : list degree_draft)
    (acc : pydict school_row) : outcome (pydict school_row) :=
  match ds with
  | [] => Returns acc
  | deg :: rest =>
      obind (truthy (dd_school_name deg)) (fun t =>
      if t then
        obind (hash_key (dd_school_name deg)) (fun k =>
        unique_schools rest (reg_set k (school_of deg) acc))
      else unique_schools rest acc)
  end.

Definition degree_with_fk (school_map : registry) (deg : degree_draft)
    : outcome degree_row :=
  obind (hash_key (dd_school_name deg)) (fun k =>
  Returns {| deg_person_id := dd_person_id deg;
             deg_school_id := reg_get k school_map;
             deg_degree_name := dd_degree_name deg;
             deg_field_of_study := dd_field_of_study deg |}).

(** Lines 281-311. *)
Definition insert_degrees (ds : list degree_draft) : M database unit :=
  when (nonempty ds)
    (us <- lift (unique_schools ds []) ;;
     modify (to_sql_schools (map snd us)) ;;;
     school_map <- gets (fun db => select_map sc_name (schools db)) ;;
     with_fk <- lift (map_outcome (degree_with_fk school_map) ds) ;;
     modify (to_sql_degrees with_fk)).

(** Lines 38-45: the eight nested tables are emptied; [companies] and
    [schools] are not among them. *)
Definition clear_nested (db : database) : database :=
  set_media_links (truncate (media_links db))
  (set_image_urls (truncate (image_urls db))
  (set_investor_stages (truncate (investor_stages db))
  (set_investment_locations (truncate (investment_locations db))
  (set_areas_of_interest (truncate (areas_of_interest db))
  (set_investments (truncate (investments db))
  (set_degrees (truncate (degrees db))
  (set_positions (truncate (positions db)) db))))))).

(** [process_all_nested_data]: an exception in the loop leaves through
    the function, and nothing collected so far is written. *)
Definition process_all_nested_data (df : list (list (string * pyval)))
    : M database unit :=
  modify clear_nested ;;;
  person_map <- gets (fun db => select_map dim_key (persons db)) ;;
  b <- lift (match extract_all person_map df no_batches with
             | (b, Returns _) => Returns b
             | (_, Raises e) => Raises e
             end) ;;
  modify (to_sql_areas_of_interest (all_areas b)) ;;;
  modify (to_sql_investment_locations (all_locations b)) ;;;
  modify (to_sql_investor_stages (all_stages b)) ;;;
  modify (to_sql_image_urls (all_images b)) ;;;
  modify (to_sql_media_links (all_media b)) ;;;
  modify (to_sql_investments (all_investments b)) ;;;
  insert_positions (all_positions b) ;;;
  insert_degrees (all_degrees b).

End CompletePopulation.

(* ===================================================================== *)
(** * populate_nested_data_fixed.py *)
(* ===================================================================== *)

Module PopulateNestedDataFixed.
Import Py Helpers Run Storage Rows Database.
Local Open Scope run_scope.

Section Builtins.
Variable B : builtins.

(** Lines 29-36, the body of the [try]. *)
Definition safe_int_body (value default : pyval) : outcome pyval :=
  obind (truthy value) (fun t =>
  if t && strip_nonempty (py_str B value)
       && negb (String.eqb (py_str B value) "nan")
  then obind (int_of_float_of_str B (py_str B value)) (fun z => Returns (VInt z))
  else Returns default).

Definition safe_int (value default : pyval) : pyval :=
  try_except (safe_int_body value default) default.

End Builtins.

(** The batches, the two registries, the connection, and what the
    handler of the loop printed. *)
Record state : Type := {
  positions_batch : list position_row;
  degrees_batch : list degree_row;
  investments_batch : list investment_row;
  areas_of_interest_batch : list kind_row;
  investment_locations_batch : list kind_row;
  investor_stages_batch : list kind_row;
  image_urls_batch : list image_row;
  media_links_batch : list media_row;
  school_map : registry;
  company_map : registry;
  db : database;
  errors : list (nat * exn)
}.

Definition initial (db0 : database) : state :=
  {| positions_batch := []; degrees_batch := []; investments_batch := [];
     areas_of_interest_batch := []; investment_locations_batch := [];
     investor_stages_batch := []; image_urls_batch := [];
     media_links_batch := []; school_map := []; company_map := []; db := db0;
     errors := [] |}.

Definition set_positions_batch (v : list position_row) (s : state) : state :=
  {| positions_batch := v; degrees_batch := degrees_batch s;
     investments_batch := investments_batch s;
     areas_of_interest_batch := areas_of_interest_batch s;
     investment_locations_batch := investment_locations_batch s;
     investor_stages_batch := investor_stages_batch s;
     image_urls_batch := image_urls_batch s;
     media_links_batch := media_links_batch s; school_map := school_map s;
     company_map := company_map s; db := db s; errors := errors s |}.
Definition set_degrees_batch (v : list degree_row) (s : state) : state :=
  {| positions_batch := positions_batch s; degrees_batch := v;
     investments_batch := investments_batch s;
     areas_of_interest_batch := areas_of_interest_batch s;
     investment_locations_batch := investment_locations_batch s;
     investor_stages_batch := investor_stages_batch s;
     image_urls_batch := image_urls_batch s;
     media_links_batch := media_links_batch s; school_map := school_map s;
     company_map := company_map s; db := db s; errors := errors s |}.
Definition set_investments_batch (v : list investment_row) (s : state) : state :=
  {| positions_batch := positions_batch s; degrees_batch := degrees_batch s;
     investments_batch := v;
     areas_of_interest_batch := areas_of_interest_batch s;
     investment_locations_batch := investment_locations_batch s;
     investor_stages_batch := investor_stages_batch s;
     image_urls_batch := image_urls_batch s;
     media_links_batch := media_links_batch s; school_map := school_map s;
     company_map := company_map s; db := db s; errors := errors s |}.
Definition set_areas_of_interest_batch (v : list kind_row) (s : state) : state :=
  {| positions_batch := positions_batch s; degrees_batch := degrees_batch s;
     investments_batch := investments_batch s; areas_of_interest_batch := v;
     investment_locations_batch := investment_locations_batch s;
     investor_stages_batch := investor_stages_batch s;
     image_urls_batch := image_urls_batch s;
     media_links_batch := media_links_batch s; school_map := school_map s;
     company_map := company_map s; db := db s; errors := errors s |}.
Definition set_investment_locations_batch (v : list kind_row) (s : state) : state :=
  {| positions_batch := positions_batch s; degrees_batch := degrees_batch s;
     investments_batch := investments_batch s;
     areas_of_interest_batch := areas_of_interest_batch s;
     investment_locations_batch := v;
     investor_stages_batch := investor_stages_batch s;
     image_urls_batch := image_urls_batch s;
     media_links_batch := media_links_batch s; school_map := school_map s;
     company_map := company_map s; db := db s; errors := errors s |}.
Definition set_investor_stages_batch (v : list kind_row) (s : state) : state :=
  {| positions_batch := positions_batch s; degrees_batch := degrees_batch s;
     investments_batch := investments_batch s;
     areas_of_interest_batch := areas_of_interest_batch s;
     investment_locations_batch := investment_locations_batch s;
     investor_stages_batch := v; image_urls_batch := image_urls_batch s;
     media_links_batch := media_links_batch s; school_map := school_map s;
     company_map := company_map s; db := db s; errors := errors s |}.
Definition set_image_urls_batch (v : list image_row) (s : state) : state :=
  {| positions_batch := positions_batch s; degrees_batch := degrees_batch s;
     investments_batch := investments_batch s;
     areas_of_interest_batch := areas_of_interest_batch s;
     investment_locations_batch := investment_locations_batch s;
     investor_stages_batch := investor_stages_batch s; image_urls_batch := v;
     media_links_batch := media_links_batch s; school_map := school_map s;
     company_map := company_map s; db := db s; errors := errors s |}.
Definition set_media_links_batch (v : list media_row) (s : state) : state :=
  {| positions_batch := positions_batch s; degrees_batch := degrees_batch s;
     investments_batch := investments_batch s;
     areas_of_interest_batch := areas_of_interest_batch s;
     investment_locations_batch := investment_locations_batch s;
     investor_stages_batch := investor_stages_batch s;
     image_urls_batch := image_urls_batch s; media_links_batch := v;
     school_map := school_map s; company_map := company_map s; db := db s;
     errors := errors s |}.
Definition set_school_map (v : registry) (s : state) : state :=
  {| positions_batch := positions_batch s; degrees_batch := degrees_batch s;
     investments_batch := investments_batch s;
     areas_of_interest_batch := areas_of_interest_batch s;
     investment_locations_batch := investment_locations_batch s;
     investor_stages_batch := investor_stages_batch s;
     image_urls_batch := image_urls_batch s;
     media_links_batch := media_links_batch s; school_map := v;
     company_map := company_map s; db := db s; errors := errors s |}.
Definition set_company_map (v : registry) (s : state) : state :=
  {| positions_batch := positions_batch s; degrees_batch := degrees_batch s;
     investments_batch := investments_batch s;
     areas_of_interest_batch := areas_of_interest_batch s;
     investment_locations_batch := investment_locations_batch s;
     investor_stages_batch := investor_stages_batch s;
     image_urls_batch := image_urls_batch s;
     media_links_batch := media_links_batch s; school_map := school_map s;
     company_map := v; db := db s; errors := errors s |}.
Definition set_db (v : database) (s : state) : state :=
  {| positions_batch := positions_batch s; degrees_batch := degrees_batch s;
     investments_batch := investments_batch s;
     areas_of_interest_batch := areas_of_interest_batch s;
     investment_locations_batch := investment_locations_batch s;
     investor_stages_batch := investor_stages_batch s;
     image_urls_batch := image_urls_batch s;
     media_links_batch := media_links_batch s; school_map := school_map s;
     company_map := company_map s; db := v; errors := errors s |}.
Definition set_errors (v : list (nat * exn)) (s : state) : state :=
  {| positions_batch := positions_batch s; degrees_batch := degrees_batch s;
     investments_batch := investments_batch s;
     areas_of_interest_batch := areas_of_interest_batch s;
     investment_locations_batch := investment_locations_batch s;
     investor_stages_batch := investor_stages_batch s;
     image_urls_batch := image_urls_batch s;
     media_links_batch := media_links_batch s; school_map := school_map s;
     company_map := company_map s; db := db s; errors := v |}.

Definition push_position (r : position_row) (s : state) : state :=
  set_positions_batch (positions_batch s ++ [r]) s.
Definition push_degree (r : degree_row) (s : state) : state :=
  set_degrees_batch (degrees_batch s ++ [r]) s.
Definition push_investment (r : investment_row) (s : state) : state :=
  set_investments_batch (investments_batch s ++ [r]) s.
Definition push_area (r : kind_row) (s : state) : state :=
  set_areas_of_interest_batch (areas_of_interest_batch s ++ [r]) s.
Definition push_location (r : kind_row) (s : state) : state :=
  set_investment_locations_batch (investment_locations_batch s ++ [r]) s.
Definition push_stage (r : kind_row) (s : state) : state :=
  set_investor_stages_batch (investor_stages_batch s ++ [r]) s.
Definition push_image (r : image_row) (s : state) : state :=
  set_image_urls_batch (image_urls_batch s ++ [r]) s.
Definition push_media (r : media_row) (s : state) : state :=
  set_media_links_batch (media_links_batch s ++ [r]) s.

Definition elements (v : pyval) : list pyval :=
  match v with
  | VArr l | VList l => l
  | _ => []
  end.

(** [isinstance(v, dict) and v] *)
Definition nonempty_dict (v : pyval) : bool :=
  match v with
  | VDict d => nonempty d
  | _ => false
  end.

(** [SELECT id FROM persons WHERE slug = :slug], [fetchone()].  A text
    parameter is compared with the column, [None] compares as NULL and
    matches nothing, an empty list is sent as the text of an empty array;
    any other parameter makes the statement fail. *)
Definition select_person (persons : table dimension_row) (slug : pyval)
    : outcome (option nat) :=
  let by_text (t : string) :=
    option_map fst
      (find (fun r : nat * dimension_row =>
               match dim_key (snd r) with
               | VStr k => String.eqb k t
               | _ => false
               end) (rows persons)) in
  match slug with
  | VStr t => Returns (by_text t)
  | VNone => Returns None
  | VList [] => Returns (by_text "{}")
  | _ => Raises DatabaseError
  end.

(** [INSERT INTO companies ... RETURNING id] and the same for schools. *)
Definition insert_company (r : company_row) : M state nat :=
  fun s => (set_db (set_companies (fst (insert r (companies (db s)))) (db s)) s,
            Returns (snd (insert r (companies (db s))))).
Definition insert_school (r : school_row) : M state nat :=
  fun s => (set_db (set_schools (fst (insert r (schools (db s)))) (db s)) s,
            Returns (snd (insert r (schools (db s))))).

(** Lines 68-77.  The row is a Series. *)
Definition person_id_of (idx : nat) (row : list (string * pyval))
    : M state (option nat) :=
  let person_data := safe_get (VSeries row) "person" (VDict []) in
  if nonempty_dict person_data then
    let person_slug := safe_get person_data "slug" (person_token idx) in
    persons <- gets (fun s => persons (db s)) ;;
    lift (select_person persons person_slug)
  else ret None.

Section Builtins.
Variable B : builtins.

(** Lines 85-110: the company of a position, found in [company_map] or
    inserted and entered there.  The [try] around the statement guards
    the write, which is taken to succeed. *)
Definition company_id_of (company_data : pyval) : M state (option nat) :=
  if nonempty_dict company_data then
    let company_name := safe_get company_data "name" VNone in
    t <- lift (truthy company_name) ;;
    if t then
      k <- lift (hash_key company_name) ;;
      known <- gets (fun s => reg_get k (company_map s)) ;;
      match known with
      | None =>
          let r :=
            {| co_name := company_name;
               co_display_name := safe_get company_data "display_name" company_name;
               co_total_employee_count :=
                 safe_int B (safe_get company_data "total_employee_count" VNone)
                   VNone |} in
          company_id <- insert_company r ;;
          modify (fun s => set_company_map (reg_set k company_id (company_map s)) s) ;;;
          ret (Some company_id)
      | Some company_id => ret (Some company_id)
      end
    else ret None
  else ret None.

Definition date_part (d : pyval) (k : string) : pyval :=
  if is_dict d then safe_get d k VNone else VNone.

(** Section 1, lines 79-124. *)
Definition positions_step (person_id : option nat)
    (row : list (string * pyval)) : M state unit :=
  let positions_data := get row "positions" VNone in
  match person_id with
  | Some (S _ as p) =>
      when (is_valid_array positions_data)
        (for_each (elements positions_data) (fun pos =>
           when (is_dict pos)
             (let company_data := safe_get pos "company" (VDict []) in
              company_id <- company_id_of company_data ;;
              let start_date := safe_get pos "start_date" (VDict []) in
              let end_date := safe_get pos "end_date" (VDict []) in
              modify (push_position
                {| pos_person_id := p;
                   pos_company_id := company_id;
                   pos_title := safe_get pos "title" VNone;
                   pos_start_month := date_part start_date "month";
                   pos_start_year := date_part start_date "year";
                   pos_end_month := date_part end_date "month";
                   pos_end_year := date_part end_date "year" |}))))
  | _ => ret tt
  end.

(** Lines 131-157. *)
Definition school_id_of (school_data : pyval) : M state (option nat) :=
  if nonempty_dict school_data then
    let school_name := safe_get school_data "name" VNone in
    t <- lift (truthy school_name) ;;
    if t then
      k <- lift (hash_key school_name) ;;
      known <- gets (fun s => reg_get k (school_map s)) ;;
      match known with
      | None =>
          let r :=
            {| sc_name := school_name;
               sc_display_name := safe_get school_data "display_name" school_name;
               sc_total_student_count :=
                 safe_int B (safe_get school_data "total_student_count" VNone)
                   VNone |} in
          school_id <- insert_school r ;;
          modify (fun s => set_school_map (reg_set k school_id (school_map s)) s) ;;;
          ret (Some school_id)
      | Some school_id => ret (Some school_id)
      end
    else ret None
  else ret None.

(** Section 2, lines 126-164. *)
Definition degrees_step (person_id : option nat)
    (row : list (string * pyval)) : M state unit :=
  let degrees_data := get row "degrees" VNone in
  match person_id with
  | Some (S _ as p) =>
      when (is_valid_array degrees_data)
        (for_each (elements degrees_data) (fun degree =>
           when (is_dict degree)
             (let school_data := safe_get degree "school" (VDict []) in
              school_id <- school_id_of school_data ;;
              modify (push_degree
                {| deg_person_id := p;
                   deg_school_id := school_id;
                   deg_degree_name := safe_get degree "name" VNone;
                   deg_field_of_study := safe_get degree "field_of_study" VNone |}))))
  | _ => ret tt
  end.

(** Line 182: the stored payload. *)
Definition total_raised_json (total_raised : pyval) : outcome (option string) :=
  match total_raised with
  | VNone => Returns None
  | VArr l => obind (json_dumps (tolist l)) (fun s => Returns (Some s))
  | _ => obind (json_dumps total_raised) (fun s => Returns (Some s))
  end.

(** Section 3, lines 166-183. *)
Definition investments_step (investor_id : nat)
    (row : list (string * pyval)) : M state unit :=
  let investments_data := get row "investments_on_record" VNone in
  when (is_dict investments_data)
    (let edges := safe_get investments_data "edges" (VList []) in
     when (is_valid_array edges)
       (for_each (elements edges) (fun edge =>
          when (is_dict edge)
            (let node := safe_get edge "node" (VDict []) in
             when (is_dict node)
               (let company_name := safe_get node "company_display_name" VNone in
                let total_raised := safe_get node "total_raised" (VList []) in
                t <- lift (truthy company_name) ;;
                when t
                  (json <- lift (total_raised_json total_raised) ;;
                   modify (push_investment
                     {| inv_investor_id := investor_id;
                        inv_company_display_name := company_name;
                        inv_total_raised_json := json |}))))))).

(** Sections 4, 5 and 6. *)
Definition kind_step (field : string) (push : kind_row -> state -> state)
    (investor_id : nat) (row : list (string * pyval)) : M state unit :=
  let items := get row field VNone in
  when (is_valid_array items)
    (for_each (elements items) (fun item =>
       when (is_dict item)
         (modify (push {| kr_investor_id := investor_id;
                          kr_kind := safe_get item "kind" VNone;
                          kr_display_name := safe_get item "display_name" VNone |})))).

(** Section 7, both arrays. *)
Definition image_step (field : string) (edit_mode : bool)
    (investor_id : nat) (row : list (string * pyval)) : M state unit :=
  let urls := get row field VNone in
  when (is_valid_array urls)
    (for_each (elements urls) (fun url =>
       t <- lift (truthy url) ;;
       when (t && is_str url)
         (modify (push_image {| im_investor_id := investor_id;
                                im_url := url;
                                im_is_edit_mode := edit_mode |})))).

(** Section 8. *)
Definition media_step (investor_id : nat) (row : list (string * pyval))
    : M state unit :=
  let media_data := get row "media_links" VNone in
  when (is_valid_array media_data)
    (for_each (elements media_data) (fun media =>
       when (is_dict media)
         (modify (push_media {| ml_investor_id := investor_id;
                                ml_url := safe_get media "url" VNone;
                                ml_title := safe_get media "title" VNone;
                                ml_image_url := safe_get media "image_url" VNone |})))).

(** The body of the [try], lines 66-250. *)
Definition record_body (idx : nat) (row : list (string * pyval))
    : M state unit :=
  let investor_id := idx + 1 in
  person_id <- person_id_of idx row ;;
  positions_step person_id row ;;;
  degrees_step person_id row ;;;
  investments_step investor_id row ;;;
  kind_step "areas_of_interest" push_area investor_id row ;;;
  kind_step "investment_locations" push_location investor_id row ;;;
  kind_step "stages" push_stage investor_id row ;;;
  image_step "image_urls" false investor_id row ;;;
  image_step "image_urls_edit_mode" true investor_id row ;;;
  media_step investor_id row.

(** [try: body / except Exception as e: print(idx, e); continue] *)
Definition guarded (idx : nat) (row : list (string * pyval)) (s : state)
    : state :=
  match record_body idx row s with
  | (s', Returns _) => s'
  | (s', Raises e) => set_errors (errors s' ++ [(idx, e)]) s'
  end.

Fixpoint process_from (idx : nat) (df : list (list (string * pyval)))
    (s : state) : state :=
  match df with
  | [] => s
  | row :: rest => process_from (S idx) rest (guarded idx row s)
  end.

(** Lines 256-289. *)
Definition final_bulk_insert (s : state) : state :=
  set_db
    (to_sql_media_links (media_links_batch s)
    (to_sql_image_urls (image_urls_batch s)
    (to_sql_investor_stages (investor_stages_batch s)
    (to_sql_investment_locations (investment_locations_batch s)
    (to_sql_areas_of_interest (areas_of_interest_batch s)
    (to_sql_investments (investments_batch s)
    (to_sql_degrees (degrees_batch s)
    (to_sql_positions (positions_batch s) (db s))))))))) s.

Definition process_nested_data (df : list (list (string * pyval)))
    (db0 : database) : state :=
  final_bulk_insert (process_from 0 df (initial db0)).

End Builtins.

End PopulateNestedDataFixed.

(* ===================================================================== *)
(** * export_relational_fast.py *)
(* ===================================================================== *)

Module ExportRelationalFast.
Import Py Helpers Run Storage Rows Database.
Local Open Scope run_scope.

(** [row.get(f, {}) if pd.notna(row.get(f)) else {}] *)
Definition nested (row : list (string * pyval)) (field : string)
    : outcome pyval :=
  obind (notna_truth (get row field VNone)) (fun t =>
  Returns (if t then get row field (VDict []) else VDict [])).

Definition nonempty_dict (v : pyval) : bool :=
  match v with
  | VDict d => nonempty d
  | _ => false
  end.

(** [d.get(k, default)] behind an [isinstance(d, dict)] test. *)
Definition dict_get (v : pyval) (k : string) (default : pyval) : pyval :=
  match v with
  | VDict d => get d k default
  | _ => default
  end.

Section Builtins.
Variable B : builtins.

(** Lines 246-260. *)
Definition person_entry (idx : nat) (person : pyval) : dimension_row :=
  {| dim_key := dict_get person "slug" (person_token idx);
     dim_columns :=
       [("first_name", dict_get person "first_name" VNone);
        ("last_name", dict_get person "last_name" VNone);
        ("name", dict_get person "name" VNone);
        ("linkedin_url", dict_get person "linkedin_url" VNone);
        ("facebook_url",
           VStr (py_str B (dict_get person "facebook_url" (VStr ""))));
        ("twitter_url", dict_get person "twitter_url" VNone);
        ("crunchbase_url", dict_get person "crunchbase_url" VNone);
        ("angellist_url", dict_get person "angellist_url" VNone);
        ("url", dict_get person "url" VNone);
        ("is_me", dict_get person "is_me" (VBool false));
        ("first_degree_count", dict_get person "first_degree_count" VNone);
        ("is_on_target_list", dict_get person "is_on_target_list" (VBool false))] |}.

(** Lines 265-269. *)
Definition firm_entry (idx : nat) (firm : pyval) : dimension_row :=
  {| dim_key := dict_get firm "slug" (firm_token idx);
     dim_columns :=
       [("name", dict_get firm "name" VNone);
        ("current_fund_size", dict_get firm "current_fund_size" VNone)] |}.

(** Lines 274-277. *)
Definition location_entry (location : pyval) : dimension_row :=
  {| dim_key := dict_get location "display_name" VNone;
     dim_columns := [("kind", dict_get location "kind" (VStr "location"))] |}.

(** What the first loop collects. *)
Record collected : Type := {
  persons_data : list dimension_row;
  firms_data : list dimension_row;
  locations_data : list dimension_row
}.

(** Lines 239-277: the first loop. *)
Fixpoint collect (idx : nat) (df : list (list (string * pyval)))
    (acc : collected) : outcome collected :=
  match df with
  | [] => Returns acc
  | row :: rest =>
      obind (nested row "person") (fun person =>
      let ps := if nonempty_dict person
                then persons_data acc ++ [person_entry idx person]
                else persons_data acc in
      obind (nested row "firm") (fun firm =>
      let fs := if nonempty_dict firm
                then firms_data acc ++ [firm_entry idx firm]
                else firms_data acc in
      obind (nested row "location") (fun location =>
      let ls := if nonempty_dict location
                then locations_data acc ++ [location_entry location]
                else locations_data acc in
      collect (S idx) rest
        {| persons_data := ps; firms_data := fs; locations_data := ls |})))
  end.

(** [drop_duplicates(subset=[key])]: the first row of each key stays. *)
Fixpoint drop_duplicates (rs : list dimension_row) (seen : list hkey)
    : outcome (list dimension_row) :=
  match rs with
  | [] => Returns []
  | r :: rest =>
      obind (hash_key (dim_key r)) (fun k =>
      if existsb (hkey_eqb k) seen then drop_duplicates rest seen
      else obind (drop_duplicates rest (k :: seen)) (fun kept =>
           Returns (r :: kept)))
  end.

(** The nine boolean columns, in the order of the dict. *)
Definition flag_columns : list string :=
  ["claimed"; "can_edit"; "include_in_list"; "in_founder_investor_list";
   "in_diverse_investor_list"; "in_female_investor_list";
   "in_invests_in_diverse_founders_investor_list";
   "in_invests_in_female_founders_investor_list"; "has_profile_vote"].

(** The columns copied as they are. *)
Definition text_columns : list string :=
  ["position"; "headline"; "previous_position"; "previous_firm";
   "min_investment"; "max_investment"; "target_investment";
   "areas_of_interest_freeform"; "no_current_interest_freeform";
   "leads_rounds"].

(** Lines 326-336: a reference is looked up when the nested object is a
    non-empty dict. *)
Definition reference (map : registry) (v key : pyval) : outcome (option nat) :=
  if nonempty_dict v
  then obind (hash_key key) (fun k => Returns (reg_get k map))
  else Returns None.

(** Line 351. *)
Definition vote_count_of (row : list (string * pyval)) : outcome pyval :=
  obind (notna_truth (get row "vote_count" VNone)) (fun t =>
  if t then obind (py_int B (get row "vote_count" (VInt 0)))
              (fun z => Returns (VInt z))
  else Returns (VInt 0)).

(** Lines 317-362: [investor_data] of one row. *)
Definition investor_data (person_map firm_map location_map : registry)
    (idx : nat) (row : list (string * pyval)) : outcome investor_row :=
  obind (nested row "person") (fun person =>
  obind (nested row "firm") (fun firm =>
  obind (nested row "location") (fun location =>
  obind (reference person_map person
           (dict_get person "slug" (person_token idx))) (fun person_id =>
  obind (reference firm_map firm
           (dict_get firm "slug" (firm_token idx))) (fun firm_id =>
  obind (reference location_map location
           (dict_get location "display_name" VNone)) (fun location_id =>
  obind (vote_count_of row) (fun vote_count =>
  obind (map_outcome
           (fun c => obind (truthy (get row c (VBool false)))
                       (fun b => Returns (c, VBool b)))
           flag_columns) (fun flags =>
  Returns {| i_person_id := person_id;
             i_firm_id := firm_id;
             i_location_id := location_id;
             i_texts := map (fun c => (c, get row c VNone)) text_columns;
             i_vote_count := vote_count;
             i_flags := flags |})))))))).

(** Lines 313-375: the second loop, with a write every 1000 rows and one
    at the end for what is left. *)
Fixpoint create_investors (person_map firm_map location_map : registry)
    (idx : nat) (df : list (list (string * pyval)))
    (investors_batch : list investor_row) : M database unit :=
  match df with
  | [] => modify (to_sql_investors investors_batch)
  | row :: rest =>
      r <- lift (investor_data person_map firm_map location_map idx row) ;;
      let investors_batch := investors_batch ++ [r] in
      if Nat.leb 1000 (List.length investors_batch) then
        modify (to_sql_investors investors_batch) ;;;
        create_investors person_map firm_map location_map (S idx) rest []
      else
        create_investors person_map firm_map location_map (S idx) rest
          investors_batch
  end.

(** [extract_and_bulk_insert]. *)
Definition extract_and_bulk_insert (df : list (list (string * pyval)))
    : M database unit :=
  c <- lift (collect 0 df
               {| persons_data := []; firms_data := []; locations_data := [] |}) ;;
  persons_df <- lift (drop_duplicates (persons_data c) []) ;;
  modify (to_sql_persons persons_df) ;;;
  firms_df <- lift (drop_duplicates (firms_data c) []) ;;
  modify (to_sql_firms firms_df) ;;;
  locations_df <- lift (drop_duplicates (locations_data c) []) ;;
  modify (to_sql_locations locations_df) ;;;
  person_map <- gets (fun db => select_map dim_key (persons db)) ;;
  firm_map <- gets (fun db => select_map dim_key (firms db)) ;;
  location_map <- gets (fun db => select_map dim_key (locations db)) ;;
  create_investors person_map firm_map location_map 0 df [].

End Builtins.

End ExportRelationalFast.

(* ===================================================================== *)
(** * export_relational.py *)
(* ===================================================================== *)

Module ExportRelational.
Import Py Helpers Run Storage Rows Database.
Local Open Scope run_scope.

(** The three registries, the connection with its open transaction, what
    the last [commit] left, and what the handler printed. *)
Record state : Type := {
  person_map : registry;
  firm_map : registry;
  location_map : registry;
  db : database;
  committed : database;
  errors : list (nat * exn)
}.

Definition initial (db0 : database) : state :=
  {| person_map := []; firm_map := []; location_map := []; db := db0;
     committed := db0; errors := [] |}.

Definition set_person_map (v : registry) (s : state) : state :=
  {| person_map := v; firm_map := firm_map s; location_map := location_map s;
     db := db s; committed := committed s; errors := errors s |}.
Definition set_firm_map (v : registry) (s : state) : state :=
  {| person_map := person_map s; firm_map := v;
     location_map := location_map s; db := db s; committed := committed s;
     errors := errors s |}.
Definition set_location_map (v : registry) (s : state) : state :=
  {| person_map := person_map s; firm_map := firm_map s; location_map := v;
     db := db s; committed := committed s; errors := errors s |}.
Definition set_db (v : database) (s : state) : state :=
  {| person_map := person_map s; firm_map := firm_map s;
     location_map := location_map s; db := v; committed := committed s;
     errors := errors s |}.
Definition set_committed (v : database) (s : state) : state :=
  {| person_map := person_map s; firm_map := firm_map s;
     location_map := location_map s; db := db s; committed := v;
     errors := errors s |}.
Definition set_errors (v : list (nat * exn)) (s : state) : state :=
  {| person_map := person_map s; firm_map := firm_map s;
     location_map := location_map s; db := db s; committed := committed s;
     errors := v |}.

(** [conn.commit()] *)
Definition commit (s : state) : state := set_committed (db s) s.

(** [conn.rollback()]: the rows go back to the last commit; a sequence
    does not take back the values it handed out. *)
Definition rolled_back {A} (now before : table A) : table A :=
  {| rows := rows before; next_id := next_id now |}.

Definition rollback (s : state) : state :=
  set_db
    (set_investors (rolled_back (investors (db s)) (investors (committed s)))
    (set_locations (rolled_back (locations (db s)) (locations (committed s)))
    (set_firms (rolled_back (firms (db s)) (firms (committed s)))
    (set_persons (rolled_back (persons (db s)) (persons (committed s)))
       (db s))))) s.

Definition insert_person (r : dimension_row) : M state nat :=
  fun s => let (t, i) := insert r (persons (db s)) in
           (set_db (set_persons t (db s)) s, Returns i).
Definition insert_firm (r : dimension_row) : M state nat :=
  fun s => let (t, i) := insert r (firms (db s)) in
           (set_db (set_firms t (db s)) s, Returns i).
Definition insert_location (r : dimension_row) : M state nat :=
  fun s => let (t, i) := insert r (locations (db s)) in
           (set_db (set_locations t (db s)) s, Returns i).
Definition insert_investor (r : investor_row) : M state nat :=
  fun s => let (t, i) := insert r (investors (db s)) in
           (set_db (set_investors t (db s)) s, Returns i).

Section Builtins.
Variable B : builtins.

Definition safe_int := PopulateNestedData.safe_int B.

(** Lines 303-333: the person of a record, given [person_data]. *)
Definition person_of (idx : nat) (person_data : pyval) : M state (option nat) :=
  t <- lift (truthy person_data) ;;
  if t && is_dict person_data then
    let person_slug := safe_get person_data "slug" (person_token idx) in
    k <- lift (hash_key person_slug) ;;
    known <- gets (fun s => reg_get k (person_map s)) ;;
    match known with
    | None =>
        person_id <- insert_person
          {| dim_key := person_slug;
             dim_columns :=
               [("first_name", safe_get person_data "first_name" VNone);
                ("last_name", safe_get person_data "last_name" VNone);
                ("name", safe_get person_data "name" VNone);
                ("linkedin_url", safe_get person_data "linkedin_url" VNone);
                ("facebook_url",
                   VStr (py_str B (safe_get person_data "facebook_url" (VStr ""))));
                ("twitter_url", safe_get person_data "twitter_url" VNone);
                ("crunchbase_url", safe_get person_data "crunchbase_url" VNone);
                ("angellist_url", safe_get person_data "angellist_url" VNone);
                ("url", safe_get person_data "url" VNone);
                ("is_me", safe_get person_data "is_me" (VBool false));
                ("first_degree_count",
                   safe_int (safe_get person_data "first_degree_count" VNone) VNone);
                ("is_on_target_list",
                   safe_get person_data "is_on_target_list" (VBool false))] |} ;;
        modify (fun s => set_person_map (reg_set k person_id (person_map s)) s) ;;;
        ret (Some person_id)
    | Some person_id => ret (Some person_id)
    end
  else ret None.

(** Lines 339-353. *)
Definition location_of (location_data : pyval) : M state (option nat) :=
  t <- lift (truthy location_data) ;;
  if t && is_dict location_data then
    let location_name := safe_get location_data "display_name" VNone in
    named <- lift (truthy location_name) ;;
    if named then
      k <- lift (hash_key location_name) ;;
      known <- gets (fun s => reg_get k (location_map s)) ;;
      match known with
      | None =>
          location_id <- insert_location
            {| dim_key := location_name;
               dim_columns :=
                 [("kind", safe_get location_data "kind" (VStr "location"))] |} ;;
          modify (fun s =>
            set_location_map (reg_set k location_id (location_map s)) s) ;;;
          ret (Some location_id)
      | Some location_id => ret (Some location_id)
      end
    else ret None
  else ret None.

(** Lines 359-375. *)
Definition firm_of (idx : nat) (firm_data : pyval) : M state (option nat) :=
  t <- lift (truthy firm_data) ;;
  if t && is_dict firm_data then
    let firm_slug := safe_get firm_data "slug" (firm_token idx) in
    k <- lift (hash_key firm_slug) ;;
    known <- gets (fun s => reg_get k (firm_map s)) ;;
    match known with
    | None =>
        firm_id <- insert_firm
          {| dim_key := firm_slug;
             dim_columns :=
               [("name", safe_get firm_data "name" VNone);
                ("current_fund_size",
                   safe_get firm_data "current_fund_size" VNone)] |} ;;
        modify (fun s => set_firm_map (reg_set k firm_id (firm_map s)) s) ;;;
        ret (Some firm_id)
    | Some firm_id => ret (Some firm_id)
    end
  else ret None.

Definition text_columns : list string :=
  ["position"; "headline"; "previous_position"; "previous_firm";
   "min_investment"; "max_investment"; "target_investment";
   "areas_of_interest_freeform"; "no_current_interest_freeform";
   "leads_rounds"].

Definition flag_columns : list string :=
  ["claimed"; "can_edit"; "include_in_list"; "in_founder_investor_list";
   "in_diverse_investor_list"; "in_female_investor_list";
   "in_invests_in_diverse_founders_investor_list";
   "in_invests_in_female_founders_investor_list"; "has_profile_vote"].

(** The body of the [try], lines 299-427.  [row] is the Series that
    [df.iterrows()] yields, passed to [safe_get] as it is. *)
Definition record_body (idx : nat) (row : list (string * pyval))
    : M state unit :=
  let row := VSeries row in
  person_id <- person_of idx (safe_get row "person" (VDict [])) ;;
  location_id <- location_of (safe_get row "location" (VDict [])) ;;
  firm_id <- firm_of idx (safe_get row "firm" (VDict [])) ;;
  insert_investor
    {| i_person_id := person_id;
       i_firm_id := firm_id;
       i_location_id := location_id;
       i_texts := map (fun c => (c, safe_get row c VNone)) text_columns;
       i_vote_count := safe_int (safe_get row "vote_count" VNone) (VInt 0);
       i_flags := map (fun c => (c, safe_get row c (VBool false))) flag_columns |} ;;;
  modify commit.

(** [try: body / except Exception as e: print; conn.rollback(); continue] *)
Definition guarded (idx : nat) (row : list (string * pyval)) (s : state)
    : state :=
  match record_body idx row s with
  | (s', Returns _) => s'
  | (s', Raises e) => rollback (set_errors (errors s' ++ [(idx, e)]) s')
  end.

Fixpoint process_from (idx : nat) (df : list (list (string * pyval)))
    (s : state) : state :=
  match df with
  | [] => s
  | row :: rest => process_from (S idx) rest (guarded idx row s)
  end.

Definition process_investor_data (df : list (list (string * pyval)))
    (db0 : database) : state :=
  process_from 0 df (initial db0).

End Builtins.

End ExportRelational.

(* ===================================================================== *)
(** * Shapes of input *)
(* ===================================================================== *)

Module Shapes.
Import Py Helpers.

(** What a row can hold under the label of a nested array for the array
    to count as missing: no such label, None, NaN, or an array without
    elements. *)
Inductive blank : option pyval -> Prop :=
| blank_absent : blank None
| blank_none : blank (Some VNone)
| blank_nan : blank (Some VNaN)
| blank_empty : blank (Some (VArr [])).

(** Two rows that differ at most under one label. *)
Definition same_elsewhere (f : string) (row1 row2 : list (string * pyval))
    : Prop :=
  forall g, g <> f -> assoc g row1 = assoc g row2.

(** What two rows must share under a label for a step that reads the
    label to do the same on both. *)
Definition alike (row1 row2 : list (string * pyval)) (g : string) : Prop :=
  get row1 g VNone = get row2 g VNone
  \/ (is_valid_array (get row1 g VNone) = false
      /\ is_dict (get row1 g VNone) = false
      /\ is_valid_array (get row2 g VNone) = false
      /\ is_dict (get row2 g VNone) = false).

(** An investment row that names its company. *)
Definition named (r : Rows.investment_row) : Prop :=
  truthy (Rows.inv_company_display_name r) = Returns true.

(** A row whose only investment edge has a node without
    [company_display_name]. *)
Definition nameless_investment : list (string * pyval) :=
  [("investments_on_record",
    VDict [("edges",
            VArr [VDict [("node",
                          VDict [("total_raised", VArr [VInt 1; VInt 2])])]])])].

(** A concrete reading of the three builtins, for the examples. *)
Definition plain_builtins : builtins :=
  {| py_repr := fun _ => "<object>";
     float_int := fun _ => Raises ValueError;
     int_str := fun s =>
       match plain_decimal s with
       | Some z => Returns z
       | None => Raises ValueError
       end |}.

(** The investment rows collected so far all name their company. *)
Definition keeps_named (s s' : PopulateNestedDataFixed.state) : Prop :=
  Forall named (PopulateNestedDataFixed.investments_batch s) ->
  Forall named (PopulateNestedDataFixed.investments_batch s').

(** A row whose only investment names its company and carries an empty
    funding payload. *)
Definition empty_payload_investment : list (string * pyval) :=
  [("investments_on_record",
    VDict [("edges",
            VArr [VDict [("node",
                          VDict [("company_display_name", VStr "Acme");
                                 ("total_raised", VArr [])])]])])].

(** The payload after [tolist()]. *)
Definition listed (total_raised : pyval) : pyval :=
  match total_raised with
  | VArr l => tolist l
  | _ => total_raised
  end.

(** ** What a step may append *)

(** [l'] is [l] followed by rows that all satisfy [P]. *)
Definition extends {A} (P : A -> Prop) (l l' : list A) : Prop :=
  exists d, l' = l ++ d /\ Forall P d.

(** One predicate for each batch. *)
Record row_predicates (Pos Deg : Type) : Type := {
  on_position : Pos -> Prop;
  on_degree : Deg -> Prop;
  on_investment : Rows.investment_row -> Prop;
  on_area : Rows.kind_row -> Prop;
  on_location : Rows.kind_row -> Prop;
  on_stage : Rows.kind_row -> Prop;
  on_image : Rows.image_row -> Prop;
  on_media : Rows.media_row -> Prop
}.
Arguments on_position {Pos Deg} _ _.
Arguments on_degree {Pos Deg} _ _.
Arguments on_investment {Pos Deg} _ _.
Arguments on_area {Pos Deg} _ _.
Arguments on_location {Pos Deg} _ _.
Arguments on_stage {Pos Deg} _ _.
Arguments on_image {Pos Deg} _ _.
Arguments on_media {Pos Deg} _ _.

(** The lists of [complete_population.py] grow by rows that satisfy the
    predicate of their list. *)
Definition cp_grows
    (P : row_predicates CompletePopulation.position_draft
           CompletePopulation.degree_draft)
    (b b' : CompletePopulation.batches) : Prop :=
  extends (on_position P) (CompletePopulation.all_positions b)
    (CompletePopulation.all_positions b')
  /\ extends (on_degree P) (CompletePopulation.all_degrees b)
       (CompletePopulation.all_degrees b')
  /\ extends (on_investment P) (CompletePopulation.all_investments b)
       (CompletePopulation.all_investments b')
  /\ extends (on_area P) (CompletePopulation.all_areas b)
       (CompletePopulation.all_areas b')
  /\ extends (on_location P) (CompletePopulation.all_locations b)
       (CompletePopulation.all_locations b')
  /\ extends (on_stage P) (CompletePopulation.all_stages b)
       (CompletePopulation.all_stages b')
  /\ extends (on_image P) (CompletePopulation.all_images b)
       (CompletePopulation.all_images b')
  /\ extends (on_media P) (CompletePopulation.all_media b)
       (CompletePopulation.all_media b').

(** The same for the batches of [populate_nested_data_fixed.py]; the
    registries, the connection and the error log are left free. *)
Definition fixed_grows (P : row_predicates Rows.position_row Rows.degree_row)
    (s s' : PopulateNestedDataFixed.state) : Prop :=
  extends (on_position P) (PopulateNestedDataFixed.positions_batch s)
    (PopulateNestedDataFixed.positions_batch s')
  /\ extends (on_degree P) (PopulateNestedDataFixed.degrees_batch s)
       (PopulateNestedDataFixed.degrees_batch s')
  /\ extends (on_investment P) (PopulateNestedDataFixed.investments_batch s)
       (PopulateNestedDataFixed.investments_batch s')
  /\ extends (on_area P) (PopulateNestedDataFixed.areas_of_interest_batch s)
       (PopulateNestedDataFixed.areas_of_interest_batch s')
  /\ extends (on_location P) (PopulateNestedDataFixed.investment_locations_batch s)
       (PopulateNestedDataFixed.investment_locations_batch s')
  /\ extends (on_stage P) (PopulateNestedDataFixed.investor_stages_batch s)
       (PopulateNestedDataFixed.investor_stages_batch s')
  /\ extends (on_image P) (PopulateNestedDataFixed.image_urls_batch s)
       (PopulateNestedDataFixed.image_urls_batch s')
  /\ extends (on_media P) (PopulateNestedDataFixed.media_links_batch s)
       (PopulateNestedDataFixed.media_links_batch s').

(** No row at all. *)
Definition never {A} (_ : A) : Prop := False.
(** Any row. *)
Definition any {A} (_ : A) : Prop := True.

(** No position and no degree; anything else. *)
Definition no_career {Pos Deg} : row_predicates Pos Deg :=
  {| on_position := never; on_degree := never; on_investment := any;
     on_area := any; on_location := any; on_stage := any;
     on_image := any; on_media := any |}.

(** Every row keyed by an investor carries the id [inv]. *)
Definition of_investor {Pos Deg} (inv : nat) : row_predicates Pos Deg :=
  {| on_position := any; on_degree := any;
     on_investment := fun r => Rows.inv_investor_id r = inv;
     on_area := fun r => Rows.kr_investor_id r = inv;
     on_location := fun r => Rows.kr_investor_id r = inv;
     on_stage := fun r => Rows.kr_investor_id r = inv;
     on_image := fun r => Rows.im_investor_id r = inv;
     on_media := fun r => Rows.ml_investor_id r = inv |}.

(** Every position and degree of [complete_population.py] carries the
    person [p]. *)
Definition cp_of_person (p : nat)
    : row_predicates CompletePopulation.position_draft
        CompletePopulation.degree_draft :=
  {| on_position := fun r => CompletePopulation.pd_person_id r = p;
     on_degree := fun r => CompletePopulation.dd_person_id r = p;
     on_investment := any; on_area := any; on_location := any;
     on_stage := any; on_image := any; on_media := any |}.

(** Every position and degree of [populate_nested_data_fixed.py] carries
    the person that was resolved, and one was. *)
Definition fixed_of_person (person_id : option nat)
    : row_predicates Rows.position_row Rows.degree_row :=
  {| on_position := fun r =>
       person_id = Some (Rows.pos_person_id r) /\ Rows.pos_person_id r <> 0;
     on_degree := fun r =>
       person_id = Some (Rows.deg_person_id r) /\ Rows.deg_person_id r <> 0;
     on_investment := any; on_area := any; on_location := any;
     on_stage := any; on_image := any; on_media := any |}.

(** The nested [person] of a row is not a dict. *)
Definition not_mapping (o : option pyval) : Prop :=
  match o with
  | Some (VDict _) => False
  | _ => True
  end.

(** The nested [person] of a row is absent, null or a scalar. *)
Definition missing_or_scalar (o : option pyval) : Prop :=
  match o with
  | None | Some VNone | Some VNaN
  | Some (VBool _) | Some (VInt _) | Some (VStr _) => True
  | _ => False
  end.

(** A row whose funding payload is an array of arrays, as pyarrow makes
    of a parquet list of lists: [tolist()] leaves the inner array in
    place and [json.dumps] raises [TypeError] on it. *)
Definition unserialisable_record : list (string * pyval) :=
  [("investments_on_record",
    VDict [("edges",
            VArr [VDict [("node",
                          VDict [("company_display_name", VStr "Acme");
                                 ("total_raised",
                                  VArr [VArr [VInt 1; VInt 2]])])]])])].

(** A row with one area of interest. *)
Definition plain_record : list (string * pyval) :=
  [("areas_of_interest",
    VArr [VDict [("kind", VStr "sector"); ("display_name", VStr "Fintech")]])].

(** A row with no person, and one position. *)
Definition orphan_record : list (string * pyval) :=
  [("person", VNone);
   ("positions", VArr [VDict [("title", VStr "Partner")]])].

(** Every row can be hashed on its natural key. *)
Definition hashable (rs : list Rows.dimension_row) : Prop :=
  Forall (fun r => returned (hash_key (Rows.dim_key r)) = true) rs.

(** The fact row of every record of the frame can be built: reading the
    three nested objects, hashing a natural key, converting the vote
    count and taking the truth value of the nine flags all return.  The
    registries play no part in whether they do. *)
Definition fact_rows_build (B : builtins) (idx : nat)
    (df : list (list (string * pyval))) : Prop :=
  forall j row, nth_error df j = Some row ->
    returned (ExportRelationalFast.investor_data B [] [] [] (idx + j) row) = true.

(** The scenario of the specification: two records of one person, the
    first with a firm and a position at a company, the second without a
    firm and with an empty array of positions. *)
Definition alice : pyval := VDict [("slug", VStr "a"); ("name", VStr "Alice")].

Definition scenario : list (list (string * pyval)) :=
  [ [("person", alice);
     ("firm", VDict [("slug", VStr "f1"); ("name", VStr "Acme")]);
     ("positions",
      VArr [VDict [("title", VStr "Partner");
                   ("company", VDict [("name", VStr "Acme")])]])];
    [("person", alice); ("firm", VNone); ("positions", VArr [])] ].

(** ** Rows as a typed parquet file gives them *)

Definition plain_scalar (v : pyval) : bool :=
  match v with
  | VNone | VNaN | VBool _ | VInt _ | VStr _ => true
  | VList _ | VArr _ | VDict _ | VSeries _ => false
  end.

(** A nested person, firm or location: absent, a scalar (None and NaN
    among them), or a dict whose natural key, when it has one, is a
    scalar. *)
Definition dimension_shape (key : string) (o : option pyval) : bool :=
  match o with
  | None => true
  | Some (VDict d) =>
      match assoc key d with
      | None => true
      | Some k => plain_scalar k
      end
  | Some v => plain_scalar v
  end.

Definition count_shape (o : option pyval) : bool :=
  match o with
  | None | Some VNone | Some VNaN | Some (VInt _) | Some (VBool _) => true
  | _ => false
  end.

Definition flag_shape (o : option pyval) : bool :=
  match o with
  | None => true
  | Some v => plain_scalar v
  end.

Definition ordinary_row (row : list (string * pyval)) : bool :=
  dimension_shape "slug" (assoc "person" row)
  && dimension_shape "slug" (assoc "firm" row)
  && dimension_shape "display_name" (assoc "location" row)
  && count_shape (assoc "vote_count" row)
  && forallb (fun c => flag_shape (assoc c row))
       ExportRelationalFast.flag_columns.

(** The investor row that [export_relational.py] inserts: every column
    is the default of its [safe_get]. *)
Definition blank_investor : Rows.investor_row :=
  {| Rows.i_person_id := None;
     Rows.i_firm_id := None;
     Rows.i_location_id := None;
     Rows.i_texts := map (fun c => (c, VNone)) ExportRelational.text_columns;
     Rows.i_vote_count := VInt 0;
     Rows.i_flags := map (fun c => (c, VBool false)) ExportRelational.flag_columns |}.

(** ** Registries and the rows behind them *)

(** The id of the last row of a table whose key hashes to [k]: what
    [select_map] maps [k] to. *)
Fixpoint last_id {A} (key : A -> pyval) (k : hkey) (rs : list (nat * A))
    : option nat :=
  match rs with
  | [] => None
  | (i, r) :: rest =>
      match last_id key k rest with
      | Some j => Some j
      | None =>
          match hash_key (key r) with
          | Returns k' => if hkey_eqb k k' then Some i else None
          | Raises _ => None
          end
      end
  end.

(** [company_map] and the company rows written since [base] go in step:
    one row for each registered name, in the order of registration, the
    row carrying the registered id and a name that hashes to the
    registered key; no name is registered twice. *)
Definition companies_in_step (base : list (nat * Rows.company_row))
    (s : PopulateNestedDataFixed.state) : Prop :=
  exists added,
    Storage.rows (Database.companies (PopulateNestedDataFixed.db s))
    = base ++ added
    /\ Forall2 (fun (kv : hkey * nat) (ir : nat * Rows.company_row) =>
                  snd kv = fst ir
                  /\ hash_key (Rows.co_name (snd ir)) = Returns (fst kv))
         (PopulateNestedDataFixed.company_map s) added
    /\ NoDup (map fst (PopulateNestedDataFixed.company_map s)).

Definition schools_in_step (base : list (nat * Rows.school_row))
    (s : PopulateNestedDataFixed.state) : Prop :=
  exists added,
    Storage.rows (Database.schools (PopulateNestedDataFixed.db s))
    = base ++ added
    /\ Forall2 (fun (kv : hkey * nat) (ir : nat * Rows.school_row) =>
                  snd kv = fst ir
                  /\ hash_key (Rows.sc_name (snd ir)) = Returns (fst kv))
         (PopulateNestedDataFixed.school_map s) added
    /\ NoDup (map fst (PopulateNestedDataFixed.school_map s)).

(** Both registries stay in step with their tables, and what they hold
    stays as it is. *)
Definition registries_kept (s s' : PopulateNestedDataFixed.state) : Prop :=
  (forall base, companies_in_step base s -> companies_in_step base s')
  /\ (forall base, schools_in_step base s -> schools_in_step base s')
  /\ (forall k i, reg_get k (PopulateNestedDataFixed.company_map s) = Some i ->
                  reg_get k (PopulateNestedDataFixed.company_map s') = Some i)
  /\ (forall k i, reg_get k (PopulateNestedDataFixed.school_map s) = Some i ->
                  reg_get k (PopulateNestedDataFixed.school_map s') = Some i).

End Shapes.

(* ===================================================================== *)
(** * populate_nested_data.py *)
(* ===================================================================== *)

(** [process_nested_data], first version.  The function keeps the same
    batches, registries and connection as the fixed version, so the state
    is the one of [PopulateNestedDataFixed]; [investment_rounds_batch],
    [firm_map], [location_map] and [investor_person_map] are set up and
    never used.  Every read of the row goes through [safe_get], and the
    nested arrays are expected to be Python lists. *)
Module PopulateNestedDataRun.
Import Py Helpers Run Storage Rows Database.
Import PopulateNestedDataFixed.
Local Open Scope run_scope.

Section Builtins.
Variable B : builtins.

(** Lines 75-81. *)
Definition person_id_of (person_map : registry) (idx : nat) (row : pyval)
    : outcome (option nat) :=
  let person_data := safe_get row "person" (VDict []) in
  if nonempty_dict person_data then
    let person_slug := safe_get person_data "slug" (person_token idx) in
    obind (hash_key person_slug) (fun k => Returns (reg_get k person_map))
  else Returns None.

(** Lines 89-110: no handler around the statement. *)
Definition company_id_of (company_data : pyval) : M state (option nat) :=
  if nonempty_dict company_data then
    let company_name := safe_get company_data "name" VNone in
    t <- lift (truthy company_name) ;;
    if t then
      k <- lift (hash_key company_name) ;;
      known <- gets (fun s => reg_get k (company_map s)) ;;
      match known with
      | None =>
          let r :=
            {| co_name := company_name;
               co_display_name := safe_get company_data "display_name" company_name;
               co_total_employee_count :=
                 PopulateNestedData.safe_int B
                   (safe_get company_data "total_employee_count" VNone) VNone |} in
          company_id <- insert_company r ;;
          modify (fun s => set_company_map (reg_set k company_id (company_map s)) s) ;;;
          ret (Some company_id)
      | Some company_id => ret (Some company_id)
      end
    else ret None
  else ret None.

(** Section 1, lines 83-124. *)
Definition positions_step (person_id : option nat) (row : pyval)
    : M state unit :=
  let positions_data := safe_get row "positions" (VList []) in
  match person_id with
  | Some (S _ as p) =>
      when (is_list positions_data)
        (for_each (elements positions_data) (fun pos =>
           when (is_dict pos)
             (let company_data := safe_get pos "company" (VDict []) in
              company_id <- company_id_of company_data ;;
              let start_date := safe_get pos "start_date" (VDict []) in
              let end_date := safe_get pos "end_date" (VDict []) in
              modify (push_position
                {| pos_person_id := p;
                   pos_company_id := company_id;
                   pos_title := safe_get pos "title" VNone;
                   pos_start_month := date_part start_date "month";
                   pos_start_year := date_part start_date "year";
                   pos_end_month := date_part end_date "month";
                   pos_end_year := date_part end_date "year" |}))))
  | _ => ret tt
  end.

(** Lines 132-153. *)
Definition school_id_of (school_data : pyval) : M state (option nat) :=
  if nonempty_dict school_data then
    let school_name := safe_get school_data "name" VNone in
    t <- lift (truthy school_name) ;;
    if t then
      k <- lift (hash_key school_name) ;;
      known <- gets (fun s => reg_get k (school_map s)) ;;
      match known with
      | None =>
          let r :=
            {| sc_name := school_name;
               sc_display_name := safe_get school_data "display_name" school_name;
               sc_total_student_count :=
                 PopulateNestedData.safe_int B
                   (safe_get school_data "total_student_count" VNone) VNone |} in
          school_id <- insert_school r ;;
          modify (fun s => set_school_map (reg_set k school_id (school_map s)) s) ;;;
          ret (Some school_id)
      | Some school_id => ret (Some school_id)
      end
    else ret None
  else ret None.

(** Section 2, lines 126-160. *)
Definition degrees_step (person_id : option nat) (row : pyval)
    : M state unit :=
  let degrees_data := safe_get row "degrees" (VList []) in
  match person_id with
  | Some (S _ as p) =>
      when (is_list degrees_data)
        (for_each (elements degrees_data) (fun degree =>
           when (is_dict degree)
             (let school_data := safe_get degree "school" (VDict []) in
              school_id <- school_id_of school_data ;;
              modify (push_degree
                {| deg_person_id := p;
                   deg_school_id := school_id;
                   deg_degree_name := safe_get degree "name" VNone;
                   deg_field_of_study := safe_get degree "field_of_study" VNone |}))))
  | _ => ret tt
  end.

(** Section 3, lines 162-181: the node sits under [element] and then
    [node]; the payload is serialised as it is. *)
Definition investments_step (investor_id : nat) (row : pyval)
    : M state unit :=
  let investments_data := safe_get row "investments_on_record" (VDict []) in
  when (is_dict investments_data)
    (let edges := safe_get investments_data "edges" (VList []) in
     when (is_list edges)
       (for_each (elements edges) (fun edge =>
          when (is_dict edge)
            (let node := safe_get edge "element" (VDict []) in
             when (is_dict node)
               (let node_data := safe_get node "node" (VDict []) in
                when (is_dict node_data)
                  (let company_name :=
                     safe_get node_data "company_display_name" VNone in
                   let total_raised :=
                     safe_get node_data "total_raised" (VList []) in
                   named <- lift (truthy company_name) ;;
                   when named
                     (t <- lift (truthy total_raised) ;;
                      json <- lift (if t
                                    then obind (json_dumps total_raised)
                                           (fun s => Returns (Some s))
                                    else Returns None) ;;
                      modify (push_investment
                        {| inv_investor_id := investor_id;
                           inv_company_display_name := company_name;
                           inv_total_raised_json := json |})))))))).

(** Sections 4 and 5. *)
Definition kind_step (field : string) (push : kind_row -> state -> state)
    (investor_id : nat) (row : pyval) : M state unit :=
  let items := safe_get row field (VList []) in
  when (is_list items)
    (for_each (elements items) (fun item =>
       when (is_dict item)
         (modify (push {| kr_investor_id := investor_id;
                          kr_kind := safe_get item "kind" VNone;
                          kr_display_name := safe_get item "display_name" VNone |})))).

(** Section 6: a stage may be wrapped in [element]. *)
Definition stages_step (investor_id : nat) (row : pyval) : M state unit :=
  let stages_data := safe_get row "stages" (VList []) in
  when (is_list stages_data)
    (for_each (elements stages_data) (fun stage =>
       when (is_dict stage)
         (let stage_element := safe_get stage "element" stage in
          when (is_dict stage_element)
            (modify (push_stage
               {| kr_investor_id := investor_id;
                  kr_kind := safe_get stage_element "kind" VNone;
                  kr_display_name :=
                    safe_get stage_element "display_name" VNone |}))))).

(** Section 7, both lists. *)
Definition image_step (field : string) (edit_mode : bool)
    (investor_id : nat) (row : pyval) : M state unit :=
  let urls := safe_get row field (VList []) in
  when (is_list urls)
    (for_each (elements urls) (fun url =>
       t <- lift (truthy url) ;;
       when (t && is_str url)
         (modify (push_image {| im_investor_id := investor_id;
                                im_url := url;
                                im_is_edit_mode := edit_mode |})))).

(** Section 8: a link may be wrapped in [element]. *)
Definition media_step (investor_id : nat) (row : pyval) : M state unit :=
  let media_data := safe_get row "media_links" (VList []) in
  when (is_list media_data)
    (for_each (elements media_data) (fun media =>
       when (is_dict media)
         (let media_element := safe_get media "element" media in
          when (is_dict media_element)
            (modify (push_media
               {| ml_investor_id := investor_id;
                  ml_url := safe_get media_element "url" VNone;
                  ml_title := safe_get media_element "title" VNone;
                  ml_image_url := safe_get media_element "image_url" VNone |}))))).

(** The eight [to_sql] calls, each behind [if batch:]. *)
Definition write_batches (s : state) : database :=
  to_sql_media_links (media_links_batch s)
  (to_sql_image_urls (image_urls_batch s)
  (to_sql_investor_stages (investor_stages_batch s)
  (to_sql_investment_locations (investment_locations_batch s)
  (to_sql_areas_of_interest (areas_of_interest_batch s)
  (to_sql_investments (investments_batch s)
  (to_sql_degrees (degrees_batch s)
  (to_sql_positions (positions_batch s) (db s)))))))).

(** Lines 254-288: once a thousand positions have been collected, every
    batch is written and started afresh. *)
Definition flush (s : state) : state :=
  set_media_links_batch []
  (set_image_urls_batch []
  (set_investor_stages_batch []
  (set_investment_locations_batch []
  (set_areas_of_interest_batch []
  (set_investments_batch []
  (set_degrees_batch []
  (set_positions_batch [] (set_db (write_batches s) s)))))))).

(** The body of the [try], lines 72-288.  [row] is the Series that
    [df.iterrows()] yields. *)
Definition record_body (person_map : registry) (idx : nat)
    (row : list (string * pyval)) : M state unit :=
  let row := VSeries row in
  let investor_id := idx + 1 in
  person_id <- lift (person_id_of person_map idx row) ;;
  positions_step person_id row ;;;
  degrees_step person_id row ;;;
  investments_step investor_id row ;;;
  kind_step "areas_of_interest" push_area investor_id row ;;;
  kind_step "investment_locations" push_location investor_id row ;;;
  stages_step investor_id row ;;;
  image_step "image_urls" false investor_id row ;;;
  image_step "image_urls_edit_mode" true investor_id row ;;;
  media_step investor_id row ;;;
  full <- gets (fun s => Nat.leb 1000 (List.length (positions_batch s))) ;;
  when full (modify flush).

(** [try: body / except Exception as e: print(idx, e); continue] *)
Definition guarded (person_map : registry) (idx : nat)
    (row : list (string * pyval)) (s : state) : state :=
  match record_body person_map idx row s with
  | (s', Returns _) => s'
  | (s', Raises e) => set_errors (errors s' ++ [(idx, e)]) s'
  end.

Fixpoint process_from (person_map : registry) (idx : nat)
    (df : list (list (string * pyval))) (s : state) : state :=
  match df with
  | [] => s
  | row :: rest =>
      process_from person_map (S idx) rest (guarded person_map idx row s)
  end.

(** [process_nested_data]: the registry of persons is read before the
    loop, what is left in the batches is written after it. *)
Definition process_nested_data (df : list (list (string * pyval)))
    (db0 : database) : state :=
  let person_map := select_map dim_key (persons db0) in
  let s := process_from person_map 0 df (initial db0) in
  set_db (write_batches s) s.

End Builtins.

End PopulateNestedDataRun.
(* ===================================================================== *)
(** * export_to_postgres.py *)
(* ===================================================================== *)

Module ExportToPostgres.
Import Py Helpers.

(** What [safe_json_serialize] hands back, None or a string, as a
    value. *)
Definition serialized (o : option string) : pyval :=
  match o with
  | Some s => VStr s
  | None => VNone
  end.

Section Builtins.
Variable B : builtins.

(** Lines 63-66: [json.dumps(obj)], and [str(obj)] when it raises. *)
Definition dumps_or_str (obj : pyval) : option string :=
  match json_dumps obj with
  | Returns s => Some s
  | Raises _ =>
      match obj with
      | VNone => None
      | _ => Some (py_str B obj)
      end
  end.

(** [safe_json_serialize], lines 43-66.  None, NaN and whatever has a
    length of zero give None; an array or a Series is replaced by its
    [tolist()], a dict or a list by the same container with every member
    serialised by the function itself; the result is then dumped. *)
Fixpoint safe_json_serialize (obj : pyval) : option string :=
  match obj with
  | VNone => None
  | VNaN => None
  | VBool _ | VInt _ => dumps_or_str obj
  | VStr s =>
      match s with
      | EmptyString => None
      | _ => dumps_or_str obj
      end
  | VArr l =>
      match l with
      | [] => None
      | _ => dumps_or_str (tolist l)
      end
  | VSeries d =>
      match d with
      | [] => None
      | _ => dumps_or_str (VList (map snd d))
      end
  | VDict d =>
      match d with
      | [] => None
      | _ =>
          dumps_or_str
            (VDict
               ((fix members (d : list (string * pyval)) : list (string * pyval) :=
                   match d with
                   | [] => []
                   | (k, v) :: r =>
                       (k, serialized (safe_json_serialize v)) :: members r
                   end) d))
      end
  | VList l =>
      match l with
      | [] => None
      | _ =>
          dumps_or_str
            (VList
               ((fix items (l : list pyval) : list pyval :=
                   match l with
                   | [] => []
                   | x :: r => serialized (safe_json_serialize x) :: items r
                   end) l))
      end
  end.

(** Lines 73-79. *)
Definition complex_columns : list string :=
  ["person"; "stages"; "location"; "firm"; "degrees"; "positions";
   "media_links"; "investments_on_record"; "investor_profile_funding_rounds";
   "network_list_investor_profiles";
   "network_list_scouts_and_angels_profiles"; "investing_connections";
   "image_urls_edit_mode"; "investment_locations"; "areas_of_interest";
   "image_urls"; "investor_lists"].

(** [df_copy[col] = df_copy[col].apply(safe_json_serialize)] for the
    cell of one row. *)
Definition flatten_cell (cell : string * pyval) : string * pyval :=
  if existsb (String.eqb (fst cell)) complex_columns
  then (fst cell, serialized (safe_json_serialize (snd cell)))
  else cell.

(** [flatten_complex_columns], lines 68-86: a copy of the frame in which
    the listed columns, where the frame has them, hold the serialised
    cells. *)
Definition flatten_complex_columns (df : list (list (string * pyval)))
    : list (list (string * pyval)) :=
  map (map flatten_cell) df.

End Builtins.

End ExportToPostgres.
(* ===================================================================== *)
(** * Views of a run *)
(* ===================================================================== *)

(** What the statements about whole runs are phrased with. *)
Module Views.
Import Py Helpers Run Storage Rows Database.

(** The pairs that [df.iterrows()] yields, the index counted from
    [idx]. *)
Definition iterrows {A} (idx : nat) (df : list A) : list (nat * A) :=
  combine (seq idx (List.length df)) df.

(** What the first loop of the bulk export collects from one record for
    one dimension: the entry of the nested object when it is a non-empty
    dict, nothing otherwise. *)
Definition dimension_part (field : string)
    (entry : nat -> pyval -> dimension_row)
    (ir : nat * list (string * pyval)) : list dimension_row :=
  match ExportRelationalFast.nested (snd ir) field with
  | Returns v =>
      if ExportRelationalFast.nonempty_dict v then [entry (fst ir) v] else []
  | Raises _ => []
  end.

(** The foreign keys of an investor row all name a row of their
    table. *)
Definition references_resolve (db : database) (r : investor_row) : Prop :=
  (forall p, i_person_id r = Some p -> In p (ids (persons db)))
  /\ (forall f, i_firm_id r = Some f -> In f (ids (firms db)))
  /\ (forall l, i_location_id r = Some l -> In l (ids (locations db))).

(** ** The rows a cell stands for *)

(** A string with at least one character: what [if url and
    isinstance(url, str)] lets through. *)
Definition nonempty_text (v : pyval) : bool :=
  match v with
  | VStr s => negb (String.eqb s "")
  | _ => false
  end.

(** One row for each dict of an array, in the order of the array. *)
Definition kind_rows (investor_id : nat) (cell : pyval) : list kind_row :=
  match cell with
  | VArr l =>
      map (fun item => {| kr_investor_id := investor_id;
                          kr_kind := safe_get item "kind" VNone;
                          kr_display_name := safe_get item "display_name" VNone |})
        (filter is_dict l)
  | _ => []
  end.

Definition media_rows (investor_id : nat) (cell : pyval) : list media_row :=
  match cell with
  | VArr l =>
      map (fun m => {| ml_investor_id := investor_id;
                       ml_url := safe_get m "url" VNone;
                       ml_title := safe_get m "title" VNone;
                       ml_image_url := safe_get m "image_url" VNone |})
        (filter is_dict l)
  | _ => []
  end.

(** One row for each non-empty string of an array. *)
Definition image_rows (edit_mode : bool) (investor_id : nat) (cell : pyval)
    : list image_row :=
  match cell with
  | VArr l =>
      map (fun url => {| im_investor_id := investor_id;
                         im_url := url;
                         im_is_edit_mode := edit_mode |})
        (filter nonempty_text l)
  | _ => []
  end.

(** Only investment rows may be appended. *)
Definition investments_only {Pos Deg} : Shapes.row_predicates Pos Deg :=
  {| Shapes.on_position := Shapes.never; Shapes.on_degree := Shapes.never;
     Shapes.on_investment := Shapes.any; Shapes.on_area := Shapes.never;
     Shapes.on_location := Shapes.never; Shapes.on_stage := Shapes.never;
     Shapes.on_image := Shapes.never; Shapes.on_media := Shapes.never |}.

(** ** Tables before and after a second run *)

(** [t2] holds the rows of [t1] again, in the same order, under the ids
    that follow those [t1] has handed out. *)
Definition stored_again {A} (t1 t2 : table A) : Prop :=
  contents t2 = contents t1
  /\ ids t2 = seq (next_id t1) (List.length (rows t1)).

(** ** Two runs in step *)

(** The same computation run from two related states ends in related
    states, with the same outcome. *)
Definition in_step {S A} (R : S -> S -> Prop) (m : M S A) : Prop :=
  forall s1 s2,
    R s1 s2 -> R (fst (m s1)) (fst (m s2)) /\ snd (m s1) = snd (m s2).

(** The batches and the log of [s2] are those of [pre] followed by those
    of [s1]. *)
Definition fixed_ahead (pre s1 s2 : PopulateNestedDataFixed.state) : Prop :=
  PopulateNestedDataFixed.positions_batch s2
  = PopulateNestedDataFixed.positions_batch pre
    ++ PopulateNestedDataFixed.positions_batch s1
  /\ PopulateNestedDataFixed.degrees_batch s2
     = PopulateNestedDataFixed.degrees_batch pre
       ++ PopulateNestedDataFixed.degrees_batch s1
  /\ PopulateNestedDataFixed.investments_batch s2
     = PopulateNestedDataFixed.investments_batch pre
       ++ PopulateNestedDataFixed.investments_batch s1
  /\ PopulateNestedDataFixed.areas_of_interest_batch s2
     = PopulateNestedDataFixed.areas_of_interest_batch pre
       ++ PopulateNestedDataFixed.areas_of_interest_batch s1
  /\ PopulateNestedDataFixed.investment_locations_batch s2
     = PopulateNestedDataFixed.investment_locations_batch pre
       ++ PopulateNestedDataFixed.investment_locations_batch s1
  /\ PopulateNestedDataFixed.investor_stages_batch s2
     = PopulateNestedDataFixed.investor_stages_batch pre
       ++ PopulateNestedDataFixed.investor_stages_batch s1
  /\ PopulateNestedDataFixed.image_urls_batch s2
     = PopulateNestedDataFixed.image_urls_batch pre
       ++ PopulateNestedDataFixed.image_urls_batch s1
  /\ PopulateNestedDataFixed.media_links_batch s2
     = PopulateNestedDataFixed.media_links_batch pre
       ++ PopulateNestedDataFixed.media_links_batch s1
  /\ PopulateNestedDataFixed.errors s2
     = PopulateNestedDataFixed.errors pre ++ PopulateNestedDataFixed.errors s1.

(** The connection, the registries and the two career batches are as
    they were. *)
Definition career_untouched (s s' : PopulateNestedDataFixed.state) : Prop :=
  PopulateNestedDataFixed.db s' = PopulateNestedDataFixed.db s
  /\ PopulateNestedDataFixed.company_map s'
     = PopulateNestedDataFixed.company_map s
  /\ PopulateNestedDataFixed.school_map s'
     = PopulateNestedDataFixed.school_map s
  /\ PopulateNestedDataFixed.positions_batch s'
     = PopulateNestedDataFixed.positions_batch s
  /\ PopulateNestedDataFixed.degrees_batch s'
     = PopulateNestedDataFixed.degrees_batch s.

(** What a record yields when the fixed script handles it on its own. *)
Definition alone (B : builtins) (db0 : database)
    (ir : nat * list (string * pyval)) : PopulateNestedDataFixed.state :=
  PopulateNestedDataFixed.guarded B (fst ir) (snd ir)
    (PopulateNestedDataFixed.initial db0).

(** ** Cells of the flat export *)

(** What [json.dumps] can write: a value that holds no array and no
    Series, however deep. *)
Fixpoint jsonable (v : pyval) : bool :=
  match v with
  | VArr _ | VSeries _ => false
  | VList l => forallb jsonable l
  | VDict d => forallb (fun kv => jsonable (snd kv)) d
  | _ => true
  end.

(** None, NaN, and whatever has a length of zero. *)
Definition blank_cell (v : pyval) : bool :=
  match v with
  | VNone | VNaN => true
  | VStr s => String.eqb s ""
  | VList l | VArr l => negb (nonempty l)
  | VDict d | VSeries d => negb (nonempty d)
  | VBool _ | VInt _ => false
  end.

(** The text a member of a dict or of a list is written as: its own
    serialisation as a JSON string, [null] when it has none. *)
Definition member_text (o : option string) : string :=
  match o with
  | Some s => json_string s
  | None => "null"
  end.

(** ** Keys as the tables hold them *)

(** The natural keys of the frame are text: wherever a record carries a
    non-empty dict as its person, firm or location, the slug (or the
    token that stands in for it) or the display name is a string.  A
    VARCHAR column hands such a key back as it was written. *)
Definition text_keys (df : list (list (string * pyval))) : Prop :=
  forall j row d,
    nth_error df j = Some row -> d <> [] ->
    (assoc "person" row = Some (VDict d) ->
       is_str (get d "slug" (person_token j)) = true)
    /\ (assoc "firm" row = Some (VDict d) ->
          is_str (get d "slug" (firm_token j)) = true)
    /\ (assoc "location" row = Some (VDict d) ->
          is_str (get d "display_name" VNone) = true).

End Views.


(* ===================================================================== *)
(** * Properties *)
(* ===================================================================== *)

Import Py Helpers Run Storage Rows Database Shapes.

(** ** Guarded reads *)

Lemma safe_get_non_dict (obj : pyval) (key : string) (default : pyval) :
  is_dict obj = false -> safe_get obj key default = default.
Proof. destruct obj; simpl; intros H; try reflexivity; discriminate. Qed.

Lemma safe_get_series (row : list (string * pyval)) key default :
  safe_get (VSeries row) key default = default.
Proof. reflexivity. Qed.

Lemma safe_get_absent_key d key default :
  assoc key d = None -> safe_get (VDict d) key default = default.
Proof. intros H; unfold safe_get, get; now rewrite H. Qed.

Lemma safe_get_empty_dict key default :
  safe_get (VDict []) key default = default.
Proof. reflexivity. Qed.

(** A read through [safe_get] is a total function, so it cannot
    raise, and it resolves to the supplied default whenever the object
    read from is not a dict (None, NaN, a scalar, a list, an array, a
    Series) or is a dict without the key.  A field read from a container
    that was itself missing, read with the empty dict as its default,
    resolves to its own default as well. *)
Lemma safe_get_resolves_to_default :
  forall (obj : pyval) (key : string) (default : pyval),
    is_dict obj = false \/ (exists d, obj = VDict d /\ assoc key d = None) ->
    safe_get obj key default = default
    /\ (forall inner d, safe_get (safe_get obj key (VDict [])) inner d = d)
    /\ (forall part,
          CompletePopulation.date_part (safe_get obj key (VDict [])) part = VNone).
Proof.
  intros obj key default H.
  assert (E : forall dflt, safe_get obj key dflt = dflt).
  { intros dflt. destruct H as [H | (d & -> & H)].
    - now apply safe_get_non_dict.
    - now apply safe_get_absent_key. }
  split; [apply E|]. split.
  - intros inner d. now rewrite E.
  - intros part. now rewrite E.
Qed.

Lemma safe_get_resolves_to_default_witness :
  safe_get (VSeries [("person", VDict [("slug", VStr "a")])]) "person" (VDict [])
    = VDict []
  /\ safe_get VNone "slug" (VBool false) = VBool false.
Proof.
  split.
  - apply (safe_get_resolves_to_default
             (VSeries [("person", VDict [("slug", VStr "a")])]) "person" (VDict [])).
    left; reflexivity.
  - apply (safe_get_resolves_to_default VNone "slug" (VBool false)).
    left; reflexivity.
Defined.

(** ** Integer coercion *)

Lemma plain_decimal_decimal (z : Z) : plain_decimal (decimal z) = Some z.
Proof.
  unfold plain_decimal, decimal.
  rewrite NilZero.isi.
  - simpl. now rewrite DecimalZ.of_to.
  - destruct z; simpl; try discriminate.
    intros [= H]. now apply DecimalPos.Unsigned.to_uint_nonnil in H.
  - destruct z; simpl; try discriminate.
    intros [= H]. now apply DecimalPos.Unsigned.to_uint_nonnil in H.
Qed.

Lemma strip_nonempty_decimal (z : Z) : strip_nonempty (decimal z) = true.
Proof.
  unfold decimal. destruct z as [|p|p]; try reflexivity; simpl.
  pose proof (DecimalPos.Unsigned.to_uint_nonnil p) as H.
  unfold NilZero.string_of_uint.
  destruct (Pos.to_uint p) eqn:E; try (now elim H); reflexivity.
Qed.

Lemma decimal_not_nan (z : Z) : String.eqb (decimal z) "nan" = false.
Proof.
  unfold decimal. destruct z as [|p|p]; try reflexivity; simpl.
  pose proof (DecimalPos.Unsigned.to_uint_nonnil p) as H.
  unfold NilZero.string_of_uint.
  destruct (Pos.to_uint p) eqn:E; try (now elim H); reflexivity.
Qed.

Lemma try_except_cases {A} (body : outcome A) (handler : A) :
  (exists a, body = Returns a /\ try_except body handler = a)
  \/ (exists e, body = Raises e /\ try_except body handler = handler).
Proof. destruct body; [left | right]; eauto. Qed.

(** C9.  [safe_int], in both versions: a falsy value (the integer 0, the
    empty string and False among them) gives the default, which is None
    unless the caller passes another, and never 0; whatever the body of
    the [try] raises is turned into the default, so the call itself
    returns for every input; and a result other than the default is the
    integer that [int(float(str(value)))] made of a truthy value.  A
    non-zero integer of magnitude at most 2^53 comes back as itself. *)
Theorem safe_int_falsy_is_default :
  forall (B : builtins) (value default : pyval),
    (truthy value = Returns false ->
       PopulateNestedData.safe_int B value default = default
       /\ PopulateNestedDataFixed.safe_int B value default = default)
    /\ (forall e, PopulateNestedData.safe_int_body B value default = Raises e ->
          PopulateNestedData.safe_int B value default = default)
    /\ (forall e, PopulateNestedDataFixed.safe_int_body B value default = Raises e ->
          PopulateNestedDataFixed.safe_int B value default = default)
    /\ (PopulateNestedData.safe_int B value default <> default ->
          truthy value = Returns true
          /\ exists z, int_of_float_of_str B (py_str B value) = Returns z
                       /\ PopulateNestedData.safe_int B value default = VInt z)
    /\ (PopulateNestedDataFixed.safe_int B value default <> default ->
          truthy value = Returns true
          /\ exists z, int_of_float_of_str B (py_str B value) = Returns z
                       /\ PopulateNestedDataFixed.safe_int B value default = VInt z)
    /\ PopulateNestedData.safe_int B (VInt 0) VNone = VNone
    /\ PopulateNestedData.safe_int B (VStr "") VNone = VNone
    /\ PopulateNestedData.safe_int B (VBool false) VNone = VNone
    /\ PopulateNestedDataFixed.safe_int B (VInt 0) VNone = VNone
    /\ PopulateNestedDataFixed.safe_int B (VStr "") VNone = VNone
    /\ PopulateNestedDataFixed.safe_int B (VBool false) VNone = VNone
    /\ (forall z, z <> 0%Z -> (Z.abs z <= 2 ^ 53)%Z ->
          PopulateNestedData.safe_int B (VInt z) default = VInt z
          /\ PopulateNestedDataFixed.safe_int B (VInt z) default = VInt z).
Proof.
  intros B value default.
  unfold PopulateNestedData.safe_int, PopulateNestedDataFixed.safe_int,
    PopulateNestedData.safe_int_body, PopulateNestedDataFixed.safe_int_body.
  repeat match goal with |- _ /\ _ => split end; try reflexivity.
  - intros ->. split; reflexivity.
  - intros e ->. reflexivity.
  - intros e ->. reflexivity.
  - intros H.
    destruct (truthy value) as [[|]|e]; simpl in *; try (now elim H).
    destruct (strip_nonempty (py_str B value)); simpl in *; try (now elim H).
    destruct (int_of_float_of_str B (py_str B value)) as [z|e]; simpl in *;
      try (now elim H).
    split; [reflexivity|]. exists z; split; reflexivity.
  - intros H.
    destruct (truthy value) as [[|]|e]; simpl in *; try (now elim H).
    destruct (strip_nonempty (py_str B value)); simpl in *; try (now elim H).
    destruct (String.eqb (py_str B value) "nan"); simpl in *; try (now elim H).
    destruct (int_of_float_of_str B (py_str B value)) as [z|e]; simpl in *;
      try (now elim H).
    split; [reflexivity|]. exists z; split; reflexivity.
  - intros z H H0. split.
    + simpl truthy. simpl obind.
      assert (T : negb (z =? 0)%Z = true)
        by (apply negb_true_iff, Z.eqb_neq; assumption).
      rewrite T. simpl py_str. rewrite strip_nonempty_decimal. simpl andb.
      unfold int_of_float_of_str. rewrite plain_decimal_decimal.
      apply Z.leb_le in H0. rewrite H0. reflexivity.
    + simpl truthy. simpl obind.
      assert (T : negb (z =? 0)%Z = true)
        by (apply negb_true_iff, Z.eqb_neq; assumption).
      rewrite T. simpl py_str. rewrite strip_nonempty_decimal, decimal_not_nan.
      simpl andb.
      unfold int_of_float_of_str. rewrite plain_decimal_decimal.
      apply Z.leb_le in H0. rewrite H0. reflexivity.
Qed.

Lemma safe_int_falsy_is_default_witness :
  PopulateNestedData.safe_int plain_builtins (VInt 0) (VInt 7) = VInt 7
  /\ PopulateNestedDataFixed.safe_int plain_builtins (VInt 0) (VInt 7) = VInt 7
  /\ PopulateNestedData.safe_int plain_builtins (VInt 42) VNone = VInt 42
  /\ PopulateNestedData.safe_int plain_builtins (VArr [VInt 1; VInt 2]) VNone
     = VNone.
Proof.
  split; [|split; [|split]].
  - apply (safe_int_falsy_is_default plain_builtins (VInt 0) (VInt 7)).
    reflexivity.
  - apply (safe_int_falsy_is_default plain_builtins (VInt 0) (VInt 7)).
    reflexivity.
  - apply (safe_int_falsy_is_default plain_builtins (VInt 42) VNone);
      [discriminate | vm_compute; discriminate].
  - apply (safe_int_falsy_is_default plain_builtins (VArr [VInt 1; VInt 2]) VNone
             ) with (e := ValueError).
    reflexivity.
Defined.

(** ** Missing arrays *)

Lemma blank_not_valid_array (row : list (string * pyval)) (f : string) :
  blank (assoc f row) -> is_valid_array (get row f VNone) = false.
Proof. unfold get. intros H. inversion H; reflexivity. Qed.

Lemma blank_not_dict (row : list (string * pyval)) (f : string) :
  blank (assoc f row) -> is_dict (get row f VNone) = false.
Proof. unfold get. intros H. inversion H; reflexivity. Qed.

Lemma same_elsewhere_get f row1 row2 g :
  same_elsewhere f row1 row2 -> g <> f -> get row1 g VNone = get row2 g VNone.
Proof. intros H N. unfold get. now rewrite (H g N). Qed.

Lemma alike_everywhere f row1 row2 :
  same_elsewhere f row1 row2 ->
  blank (assoc f row1) -> blank (assoc f row2) ->
  forall g, alike row1 row2 g.
Proof.
  intros S B1 B2 g. destruct (string_dec g f) as [-> | N].
  - right. auto using blank_not_valid_array, blank_not_dict.
  - left. eapply same_elsewhere_get; eauto.
Qed.

Ltac by_alike H :=
  destruct H as [H | (H1 & H2 & H3 & H4)];
  [ now rewrite H
  | try rewrite H1; try rewrite H2; try rewrite H3; try rewrite H4;
    reflexivity ].

Module CompletePopulationFacts.
Import CompletePopulation.

Lemma cp_kind_step_alike g push inv row1 row2 :
  alike row1 row2 g -> kind_step g push inv row1 = kind_step g push inv row2.
Proof. intros H. unfold kind_step. by_alike H. Qed.

Lemma cp_image_step_alike g e inv row1 row2 :
  alike row1 row2 g -> image_step g e inv row1 = image_step g e inv row2.
Proof. intros H. unfold image_step. by_alike H. Qed.

Lemma cp_media_step_alike inv row1 row2 :
  alike row1 row2 "media_links" -> media_step inv row1 = media_step inv row2.
Proof. intros H. unfold media_step. by_alike H. Qed.

Lemma cp_positions_step_alike p row1 row2 :
  alike row1 row2 "positions" -> positions_step p row1 = positions_step p row2.
Proof. intros H. unfold positions_step. by_alike H. Qed.

Lemma cp_degrees_step_alike p row1 row2 :
  alike row1 row2 "degrees" -> degrees_step p row1 = degrees_step p row2.
Proof. intros H. unfold degrees_step. by_alike H. Qed.

Lemma cp_investments_step_alike inv row1 row2 :
  alike row1 row2 "investments_on_record" ->
  investments_step inv row1 = investments_step inv row2.
Proof. intros H. unfold investments_step. by_alike H. Qed.

Lemma cp_person_never_resolves person_map idx row :
  person_id_of person_map idx row = Returns None.
Proof. reflexivity. Qed.

Lemma cp_extract_row_alike person_map idx row1 row2 :
  (forall g, alike row1 row2 g) ->
  extract_row person_map idx row1 = extract_row person_map idx row2.
Proof.
  intros H. unfold extract_row.
  rewrite !cp_person_never_resolves.
  rewrite (cp_kind_step_alike "areas_of_interest" push_area (idx + 1) row1 row2 (H _)).
  rewrite (cp_kind_step_alike "investment_locations" push_location (idx + 1) row1 row2 (H _)).
  rewrite (cp_kind_step_alike "stages" push_stage (idx + 1) row1 row2 (H _)).
  rewrite (cp_image_step_alike "image_urls" false (idx + 1) row1 row2 (H _)).
  rewrite (cp_image_step_alike "image_urls_edit_mode" true (idx + 1) row1 row2 (H _)).
  rewrite (cp_media_step_alike (idx + 1) row1 row2 (H _)).
  rewrite (cp_investments_step_alike (idx + 1) row1 row2 (H _)).
  reflexivity.
Qed.

End CompletePopulationFacts.

Module FixedFacts.
Import PopulateNestedDataFixed.

Lemma fixed_kind_step_alike g push inv row1 row2 :
  alike row1 row2 g -> kind_step g push inv row1 = kind_step g push inv row2.
Proof. intros H. unfold kind_step. by_alike H. Qed.

Lemma fixed_image_step_alike g e inv row1 row2 :
  alike row1 row2 g -> image_step g e inv row1 = image_step g e inv row2.
Proof. intros H. unfold image_step. by_alike H. Qed.

Lemma fixed_media_step_alike inv row1 row2 :
  alike row1 row2 "media_links" -> media_step inv row1 = media_step inv row2.
Proof. intros H. unfold media_step. by_alike H. Qed.

Lemma fixed_positions_step_alike B p row1 row2 :
  alike row1 row2 "positions" ->
  positions_step B p row1 = positions_step B p row2.
Proof.
  intros H. unfold positions_step. destruct p as [[|p]|]; try reflexivity.
  by_alike H.
Qed.

Lemma fixed_degrees_step_alike B p row1 row2 :
  alike row1 row2 "degrees" -> degrees_step B p row1 = degrees_step B p row2.
Proof.
  intros H. unfold degrees_step. destruct p as [[|p]|]; try reflexivity.
  by_alike H.
Qed.

Lemma fixed_investments_step_alike inv row1 row2 :
  alike row1 row2 "investments_on_record" ->
  investments_step inv row1 = investments_step inv row2.
Proof. intros H. unfold investments_step. by_alike H. Qed.

Lemma fixed_person_never_resolves idx row :
  person_id_of idx row = ret None.
Proof. reflexivity. Qed.

Lemma fixed_record_body_alike B idx row1 row2 :
  (forall g, alike row1 row2 g) ->
  record_body B idx row1 = record_body B idx row2.
Proof.
  intros H. unfold record_body.
  rewrite !fixed_person_never_resolves.
  rewrite (fixed_kind_step_alike "areas_of_interest" push_area (idx + 1) row1 row2 (H _)).
  rewrite (fixed_kind_step_alike "investment_locations" push_location (idx + 1) row1 row2 (H _)).
  rewrite (fixed_kind_step_alike "stages" push_stage (idx + 1) row1 row2 (H _)).
  rewrite (fixed_image_step_alike "image_urls" false (idx + 1) row1 row2 (H _)).
  rewrite (fixed_image_step_alike "image_urls_edit_mode" true (idx + 1) row1 row2 (H _)).
  rewrite (fixed_media_step_alike (idx + 1) row1 row2 (H _)).
  rewrite (fixed_investments_step_alike (idx + 1) row1 row2 (H _)).
  reflexivity.
Qed.

End FixedFacts.

(** C7.  Let a row hold nothing under the label of a nested array: the
    label is absent, or the value is None, NaN or an array without
    elements.  Then every loop that reads that label appends nothing and
    returns normally, in [complete_population.py] and in
    [populate_nested_data_fixed.py]; and two such rows that agree under
    every other label are treated identically by the whole body of the
    loop, from any state: same rows appended, same outcome. *)
Theorem missing_array_gives_no_rows :
  forall (B : builtins) (f : string) (row1 row2 : list (string * pyval)),
    same_elsewhere f row1 row2 ->
    blank (assoc f row1) -> blank (assoc f row2) ->
    (forall person_map idx,
        CompletePopulation.extract_row person_map idx row1
        = CompletePopulation.extract_row person_map idx row2)
    /\ (forall idx,
          PopulateNestedDataFixed.record_body B idx row1
          = PopulateNestedDataFixed.record_body B idx row2)
    /\ (forall push inv,
          CompletePopulation.kind_step f push inv row1 = ret tt)
    /\ (forall e inv, CompletePopulation.image_step f e inv row1 = ret tt)
    /\ (forall push inv,
          PopulateNestedDataFixed.kind_step f push inv row1 = ret tt)
    /\ (forall e inv, PopulateNestedDataFixed.image_step f e inv row1 = ret tt)
    /\ (f = "media_links" ->
          (forall inv, CompletePopulation.media_step inv row1 = ret tt)
          /\ (forall inv, PopulateNestedDataFixed.media_step inv row1 = ret tt))
    /\ (f = "positions" ->
          (forall p, CompletePopulation.positions_step p row1 = ret tt)
          /\ (forall p, PopulateNestedDataFixed.positions_step B p row1 = ret tt))
    /\ (f = "degrees" ->
          (forall p, CompletePopulation.degrees_step p row1 = ret tt)
          /\ (forall p, PopulateNestedDataFixed.degrees_step B p row1 = ret tt))
    /\ (f = "investments_on_record" ->
          (forall inv, CompletePopulation.investments_step inv row1 = ret tt)
          /\ (forall inv, PopulateNestedDataFixed.investments_step inv row1 = ret tt)).
Proof.
  intros B f row1 row2 S B1 B2.
  pose proof (alike_everywhere f row1 row2 S B1 B2) as A.
  pose proof (blank_not_valid_array row1 f B1) as V.
  pose proof (blank_not_dict row1 f B1) as D.
  repeat match goal with |- _ /\ _ => split end.
  - intros. now apply CompletePopulationFacts.cp_extract_row_alike.
  - intros. now apply FixedFacts.fixed_record_body_alike.
  - intros. unfold CompletePopulation.kind_step. now rewrite V.
  - intros. unfold CompletePopulation.image_step. now rewrite V.
  - intros. unfold PopulateNestedDataFixed.kind_step. now rewrite V.
  - intros. unfold PopulateNestedDataFixed.image_step. now rewrite V.
  - intros ->. split; intros.
    + unfold CompletePopulation.media_step. now rewrite V.
    + unfold PopulateNestedDataFixed.media_step. now rewrite V.
  - intros ->. split; intros.
    + unfold CompletePopulation.positions_step. now rewrite V.
    + unfold PopulateNestedDataFixed.positions_step. rewrite V.
      now destruct p as [[|p]|].
  - intros ->. split; intros.
    + unfold CompletePopulation.degrees_step. now rewrite V.
    + unfold PopulateNestedDataFixed.degrees_step. rewrite V.
      now destruct p as [[|p]|].
  - intros ->. split; intros.
    + unfold CompletePopulation.investments_step. now rewrite D.
    + unfold PopulateNestedDataFixed.investments_step. now rewrite D.
Qed.

Lemma missing_array_gives_no_rows_witness :
  let stage := VArr [VDict [("kind", VStr "stage"); ("display_name", VStr "Seed")]] in
  let absent := [("stages", stage)] in
  let null := [("areas_of_interest", VNone); ("stages", stage)] in
  let empty := [("areas_of_interest", VArr []); ("stages", stage)] in
  CompletePopulation.extract_row [] 0 null = CompletePopulation.extract_row [] 0 absent
  /\ CompletePopulation.extract_row [] 0 empty = CompletePopulation.extract_row [] 0 absent
  /\ CompletePopulation.kind_step "areas_of_interest" CompletePopulation.push_area 1 empty
     = ret tt.
Proof.
  intros stage absent null empty.
  assert (S1 : same_elsewhere "areas_of_interest" null absent).
  { intros g N. simpl. destruct (String.eqb_spec g "areas_of_interest"); congruence. }
  assert (S2 : same_elsewhere "areas_of_interest" empty absent).
  { intros g N. simpl. destruct (String.eqb_spec g "areas_of_interest"); congruence. }
  split; [|split].
  - apply (missing_array_gives_no_rows plain_builtins
             "areas_of_interest" null absent S1); constructor.
  - apply (missing_array_gives_no_rows plain_builtins
             "areas_of_interest" empty absent S2); constructor.
  - apply (missing_array_gives_no_rows plain_builtins
             "areas_of_interest" empty absent S2); constructor.
Defined.

(** ** Moving a state along a relation *)

Module RunFacts.

Section Moves.
Context {S : Type} (R : S -> S -> Prop) (HR : preorder R).

Lemma moves_ret {A} (a : A) : moves R (ret a).
Proof. intros s. apply (pre_refl HR). Qed.

Lemma moves_lift {A} (o : outcome A) : moves R (lift o).
Proof. intros s. apply (pre_refl HR). Qed.

Lemma moves_gets {A} (f : S -> A) : moves R (gets f).
Proof. intros s. apply (pre_refl HR). Qed.

Lemma moves_modify (f : S -> S) : (forall s, R s (f s)) -> moves R (modify f).
Proof. intros H s. apply H. Qed.

Lemma moves_bind {A B} (m : M S A) (f : A -> M S B) :
  moves R m -> (forall a, moves R (f a)) -> moves R (bind m f).
Proof.
  intros Hm Hf s. unfold bind.
  specialize (Hm s). destruct (m s) as [s' [a|e]]; simpl in *.
  - eapply (pre_trans HR); [exact Hm | apply Hf].
  - exact Hm.
Qed.

(** The continuation may use what the lifted outcome was. *)
Lemma moves_bind_lift {A B} (o : outcome A) (f : A -> M S B) :
  (forall a, o = Returns a -> moves R (f a)) -> moves R (bind (lift o) f).
Proof.
  intros Hf s. unfold bind, lift. destruct o as [a|e]; simpl.
  - now apply Hf.
  - apply (pre_refl HR).
Qed.

Lemma moves_when (c : bool) (m : M S unit) :
  (c = true -> moves R m) -> moves R (when c m).
Proof. destruct c; simpl; intros H; [now apply H | apply moves_ret]. Qed.

Lemma moves_for_each {X} (l : list X) (body : X -> M S unit) :
  (forall x, In x l -> moves R (body x)) -> moves R (for_each l body).
Proof.
  induction l as [|x l IH]; simpl; intros H.
  - apply moves_ret.
  - apply moves_bind; [apply H; now left|].
    intros _. apply IH. intros y Hy. apply H. now right.
Qed.

End Moves.

Lemma moves_bind_ret {S A B} (R : S -> S -> Prop) (a : A) (f : A -> M S B) :
  moves R (f a) -> moves R (bind (ret a) f).
Proof. intros H s. exact (H s). Qed.

Lemma bind_returns {S A B} (m : M S A) (f : A -> M S B) s s' a :
  m s = (s', Returns a) -> bind m f s = f a s'.
Proof. intros H. unfold bind. now rewrite H. Qed.

Lemma bind_raises {S A B} (m : M S A) (f : A -> M S B) s s' e :
  m s = (s', Raises e) -> bind m f s = (s', Raises e).
Proof. intros H. unfold bind. now rewrite H. Qed.

End RunFacts.

Ltac moves_auto HR :=
  repeat first
    [ apply (RunFacts.moves_ret _ HR)
    | apply (RunFacts.moves_lift _ HR)
    | apply (RunFacts.moves_gets _ HR)
    | apply (RunFacts.moves_bind _ HR); [ | intros ? ]
    | apply (RunFacts.moves_when _ HR); intros ?
    | apply (RunFacts.moves_for_each _ HR); intros ? ?
    | apply RunFacts.moves_modify; intros ? ].

(** ** Investments name their company (populate_nested_data_fixed.py) *)

Module FixedInvestments.
Import PopulateNestedDataFixed.

Lemma keeps_named_preorder : preorder keeps_named.
Proof. split; unfold keeps_named; auto. Qed.

Lemma insert_company_keeps r : moves keeps_named (insert_company r).
Proof. intros s H. exact H. Qed.

Lemma insert_school_keeps r : moves keeps_named (insert_school r).
Proof. intros s H. exact H. Qed.

Lemma investments_step_keeps inv row : moves keeps_named (investments_step inv row).
Proof.
  unfold investments_step.
  apply (RunFacts.moves_when _ keeps_named_preorder); intros _.
  apply (RunFacts.moves_when _ keeps_named_preorder); intros _.
  apply (RunFacts.moves_for_each _ keeps_named_preorder); intros edge _.
  apply (RunFacts.moves_when _ keeps_named_preorder); intros _.
  apply (RunFacts.moves_when _ keeps_named_preorder); intros _.
  apply (RunFacts.moves_bind_lift _ keeps_named_preorder); intros t Ht.
  apply (RunFacts.moves_when _ keeps_named_preorder); intros ->.
  apply (RunFacts.moves_bind _ keeps_named_preorder);
    [apply (RunFacts.moves_lift _ keeps_named_preorder)|].
  intros json. apply RunFacts.moves_modify. intros s H.
  simpl. apply Forall_app. split; [exact H|].
  constructor; [exact Ht | constructor].
Qed.

Lemma company_id_of_keeps B company_data :
  moves keeps_named (company_id_of B company_data).
Proof.
  unfold company_id_of.
  destruct (nonempty_dict company_data);
    [|apply (RunFacts.moves_ret _ keeps_named_preorder)].
  apply (RunFacts.moves_bind _ keeps_named_preorder);
    [apply (RunFacts.moves_lift _ keeps_named_preorder)|].
  intros [|]; [|apply (RunFacts.moves_ret _ keeps_named_preorder)].
  apply (RunFacts.moves_bind _ keeps_named_preorder);
    [apply (RunFacts.moves_lift _ keeps_named_preorder)|].
  intros k.
  apply (RunFacts.moves_bind _ keeps_named_preorder);
    [apply (RunFacts.moves_gets _ keeps_named_preorder)|].
  intros [i|]; [apply (RunFacts.moves_ret _ keeps_named_preorder)|].
  apply (RunFacts.moves_bind _ keeps_named_preorder);
    [apply insert_company_keeps|].
  intros i. moves_auto keeps_named_preorder. intros Hn; exact Hn.
Qed.

Lemma school_id_of_keeps B school_data :
  moves keeps_named (school_id_of B school_data).
Proof.
  unfold school_id_of.
  destruct (nonempty_dict school_data);
    [|apply (RunFacts.moves_ret _ keeps_named_preorder)].
  apply (RunFacts.moves_bind _ keeps_named_preorder);
    [apply (RunFacts.moves_lift _ keeps_named_preorder)|].
  intros [|]; [|apply (RunFacts.moves_ret _ keeps_named_preorder)].
  apply (RunFacts.moves_bind _ keeps_named_preorder);
    [apply (RunFacts.moves_lift _ keeps_named_preorder)|].
  intros k.
  apply (RunFacts.moves_bind _ keeps_named_preorder);
    [apply (RunFacts.moves_gets _ keeps_named_preorder)|].
  intros [i|]; [apply (RunFacts.moves_ret _ keeps_named_preorder)|].
  apply (RunFacts.moves_bind _ keeps_named_preorder);
    [apply insert_school_keeps|].
  intros i. moves_auto keeps_named_preorder. intros Hn; exact Hn.
Qed.

Lemma record_body_keeps B idx row : moves keeps_named (record_body B idx row).
Proof.
  unfold record_body.
  apply (RunFacts.moves_bind _ keeps_named_preorder).
  { unfold person_id_of. destruct (nonempty_dict _);
      moves_auto keeps_named_preorder. }
  intros person_id.
  apply (RunFacts.moves_bind _ keeps_named_preorder).
  { unfold positions_step. destruct person_id as [[|p]|];
      try apply (RunFacts.moves_ret _ keeps_named_preorder).
    apply (RunFacts.moves_when _ keeps_named_preorder); intros _.
    apply (RunFacts.moves_for_each _ keeps_named_preorder); intros pos _.
    apply (RunFacts.moves_when _ keeps_named_preorder); intros _.
    apply (RunFacts.moves_bind _ keeps_named_preorder);
      [apply company_id_of_keeps|].
    intros i. apply RunFacts.moves_modify. intros s H; exact H. }
  intros _.
  apply (RunFacts.moves_bind _ keeps_named_preorder).
  { unfold degrees_step. destruct person_id as [[|p]|];
      try apply (RunFacts.moves_ret _ keeps_named_preorder).
    apply (RunFacts.moves_when _ keeps_named_preorder); intros _.
    apply (RunFacts.moves_for_each _ keeps_named_preorder); intros deg _.
    apply (RunFacts.moves_when _ keeps_named_preorder); intros _.
    apply (RunFacts.moves_bind _ keeps_named_preorder);
      [apply school_id_of_keeps|].
    intros i. apply RunFacts.moves_modify. intros s H; exact H. }
  intros _.
  apply (RunFacts.moves_bind _ keeps_named_preorder);
    [apply investments_step_keeps|].
  intros _. unfold kind_step, image_step, media_step.
  moves_auto keeps_named_preorder; intros Hn; exact Hn.
Qed.

Lemma guarded_keeps B idx row s :
  Forall named (investments_batch s) ->
  Forall named (investments_batch (guarded B idx row s)).
Proof.
  intros H. unfold guarded.
  pose proof (record_body_keeps B idx row s H) as K.
  destruct (record_body B idx row s) as [s' [u|e]]; exact K.
Qed.

Lemma process_from_keeps B df : forall idx s,
  Forall named (investments_batch s) ->
  Forall named (investments_batch (process_from B idx df s)).
Proof.
  induction df as [|row rest IH]; simpl; intros idx s H; [exact H|].
  apply IH. now apply guarded_keeps.
Qed.

(** Every investment row that [process_nested_data] collects names its
    company: the row is appended only under [if company_name:]. *)
Lemma collected_investments_are_named B df db0 :
  Forall named (investments_batch (process_nested_data B df db0)).
Proof.
  unfold process_nested_data, final_bulk_insert. simpl.
  apply process_from_keeps. constructor.
Qed.

End FixedInvestments.

(** C5.  [complete_population.py] appends an investment row for every
    edge whose node is a dict, whether the node names a company or not:
    for a node without [company_display_name] it collects, and writes to
    the table, a row whose company name is None.
    [populate_nested_data_fixed.py] appends nothing for the same row. *)
Theorem complete_population_keeps_nameless_investment :
  CompletePopulation.all_investments
    (fst (CompletePopulation.extract_all [] [nameless_investment]
            CompletePopulation.no_batches))
  = [{| inv_investor_id := 1;
        inv_company_display_name := VNone;
        inv_total_raised_json := Some "[1, 2]" |}]
  /\ contents (investments
       (fst (CompletePopulation.process_all_nested_data [nameless_investment] fresh)))
     = [{| inv_investor_id := 1;
           inv_company_display_name := VNone;
           inv_total_raised_json := Some "[1, 2]" |}]
  /\ PopulateNestedDataFixed.investments_batch
       (PopulateNestedDataFixed.process_nested_data plain_builtins
          [nameless_investment] fresh) = [].
Proof. repeat split; vm_compute; reflexivity. Qed.

(** ** The stored funding payload *)

(** In [populate_nested_data_fixed.py] an investment whose payload is an
    empty array is stored with the text of an empty list, not with a
    null. *)
Lemma fixed_stores_empty_payload_as_text :
  truthy (listed (VArr [])) = Returns false
  /\ map inv_total_raised_json
       (PopulateNestedDataFixed.investments_batch
          (PopulateNestedDataFixed.process_nested_data plain_builtins
             [empty_payload_investment] fresh))
     = [Some "[]"]
  /\ map inv_total_raised_json
       (PopulateNestedDataFixed.investments_batch
          (PopulateNestedDataFixed.process_nested_data plain_builtins
             [empty_payload_investment] fresh))
     <> [None].
Proof. repeat split; try (vm_compute; reflexivity). vm_compute. discriminate. Qed.

(** C10, as the two scripts have it.  [complete_population.py] converts
    an array to a list and then stores null for a payload that is falsy
    (absent, None, empty, zero, False) and the JSON text for one that is
    truthy.  [populate_nested_data_fixed.py] stores null only for None:
    an absent payload defaults to the empty list and is stored, like an
    empty array, as the text of an empty list; every other payload is
    stored as the JSON text of the payload with an array converted to a
    list first. *)
Theorem total_raised_payload_by_script :
  forall (node : pyval) (inv : nat),
    let raw := safe_get node "total_raised" (VList []) in
    let name := safe_get node "company_display_name" VNone in
    (truthy (listed raw) = Returns false ->
       CompletePopulation.investment_of_node inv node
       = Returns {| inv_investor_id := inv;
                    inv_company_display_name := name;
                    inv_total_raised_json := None |})
    /\ (truthy (listed raw) = Returns true ->
          CompletePopulation.investment_of_node inv node
          = obind (json_dumps (listed raw)) (fun s =>
              Returns {| inv_investor_id := inv;
                         inv_company_display_name := name;
                         inv_total_raised_json := Some s |}))
    /\ (raw = VNone ->
          PopulateNestedDataFixed.total_raised_json raw = Returns None)
    /\ (raw <> VNone ->
          PopulateNestedDataFixed.total_raised_json raw
          = obind (json_dumps (listed raw)) (fun s => Returns (Some s)))
    /\ PopulateNestedDataFixed.total_raised_json (safe_get (VDict []) "total_raised" (VList []))
       = Returns (Some "[]")
    /\ PopulateNestedDataFixed.total_raised_json (VArr []) = Returns (Some "[]").
Proof.
  intros node inv raw name.
  repeat match goal with |- _ /\ _ => split end; try reflexivity.
  - intros H. unfold CompletePopulation.investment_of_node.
    fold raw. fold (listed raw). rewrite H. reflexivity.
  - intros H. unfold CompletePopulation.investment_of_node.
    fold raw. fold (listed raw). rewrite H. simpl.
    destruct (json_dumps (listed raw)); reflexivity.
  - intros ->. reflexivity.
  - intros H. destruct raw; try reflexivity. now elim H.
Qed.

Lemma total_raised_payload_by_script_witness :
  CompletePopulation.investment_of_node 1
    (VDict [("company_display_name", VStr "Acme"); ("total_raised", VArr [])])
  = Returns {| inv_investor_id := 1;
               inv_company_display_name := VStr "Acme";
               inv_total_raised_json := None |}
  /\ CompletePopulation.investment_of_node 1
       (VDict [("company_display_name", VStr "Acme");
               ("total_raised", VArr [VInt 1; VInt 2])])
     = Returns {| inv_investor_id := 1;
                  inv_company_display_name := VStr "Acme";
                  inv_total_raised_json := Some "[1, 2]" |}
  /\ PopulateNestedDataFixed.total_raised_json
       (safe_get (VDict [("total_raised", VNone)]) "total_raised" (VList []))
     = Returns None
  /\ PopulateNestedDataFixed.total_raised_json
       (safe_get (VDict [("total_raised", VArr [VInt 1; VInt 2])])
          "total_raised" (VList []))
     = Returns (Some "[1, 2]").
Proof.
  split; [|split; [|split]].
  - apply (total_raised_payload_by_script
             (VDict [("company_display_name", VStr "Acme"); ("total_raised", VArr [])]) 1).
    reflexivity.
  - apply (total_raised_payload_by_script
             (VDict [("company_display_name", VStr "Acme");
                     ("total_raised", VArr [VInt 1; VInt 2])]) 1).
    reflexivity.
  - apply (total_raised_payload_by_script
             (VDict [("total_raised", VNone)]) 1).
    reflexivity.
  - apply (total_raised_payload_by_script
             (VDict [("total_raised", VArr [VInt 1; VInt 2])]) 1).
    discriminate.
Defined.

(** ** Batches only grow, by rows of the expected kind *)

Lemma extends_refl {A} (P : A -> Prop) (l : list A) : extends P l l.
Proof. exists []. split; [now rewrite app_nil_r | constructor]. Qed.

Lemma extends_trans {A} (P : A -> Prop) (l1 l2 l3 : list A) :
  extends P l1 l2 -> extends P l2 l3 -> extends P l1 l3.
Proof.
  intros (d1 & -> & F1) (d2 & -> & F2). exists (d1 ++ d2). split.
  - now rewrite app_assoc.
  - apply Forall_app. now split.
Qed.

Lemma extends_snoc {A} (P : A -> Prop) (l : list A) (x : A) :
  P x -> extends P l (l ++ [x]).
Proof. intros H. exists [x]. split; [reflexivity | now constructor]. Qed.

Lemma extends_never {A} (l l' : list A) : extends never l l' -> l' = l.
Proof.
  intros (d & -> & F). destruct d as [|x d]; [now rewrite app_nil_r|].
  inversion F as [|? ? Hx]; now elim Hx.
Qed.

Lemma extends_from_nil {A} (P : A -> Prop) (l : list A) :
  extends P [] l -> Forall P l.
Proof. intros (d & -> & F). exact F. Qed.

Ltac grows_trivial :=
  repeat match goal with |- _ /\ _ => split end;
  first [ apply extends_refl | apply extends_snoc; assumption ].

Module CompletePopulationGrowth.
Import CompletePopulation.

Section Growth.
Variable P : row_predicates position_draft degree_draft.

Lemma cp_grows_preorder : preorder (cp_grows P).
Proof.
  split.
  - intros b. unfold cp_grows. grows_trivial.
  - intros a b c (A1 & A2 & A3 & A4 & A5 & A6 & A7 & A8)
      (B1 & B2 & B3 & B4 & B5 & B6 & B7 & B8).
    unfold cp_grows.
    repeat match goal with |- _ /\ _ => split end;
      eapply extends_trans; eassumption.
Qed.

Lemma push_position_grows r b : on_position P r -> cp_grows P b (push_position r b).
Proof. intros H. unfold cp_grows. simpl. grows_trivial. Qed.
Lemma push_degree_grows r b : on_degree P r -> cp_grows P b (push_degree r b).
Proof. intros H. unfold cp_grows. simpl. grows_trivial. Qed.
Lemma push_investment_grows r b :
  on_investment P r -> cp_grows P b (push_investment r b).
Proof. intros H. unfold cp_grows. simpl. grows_trivial. Qed.
Lemma push_area_grows r b : on_area P r -> cp_grows P b (push_area r b).
Proof. intros H. unfold cp_grows. simpl. grows_trivial. Qed.
Lemma push_location_grows r b : on_location P r -> cp_grows P b (push_location r b).
Proof. intros H. unfold cp_grows. simpl. grows_trivial. Qed.
Lemma push_stage_grows r b : on_stage P r -> cp_grows P b (push_stage r b).
Proof. intros H. unfold cp_grows. simpl. grows_trivial. Qed.
Lemma push_image_grows r b : on_image P r -> cp_grows P b (push_image r b).
Proof. intros H. unfold cp_grows. simpl. grows_trivial. Qed.
Lemma push_media_grows r b : on_media P r -> cp_grows P b (push_media r b).
Proof. intros H. unfold cp_grows. simpl. grows_trivial. Qed.

Lemma cp_kind_step_grows f push inv row :
  (forall r b, kr_investor_id r = inv -> cp_grows P b (push r b)) ->
  moves (cp_grows P) (kind_step f push inv row).
Proof.
  intros H. unfold kind_step. moves_auto cp_grows_preorder.
  apply H. reflexivity.
Qed.

Lemma cp_image_step_grows f e inv row :
  (forall r, im_investor_id r = inv -> on_image P r) ->
  moves (cp_grows P) (image_step f e inv row).
Proof.
  intros H. unfold image_step. moves_auto cp_grows_preorder.
  apply push_image_grows, H. reflexivity.
Qed.

Lemma cp_media_step_grows inv row :
  (forall r, ml_investor_id r = inv -> on_media P r) ->
  moves (cp_grows P) (media_step inv row).
Proof.
  intros H. unfold media_step. moves_auto cp_grows_preorder.
  apply push_media_grows, H. reflexivity.
Qed.

Lemma cp_positions_step_grows p row :
  (forall r, pd_person_id r = p -> on_position P r) ->
  moves (cp_grows P) (positions_step p row).
Proof.
  intros H. unfold positions_step. moves_auto cp_grows_preorder.
  apply push_position_grows, H. reflexivity.
Qed.

Lemma cp_degrees_step_grows p row :
  (forall r, dd_person_id r = p -> on_degree P r) ->
  moves (cp_grows P) (degrees_step p row).
Proof.
  intros H. unfold degrees_step. moves_auto cp_grows_preorder.
  apply push_degree_grows, H. reflexivity.
Qed.

Lemma investment_of_node_id inv node r :
  investment_of_node inv node = Returns r -> inv_investor_id r = inv.
Proof.
  unfold investment_of_node.
  destruct (truthy _) as [[|]|e]; simpl; try discriminate.
  - destruct (json_dumps _); simpl; try discriminate. now intros [= <-].
  - now intros [= <-].
Qed.

Lemma cp_investments_step_grows inv row :
  (forall r, inv_investor_id r = inv -> on_investment P r) ->
  moves (cp_grows P) (investments_step inv row).
Proof.
  intros H. unfold investments_step.
  apply (RunFacts.moves_when _ cp_grows_preorder); intros _.
  apply (RunFacts.moves_when _ cp_grows_preorder); intros _.
  apply (RunFacts.moves_for_each _ cp_grows_preorder); intros edge _.
  apply (RunFacts.moves_when _ cp_grows_preorder); intros _.
  apply (RunFacts.moves_when _ cp_grows_preorder); intros _.
  apply (RunFacts.moves_bind_lift _ cp_grows_preorder); intros r Hr.
  apply RunFacts.moves_modify. intros b.
  apply push_investment_grows, H. eapply investment_of_node_id; eassumption.
Qed.

(** The body of the loop: rows keyed by the investor carry [idx + 1],
    and a position or a degree is appended only for the person that
    [person_id_of] resolved. *)
Lemma cp_extract_row_grows person_map idx row :
  (forall r, inv_investor_id r = idx + 1 -> on_investment P r) ->
  (forall r, kr_investor_id r = idx + 1 -> on_area P r) ->
  (forall r, kr_investor_id r = idx + 1 -> on_location P r) ->
  (forall r, kr_investor_id r = idx + 1 -> on_stage P r) ->
  (forall r, im_investor_id r = idx + 1 -> on_image P r) ->
  (forall r, ml_investor_id r = idx + 1 -> on_media P r) ->
  (forall p r, person_id_of person_map idx row = Returns (Some (S p)) ->
               pd_person_id r = S p -> on_position P r) ->
  (forall p r, person_id_of person_map idx row = Returns (Some (S p)) ->
               dd_person_id r = S p -> on_degree P r) ->
  moves (cp_grows P) (extract_row person_map idx row).
Proof.
  intros Hi Ha Hl Hs Him Hm Hp Hd. unfold extract_row.
  apply (RunFacts.moves_bind_lift _ cp_grows_preorder); intros person_id Hperson.
  apply (RunFacts.moves_bind _ cp_grows_preorder).
  { apply cp_kind_step_grows. intros; apply push_area_grows; auto. }
  intros _. apply (RunFacts.moves_bind _ cp_grows_preorder).
  { apply cp_kind_step_grows. intros; apply push_location_grows; auto. }
  intros _. apply (RunFacts.moves_bind _ cp_grows_preorder).
  { apply cp_kind_step_grows. intros; apply push_stage_grows; auto. }
  intros _. apply (RunFacts.moves_bind _ cp_grows_preorder).
  { now apply cp_image_step_grows. }
  intros _. apply (RunFacts.moves_bind _ cp_grows_preorder).
  { now apply cp_image_step_grows. }
  intros _. apply (RunFacts.moves_bind _ cp_grows_preorder).
  { now apply cp_media_step_grows. }
  intros _. apply (RunFacts.moves_bind _ cp_grows_preorder).
  { destruct person_id as [[|p]|];
      try apply (RunFacts.moves_ret _ cp_grows_preorder).
    apply (RunFacts.moves_bind _ cp_grows_preorder).
    - apply cp_positions_step_grows. intros r Hr. eapply Hp; eassumption.
    - intros _. apply cp_degrees_step_grows. intros r Hr.
      eapply Hd; eassumption. }
  intros _. now apply cp_investments_step_grows.
Qed.

End Growth.

End CompletePopulationGrowth.

Module FixedGrowth.
Import PopulateNestedDataFixed.

Section Growth.
Variable P : row_predicates position_row degree_row.

Lemma fixed_grows_preorder : preorder (fixed_grows P).
Proof.
  split.
  - intros b. unfold fixed_grows. grows_trivial.
  - intros a b c (A1 & A2 & A3 & A4 & A5 & A6 & A7 & A8)
      (B1 & B2 & B3 & B4 & B5 & B6 & B7 & B8).
    unfold fixed_grows.
    repeat match goal with |- _ /\ _ => split end;
      eapply extends_trans; eassumption.
Qed.

Lemma fixed_push_position_grows r s :
  on_position P r -> fixed_grows P s (push_position r s).
Proof. intros H. unfold fixed_grows. simpl. grows_trivial. Qed.
Lemma fixed_push_degree_grows r s :
  on_degree P r -> fixed_grows P s (push_degree r s).
Proof. intros H. unfold fixed_grows. simpl. grows_trivial. Qed.
Lemma fixed_push_investment_grows r s :
  on_investment P r -> fixed_grows P s (push_investment r s).
Proof. intros H. unfold fixed_grows. simpl. grows_trivial. Qed.
Lemma fixed_push_area_grows r s :
  on_area P r -> fixed_grows P s (push_area r s).
Proof. intros H. unfold fixed_grows. simpl. grows_trivial. Qed.
Lemma fixed_push_location_grows r s :
  on_location P r -> fixed_grows P s (push_location r s).
Proof. intros H. unfold fixed_grows. simpl. grows_trivial. Qed.
Lemma fixed_push_stage_grows r s :
  on_stage P r -> fixed_grows P s (push_stage r s).
Proof. intros H. unfold fixed_grows. simpl. grows_trivial. Qed.
Lemma fixed_push_image_grows r s :
  on_image P r -> fixed_grows P s (push_image r s).
Proof. intros H. unfold fixed_grows. simpl. grows_trivial. Qed.
Lemma fixed_push_media_grows r s :
  on_media P r -> fixed_grows P s (push_media r s).
Proof. intros H. unfold fixed_grows. simpl. grows_trivial. Qed.

(** Writing to [companies], [schools] or a registry touches no batch. *)
Lemma fixed_insert_company_grows r : moves (fixed_grows P) (insert_company r).
Proof. intros s. unfold fixed_grows. simpl. grows_trivial. Qed.
Lemma fixed_insert_school_grows r : moves (fixed_grows P) (insert_school r).
Proof. intros s. unfold fixed_grows. simpl. grows_trivial. Qed.
Lemma fixed_set_company_map_grows m s : fixed_grows P s (set_company_map m s).
Proof. unfold fixed_grows. simpl. grows_trivial. Qed.
Lemma fixed_set_school_map_grows m s : fixed_grows P s (set_school_map m s).
Proof. unfold fixed_grows. simpl. grows_trivial. Qed.
Lemma fixed_set_errors_grows l s : fixed_grows P s (set_errors l s).
Proof. unfold fixed_grows. simpl. grows_trivial. Qed.

Lemma fixed_company_id_of_grows B company_data :
  moves (fixed_grows P) (company_id_of B company_data).
Proof.
  unfold company_id_of.
  destruct (nonempty_dict company_data);
    [|apply (RunFacts.moves_ret _ fixed_grows_preorder)].
  apply (RunFacts.moves_bind _ fixed_grows_preorder);
    [apply (RunFacts.moves_lift _ fixed_grows_preorder)|].
  intros [|]; [|apply (RunFacts.moves_ret _ fixed_grows_preorder)].
  apply (RunFacts.moves_bind _ fixed_grows_preorder);
    [apply (RunFacts.moves_lift _ fixed_grows_preorder)|].
  intros k.
  apply (RunFacts.moves_bind _ fixed_grows_preorder);
    [apply (RunFacts.moves_gets _ fixed_grows_preorder)|].
  intros [i|]; [apply (RunFacts.moves_ret _ fixed_grows_preorder)|].
  apply (RunFacts.moves_bind _ fixed_grows_preorder);
    [apply fixed_insert_company_grows|].
  intros i. moves_auto fixed_grows_preorder. apply fixed_set_company_map_grows.
Qed.

Lemma fixed_school_id_of_grows B school_data :
  moves (fixed_grows P) (school_id_of B school_data).
Proof.
  unfold school_id_of.
  destruct (nonempty_dict school_data);
    [|apply (RunFacts.moves_ret _ fixed_grows_preorder)].
  apply (RunFacts.moves_bind _ fixed_grows_preorder);
    [apply (RunFacts.moves_lift _ fixed_grows_preorder)|].
  intros [|]; [|apply (RunFacts.moves_ret _ fixed_grows_preorder)].
  apply (RunFacts.moves_bind _ fixed_grows_preorder);
    [apply (RunFacts.moves_lift _ fixed_grows_preorder)|].
  intros k.
  apply (RunFacts.moves_bind _ fixed_grows_preorder);
    [apply (RunFacts.moves_gets _ fixed_grows_preorder)|].
  intros [i|]; [apply (RunFacts.moves_ret _ fixed_grows_preorder)|].
  apply (RunFacts.moves_bind _ fixed_grows_preorder);
    [apply fixed_insert_school_grows|].
  intros i. moves_auto fixed_grows_preorder. apply fixed_set_school_map_grows.
Qed.

Lemma fixed_positions_step_grows B person_id row :
  (forall r, person_id = Some (pos_person_id r) -> pos_person_id r <> 0 ->
             on_position P r) ->
  moves (fixed_grows P) (positions_step B person_id row).
Proof.
  intros H. unfold positions_step.
  destruct person_id as [[|p]|];
    try apply (RunFacts.moves_ret _ fixed_grows_preorder).
  apply (RunFacts.moves_when _ fixed_grows_preorder); intros _.
  apply (RunFacts.moves_for_each _ fixed_grows_preorder); intros pos _.
  apply (RunFacts.moves_when _ fixed_grows_preorder); intros _.
  apply (RunFacts.moves_bind _ fixed_grows_preorder);
    [apply fixed_company_id_of_grows|].
  intros i. apply RunFacts.moves_modify. intros s.
  apply fixed_push_position_grows, H; [reflexivity | discriminate].
Qed.

Lemma fixed_degrees_step_grows B person_id row :
  (forall r, person_id = Some (deg_person_id r) -> deg_person_id r <> 0 ->
             on_degree P r) ->
  moves (fixed_grows P) (degrees_step B person_id row).
Proof.
  intros H. unfold degrees_step.
  destruct person_id as [[|p]|];
    try apply (RunFacts.moves_ret _ fixed_grows_preorder).
  apply (RunFacts.moves_when _ fixed_grows_preorder); intros _.
  apply (RunFacts.moves_for_each _ fixed_grows_preorder); intros deg _.
  apply (RunFacts.moves_when _ fixed_grows_preorder); intros _.
  apply (RunFacts.moves_bind _ fixed_grows_preorder);
    [apply fixed_school_id_of_grows|].
  intros i. apply RunFacts.moves_modify. intros s.
  apply fixed_push_degree_grows, H; [reflexivity | discriminate].
Qed.

Lemma fixed_kind_step_grows f push inv row :
  (forall r s, kr_investor_id r = inv -> fixed_grows P s (push r s)) ->
  moves (fixed_grows P) (kind_step f push inv row).
Proof.
  intros H. unfold kind_step. moves_auto fixed_grows_preorder.
  apply H. reflexivity.
Qed.

Lemma fixed_image_step_grows f e inv row :
  (forall r, im_investor_id r = inv -> on_image P r) ->
  moves (fixed_grows P) (image_step f e inv row).
Proof.
  intros H. unfold image_step. moves_auto fixed_grows_preorder.
  apply fixed_push_image_grows, H. reflexivity.
Qed.

Lemma fixed_media_step_grows inv row :
  (forall r, ml_investor_id r = inv -> on_media P r) ->
  moves (fixed_grows P) (media_step inv row).
Proof.
  intros H. unfold media_step. moves_auto fixed_grows_preorder.
  apply fixed_push_media_grows, H. reflexivity.
Qed.

Lemma fixed_investments_step_grows inv row :
  (forall r, inv_investor_id r = inv -> on_investment P r) ->
  moves (fixed_grows P) (investments_step inv row).
Proof.
  intros H. unfold investments_step. moves_auto fixed_grows_preorder.
  apply fixed_push_investment_grows, H. reflexivity.
Qed.

(** The body of the [try]: rows keyed by the investor carry [idx + 1];
    no position and no degree is appended, because the person of a row
    never resolves. *)
Lemma fixed_record_body_grows B idx row :
  (forall r, inv_investor_id r = idx + 1 -> on_investment P r) ->
  (forall r, kr_investor_id r = idx + 1 -> on_area P r) ->
  (forall r, kr_investor_id r = idx + 1 -> on_location P r) ->
  (forall r, kr_investor_id r = idx + 1 -> on_stage P r) ->
  (forall r, im_investor_id r = idx + 1 -> on_image P r) ->
  (forall r, ml_investor_id r = idx + 1 -> on_media P r) ->
  moves (fixed_grows P) (record_body B idx row).
Proof.
  intros Hi Ha Hl Hs Him Hm. unfold record_body.
  rewrite FixedFacts.fixed_person_never_resolves.
  apply RunFacts.moves_bind_ret.
  apply (RunFacts.moves_bind _ fixed_grows_preorder);
    [apply (RunFacts.moves_ret _ fixed_grows_preorder)|].
  intros _. apply (RunFacts.moves_bind _ fixed_grows_preorder);
    [apply (RunFacts.moves_ret _ fixed_grows_preorder)|].
  intros _. apply (RunFacts.moves_bind _ fixed_grows_preorder).
  { now apply fixed_investments_step_grows. }
  intros _. apply (RunFacts.moves_bind _ fixed_grows_preorder).
  { apply fixed_kind_step_grows. intros; apply fixed_push_area_grows; auto. }
  intros _. apply (RunFacts.moves_bind _ fixed_grows_preorder).
  { apply fixed_kind_step_grows. intros; apply fixed_push_location_grows; auto. }
  intros _. apply (RunFacts.moves_bind _ fixed_grows_preorder).
  { apply fixed_kind_step_grows. intros; apply fixed_push_stage_grows; auto. }
  intros _. apply (RunFacts.moves_bind _ fixed_grows_preorder).
  { now apply fixed_image_step_grows. }
  intros _. apply (RunFacts.moves_bind _ fixed_grows_preorder).
  { now apply fixed_image_step_grows. }
  intros _. now apply fixed_media_step_grows.
Qed.

End Growth.

End FixedGrowth.

(** ** A record without a person *)

Lemma obind_returns {A B} (m : outcome A) (f : A -> outcome B) (b : B) :
  obind m f = Returns b -> exists a, m = Returns a /\ f a = Returns b.
Proof. destruct m as [a|e]; simpl; [eauto | discriminate]. Qed.

Module FastFacts.
Import ExportRelationalFast.

Lemma nested_not_mapping row f v :
  not_mapping (assoc f row) -> nested row f = Returns v ->
  nonempty_dict v = false.
Proof.
  unfold nested, get. intros H.
  destruct (assoc f row) as [x|]; [|now intros [= <-]].
  destruct x; simpl in H; try (now elim H);
    destruct (notna_truth _) as [[|]|e]; simpl;
    intros [= <-]; reflexivity.
Qed.

Lemma nested_missing_or_scalar row f :
  missing_or_scalar (assoc f row) ->
  exists v, nested row f = Returns v /\ nonempty_dict v = false.
Proof.
  unfold nested, get. intros H.
  destruct (assoc f row) as [x|]; [|now exists (VDict [])].
  destruct x; simpl in H; try (now elim H); simpl; eauto.
Qed.

Lemma reference_of_non_dict map v key :
  nonempty_dict v = false -> reference map v key = Returns None.
Proof. intros H. unfold reference. now rewrite H. Qed.

Lemma investor_without_person B person_map firm_map location_map idx row r :
  not_mapping (assoc "person" row) ->
  investor_data B person_map firm_map location_map idx row = Returns r ->
  i_person_id r = None.
Proof.
  intros H E. unfold investor_data in E.
  apply obind_returns in E as (person & Ep & E).
  apply obind_returns in E as (firm & _ & E).
  apply obind_returns in E as (location & _ & E).
  rewrite (reference_of_non_dict _ _ _ (nested_not_mapping _ _ _ H Ep)) in E.
  apply obind_returns in E as (person_id & [= <-] & E).
  apply obind_returns in E as (firm_id & _ & E).
  apply obind_returns in E as (location_id & _ & E).
  apply obind_returns in E as (vote_count & _ & E).
  apply obind_returns in E as (flags & _ & E).
  now injection E as <-.
Qed.

End FastFacts.

(** C2.  Take a row whose [person] is absent, None, NaN, or anything that
    is not a dict.  Then the body of the loop leaves the collected
    positions and degrees exactly as they were, in
    [complete_population.py] and in [populate_nested_data_fixed.py],
    whatever else it appends and whether it returns or raises; the
    investor row that [export_relational_fast.py] builds for the record
    has no person (and when [person] is absent, null or a scalar, reading
    it returns and the reference resolves to None).  Positions and
    degrees are appended only under a resolved person: every row that
    [positions_step] or [degrees_step] appends carries the id it was
    given, the steps of the fixed script append nothing for None or 0,
    and the loop of [complete_population.py] only appends rows for the
    id that the lookup returned. *)
Theorem no_person_no_career_rows :
  forall (B : builtins) (idx : nat) (row : list (string * pyval)),
    not_mapping (assoc "person" row) ->
    (forall person_map b,
        let b' := fst (CompletePopulation.extract_row person_map idx row b) in
        CompletePopulation.all_positions b' = CompletePopulation.all_positions b
        /\ CompletePopulation.all_degrees b' = CompletePopulation.all_degrees b)
    /\ (forall s,
          let s' := fst (PopulateNestedDataFixed.record_body B idx row s) in
          PopulateNestedDataFixed.positions_batch s'
          = PopulateNestedDataFixed.positions_batch s
          /\ PopulateNestedDataFixed.degrees_batch s'
             = PopulateNestedDataFixed.degrees_batch s)
    /\ (forall person_map firm_map location_map r,
          ExportRelationalFast.investor_data B person_map firm_map location_map
            idx row = Returns r ->
          i_person_id r = None)
    /\ (missing_or_scalar (assoc "person" row) ->
          exists person,
            ExportRelationalFast.nested row "person" = Returns person
            /\ forall person_map key,
                 ExportRelationalFast.reference person_map person key
                 = Returns None)
    /\ (forall p any_row,
          moves (cp_grows (cp_of_person p))
            (CompletePopulation.positions_step p any_row)
          /\ moves (cp_grows (cp_of_person p))
               (CompletePopulation.degrees_step p any_row))
    /\ (forall person_id any_row,
          moves (fixed_grows (fixed_of_person person_id))
            (PopulateNestedDataFixed.positions_step B person_id any_row)
          /\ moves (fixed_grows (fixed_of_person person_id))
               (PopulateNestedDataFixed.degrees_step B person_id any_row))
    /\ (forall person_map any_row b p,
          CompletePopulation.person_id_of person_map idx any_row
          = Returns (Some (S p)) ->
          cp_grows (cp_of_person (S p)) b
            (fst (CompletePopulation.extract_row person_map idx any_row b))).
Proof.
  intros B idx row H.
  repeat match goal with |- _ /\ _ => split end.
  - intros person_map b.
    assert (G : cp_grows no_career b
                  (fst (CompletePopulation.extract_row person_map idx row b))).
    { apply CompletePopulationGrowth.cp_extract_row_grows;
        try (intros; exact I);
        intros p r E; rewrite CompletePopulationFacts.cp_person_never_resolves in E;
        discriminate. }
    destruct G as (G1 & G2 & _). apply extends_never in G1, G2. now split.
  - intros s.
    assert (G : fixed_grows no_career s
                  (fst (PopulateNestedDataFixed.record_body B idx row s))).
    { apply FixedGrowth.fixed_record_body_grows; intros; exact I. }
    destruct G as (G1 & G2 & _). apply extends_never in G1, G2. now split.
  - intros person_map firm_map location_map r.
    now apply FastFacts.investor_without_person.
  - intros M. destruct (FastFacts.nested_missing_or_scalar row "person" M)
      as (v & E & N).
    exists v. split; [exact E|]. intros.
    now apply FastFacts.reference_of_non_dict.
  - intros p any_row. split.
    + apply CompletePopulationGrowth.cp_positions_step_grows.
      intros r Hr; exact Hr.
    + apply CompletePopulationGrowth.cp_degrees_step_grows.
      intros r Hr; exact Hr.
  - intros person_id any_row. split.
    + apply FixedGrowth.fixed_positions_step_grows. intros r E N. now split.
    + apply FixedGrowth.fixed_degrees_step_grows. intros r E N. now split.
  - intros person_map any_row b p E.
    apply CompletePopulationGrowth.cp_extract_row_grows;
      try (intros; exact I); intros q r E' Hr; rewrite E in E';
      injection E' as <-; exact Hr.
Qed.

Lemma no_person_no_career_rows_witness :
  not_mapping (assoc "person" orphan_record)
  /\ CompletePopulation.all_positions
       (fst (CompletePopulation.extract_row [(KStr "a", 1)] 0 orphan_record
               CompletePopulation.no_batches)) = []
  /\ (exists person,
        ExportRelationalFast.nested orphan_record "person" = Returns person
        /\ forall person_map key,
             ExportRelationalFast.reference person_map person key = Returns None).
Proof.
  split; [exact I|]. split.
  - apply (no_person_no_career_rows plain_builtins 0 orphan_record I).
  - apply (no_person_no_career_rows plain_builtins 0 orphan_record I). exact I.
Defined.

(** ** One bad record *)

Module FixedIsolation.
Import PopulateNestedDataFixed.

(** The loop of [populate_nested_data_fixed.py] goes through every
    record: a record in the middle of the frame is handled from the state
    the records before it left, and the records after it are handled from
    the state it leaves, whether its body returned or raised. *)
Lemma process_from_app B df1 : forall idx df2 s,
  process_from B idx (df1 ++ df2) s
  = process_from B (idx + List.length df1) df2 (process_from B idx df1 s).
Proof.
  induction df1 as [|row df1 IH]; simpl; intros idx df2 s.
  - now rewrite Nat.add_0_r.
  - rewrite IH. f_equal. lia.
Qed.

(** What the handler does with a record that raised: the exception is
    logged under the index of the record, and the batches keep what the
    record appended before it raised. *)
Lemma guarded_logs B idx row s s' e :
  record_body B idx row s = (s', Raises e) ->
  guarded B idx row s = set_errors (errors s' ++ [(idx, e)]) s'.
Proof. intros H. unfold guarded. now rewrite H. Qed.

Lemma guarded_returns B idx row s s' u :
  record_body B idx row s = (s', Returns u) -> guarded B idx row s = s'.
Proof. intros H. unfold guarded. now rewrite H. Qed.

End FixedIsolation.

(** C4.  [complete_population.py] has no handler around the body of its
    loop.  On a frame whose first record raises while its funding
    payload is serialised, [process_all_nested_data] raises out of the
    loop: the run ends there, the second record is never looked at and no
    table receives a row, although the second record alone is extracted
    without trouble.  [populate_nested_data_fixed.py] on the same frame
    logs the exception under index 0 and goes on to store the area of the
    second record under investor 2. *)
Theorem complete_population_aborts_on_bad_record :
  let df := [unserialisable_record; plain_record] in
  snd (CompletePopulation.process_all_nested_data df fresh) = Raises TypeError
  /\ rows (areas_of_interest
             (fst (CompletePopulation.process_all_nested_data df fresh))) = []
  /\ contents (areas_of_interest
       (fst (CompletePopulation.process_all_nested_data [plain_record] fresh)))
     = [{| kr_investor_id := 1; kr_kind := VStr "sector";
           kr_display_name := VStr "Fintech" |}]
  /\ PopulateNestedDataFixed.errors
       (PopulateNestedDataFixed.process_nested_data plain_builtins df fresh)
     = [(0, TypeError)]
  /\ contents (areas_of_interest
       (PopulateNestedDataFixed.db
          (PopulateNestedDataFixed.process_nested_data plain_builtins df fresh)))
     = [{| kr_investor_id := 2; kr_kind := VStr "sector";
           kr_display_name := VStr "Fintech" |}].
Proof. repeat split; vm_compute; reflexivity. Qed.

(** ** Serial identifiers *)

Module StorageFacts.

Lemma append_all_spec {A} (rs : list A) : forall (t : table A),
  rows (append_all rs t)
  = rows t ++ combine (seq (next_id t) (List.length rs)) rs
  /\ next_id (append_all rs t) = next_id t + List.length rs.
Proof.
  induction rs as [|r rs IH]; intros t.
  - simpl. now rewrite app_nil_r, Nat.add_0_r.
  - cbn [append_all].
    destruct (IH (fst (insert r t))) as [E1 E2]. rewrite E1, E2. simpl.
    rewrite <- app_assoc. simpl. split; [reflexivity | lia].
Qed.

Lemma append_all_app {A} (rs1 rs2 : list A) : forall (t : table A),
  append_all (rs1 ++ rs2) t = append_all rs2 (append_all rs1 t).
Proof. induction rs1 as [|r rs1 IH]; simpl; intros t; [reflexivity | apply IH]. Qed.

Lemma append_all_created {A} (rs : list A) :
  rows (append_all rs created) = combine (seq 1 (List.length rs)) rs.
Proof. now destruct (append_all_spec rs (@created A)) as [-> _]. Qed.

Lemma ids_append_all_created {A} (rs : list A) :
  ids (append_all rs created) = seq 1 (List.length rs).
Proof.
  unfold ids. rewrite append_all_created.
  generalize 1. induction rs as [|r rs IH]; simpl; intros n;
    [reflexivity | now rewrite IH].
Qed.

Lemma contents_append_all_created {A} (rs : list A) :
  contents (append_all rs created) = rs.
Proof.
  unfold contents. rewrite append_all_created.
  generalize 1. induction rs as [|r rs IH]; simpl; intros n;
    [reflexivity | now rewrite IH].
Qed.

Lemma nth_error_combine_seq {A} (rs : list A) : forall n i r,
  nth_error rs i = Some r ->
  nth_error (combine (seq n (List.length rs)) rs) i = Some (n + i, r).
Proof.
  induction rs as [|x rs IH]; intros n [|i] r; simpl; try discriminate.
  - intros [= ->]. now rewrite Nat.add_0_r.
  - intros H. rewrite (IH (S n) i r H). f_equal. f_equal. lia.
Qed.

End StorageFacts.

(** ** The bulk export *)

Lemma returned_obind {A B} (m : outcome A) (f : A -> outcome B) :
  returned (obind m f) = true ->
  exists a, m = Returns a /\ returned (f a) = true.
Proof. destruct m as [a|e]; simpl; [eauto | discriminate]. Qed.

Lemma returned_true {A} (m : outcome A) :
  returned m = true -> exists a, m = Returns a.
Proof. destruct m as [a|e]; simpl; [eauto | discriminate]. Qed.

Module FastRun.
Import ExportRelationalFast.

Lemma reference_returns map v key :
  returned (reference map v key) = true ->
  (nonempty_dict v = true -> returned (hash_key key) = true)
  /\ forall map', exists i, reference map' v key = Returns i.
Proof.
  unfold reference. destruct (nonempty_dict v).
  - destruct (hash_key key) as [k|e]; simpl; [|discriminate].
    intros _. split; [reflexivity | eauto].
  - intros _. split; [discriminate | eauto].
Qed.

(** What it takes for a fact row to be built, and that the registries do
    not matter to it. *)
Lemma investor_data_parts B pm fm lm idx row :
  returned (investor_data B pm fm lm idx row) = true ->
  (exists person firm location,
      nested row "person" = Returns person
      /\ nested row "firm" = Returns firm
      /\ nested row "location" = Returns location
      /\ (nonempty_dict person = true ->
          returned (hash_key (dict_get person "slug" (person_token idx))) = true)
      /\ (nonempty_dict firm = true ->
          returned (hash_key (dict_get firm "slug" (firm_token idx))) = true)
      /\ (nonempty_dict location = true ->
          returned (hash_key (dict_get location "display_name" VNone)) = true))
  /\ forall pm' fm' lm', exists r, investor_data B pm' fm' lm' idx row = Returns r.
Proof.
  unfold investor_data. intros H.
  apply returned_obind in H as (person & Ep & H).
  apply returned_obind in H as (firm & Ef & H).
  apply returned_obind in H as (location & El & H).
  apply returned_obind in H as (person_id & Rp & H).
  apply returned_obind in H as (firm_id & Rf & H).
  apply returned_obind in H as (location_id & Rl & H).
  apply returned_obind in H as (vote_count & Ev & H).
  apply returned_obind in H as (flags & Efl & _).
  assert (Rp' : returned (reference pm person
                  (dict_get person "slug" (person_token idx))) = true)
    by now rewrite Rp.
  assert (Rf' : returned (reference fm firm
                  (dict_get firm "slug" (firm_token idx))) = true)
    by now rewrite Rf.
  assert (Rl' : returned (reference lm location
                  (dict_get location "display_name" VNone)) = true)
    by now rewrite Rl.
  apply reference_returns in Rp' as [Hp Ap].
  apply reference_returns in Rf' as [Hf Af].
  apply reference_returns in Rl' as [Hl Al].
  split.
  - exists person, firm, location. repeat split; assumption.
  - intros pm' fm' lm'.
    destruct (Ap pm') as [pid Epid]. destruct (Af fm') as [fid Efid].
    destruct (Al lm') as [lid Elid].
    rewrite Ep. cbn [obind]. rewrite Ef. cbn [obind]. rewrite El. cbn [obind].
    rewrite Epid. cbn [obind]. rewrite Efid. cbn [obind].
    rewrite Elid. cbn [obind]. rewrite Ev. cbn [obind].
    rewrite Efl. cbn [obind]. eauto.
Qed.

Lemma fact_rows_build_tail B idx row df :
  fact_rows_build B idx (row :: df) ->
  returned (investor_data B [] [] [] idx row) = true
  /\ fact_rows_build B (S idx) df.
Proof.
  intros H. split.
  - specialize (H 0 row eq_refl). now rewrite Nat.add_0_r in H.
  - intros j r E. specialize (H (S j) r E).
    now replace (S idx + j) with (idx + S j) by lia.
Qed.

Lemma collect_returns B : forall df idx acc,
  fact_rows_build B idx df ->
  hashable (persons_data acc) -> hashable (firms_data acc) ->
  hashable (locations_data acc) ->
  exists c, collect B idx df acc = Returns c
            /\ hashable (persons_data c) /\ hashable (firms_data c)
            /\ hashable (locations_data c).
Proof.
  induction df as [|row df IH]; intros idx acc H Hp Hf Hl.
  - exists acc. simpl. auto.
  - apply fact_rows_build_tail in H as [H0 H].
    apply investor_data_parts in H0
      as [(person & firm & location & Ep & Ef & El & Kp & Kf & Kl) _].
    cbn [collect]. rewrite Ep. cbn [obind]. rewrite Ef. cbn [obind].
    rewrite El. cbn [obind].
    apply IH; [exact H | | | ]; cbn [persons_data firms_data locations_data].
    + destruct (nonempty_dict person); [|exact Hp].
      apply Forall_app. split; [exact Hp|]. constructor; [|constructor].
      now apply Kp.
    + destruct (nonempty_dict firm); [|exact Hf].
      apply Forall_app. split; [exact Hf|]. constructor; [|constructor].
      now apply Kf.
    + destruct (nonempty_dict location); [|exact Hl].
      apply Forall_app. split; [exact Hl|]. constructor; [|constructor].
      now apply Kl.
Qed.

Lemma drop_duplicates_returns rs : forall seen,
  hashable rs -> exists kept, drop_duplicates rs seen = Returns kept.
Proof.
  induction rs as [|r rs IH]; intros seen H; [now exists []|].
  inversion H as [|? ? Hr Hrs]; subst.
  apply returned_true in Hr as [k Ek].
  cbn [drop_duplicates]. rewrite Ek. cbn [obind].
  destruct (existsb (hkey_eqb k) seen).
  - now apply IH.
  - destruct (IH (k :: seen) Hrs) as [kept ->]. cbn [obind]. eauto.
Qed.

Lemma to_sql_investors_twice rs1 rs2 db :
  to_sql_investors rs2 (to_sql_investors rs1 db)
  = to_sql_investors (rs1 ++ rs2) db.
Proof.
  unfold to_sql_investors. simpl. now rewrite StorageFacts.append_all_app.
Qed.

(** The second loop writes one row for each record, in the order of the
    frame, however the rows fall into batches of 1000. *)
Lemma create_investors_spec B pm fm lm : forall df idx batch db,
  fact_rows_build B idx df ->
  exists rs,
    List.length rs = List.length df
    /\ (forall j row, nth_error df j = Some row ->
          exists r, nth_error rs j = Some r
                    /\ investor_data B pm fm lm (idx + j) row = Returns r)
    /\ create_investors B pm fm lm idx df batch db
       = (to_sql_investors (batch ++ rs) db, Returns tt).
Proof.
  induction df as [|row df IH]; intros idx batch db H.
  - exists []. split; [reflexivity|]. split.
    + intros [|j] row; discriminate.
    + now rewrite app_nil_r.
  - apply fact_rows_build_tail in H as [H0 H].
    apply investor_data_parts in H0 as [_ H0].
    destruct (H0 pm fm lm) as [r Er].
    cbn [create_investors]. unfold bind at 1, lift at 1. rewrite Er.
    destruct (Nat.leb 1000 (List.length (batch ++ [r]))).
    + destruct (IH (S idx) [] (to_sql_investors (batch ++ [r]) db) H)
        as (rs & L & N & E).
      exists (r :: rs). split; [simpl; now rewrite L|]. split.
      * intros [|j] row'; simpl.
        -- intros [= <-]. exists r. now rewrite Nat.add_0_r.
        -- intros E'. destruct (N j row' E') as (r' & E1 & E2).
           exists r'. split; [exact E1|].
           now replace (idx + S j) with (S idx + j) by lia.
      * unfold bind, modify. rewrite E. rewrite to_sql_investors_twice.
        now rewrite <- app_assoc.
    + destruct (IH (S idx) (batch ++ [r]) db H) as (rs & L & N & E).
      exists (r :: rs). split; [simpl; now rewrite L|]. split.
      * intros [|j] row'; simpl.
        -- intros [= <-]. exists r. now rewrite Nat.add_0_r.
        -- intros E'. destruct (N j row' E') as (r' & E1 & E2).
           exists r'. split; [exact E1|].
           now replace (idx + S j) with (S idx + j) by lia.
      * rewrite E. now rewrite <- app_assoc.
Qed.

(** The whole run, when every fact row can be built. *)
Lemma run_spec B df :
  fact_rows_build B 0 df ->
  exists c persons_df firms_df locations_df rs,
    collect B 0 df
      {| persons_data := []; firms_data := []; locations_data := [] |}
    = Returns c
    /\ drop_duplicates (persons_data c) [] = Returns persons_df
    /\ drop_duplicates (firms_data c) [] = Returns firms_df
    /\ drop_duplicates (locations_data c) [] = Returns locations_df
    /\ List.length rs = List.length df
    /\ (let db1 := to_sql_locations locations_df
                     (to_sql_firms firms_df (to_sql_persons persons_df fresh)) in
        (forall j row, nth_error df j = Some row ->
           exists r, nth_error rs j = Some r
                     /\ investor_data B (select_map dim_key (persons db1))
                          (select_map dim_key (firms db1))
                          (select_map dim_key (locations db1)) j row
                        = Returns r)
        /\ extract_and_bulk_insert B df fresh
           = (to_sql_investors rs db1, Returns tt)).
Proof.
  intros H.
  destruct (collect_returns B df 0
              {| persons_data := []; firms_data := []; locations_data := [] |} H)
    as (c & Ec & Hp & Hf & Hl); try constructor.
  destruct (drop_duplicates_returns _ [] Hp) as [persons_df Ep].
  destruct (drop_duplicates_returns _ [] Hf) as [firms_df Ef].
  destruct (drop_duplicates_returns _ [] Hl) as [locations_df El].
  set (db1 := to_sql_locations locations_df
                (to_sql_firms firms_df (to_sql_persons persons_df fresh))).
  destruct (create_investors_spec B
              (select_map dim_key (persons db1))
              (select_map dim_key (firms db1))
              (select_map dim_key (locations db1)) df 0 [] db1 H)
    as (rs & L & N & E).
  exists c, persons_df, firms_df, locations_df, rs.
  do 5 (split; [assumption|]).
  cbv zeta. fold db1. split; [exact N|].
  unfold extract_and_bulk_insert.
  unfold bind, lift, modify, gets. rewrite Ec, Ep, Ef, El.
  fold db1. exact E.
Qed.

End FastRun.

(** When the fact row of every record can be built, the bulk export
    into a freshly created schema returns and the [investors] table holds
    exactly one row for each record of the frame, in the order of the
    frame, whatever the nested person, firm and location of the record
    resolved to: the row of the record at position [i] (counted from 0)
    is the one built from that record and carries the id [i + 1].  The
    child pass counts the same way: every row that the body of the loop
    of [complete_population.py] or of [populate_nested_data_fixed.py]
    appends for the record at position [i] and that is keyed by investor
    carries [i + 1]. *)
Lemma investor_ids_are_ordinals :
  forall (B : builtins) (df : list (list (string * pyval))),
    fact_rows_build B 0 df ->
    exists db,
      ExportRelationalFast.extract_and_bulk_insert B df fresh = (db, Returns tt)
      /\ ids (investors db) = seq 1 (List.length df)
      /\ (forall i row, nth_error df i = Some row ->
            exists r,
              nth_error (rows (investors db)) i = Some (i + 1, r)
              /\ ExportRelationalFast.investor_data B
                   (select_map dim_key (persons db))
                   (select_map dim_key (firms db))
                   (select_map dim_key (locations db)) i row = Returns r)
      /\ (forall person_map i row,
            moves (cp_grows (of_investor (i + 1)))
              (CompletePopulation.extract_row person_map i row)
            /\ moves (fixed_grows (of_investor (i + 1)))
                 (PopulateNestedDataFixed.record_body B i row)).
Proof.
  intros B df H.
  destruct (FastRun.run_spec B df H)
    as (c & persons_df & firms_df & locations_df & rs & _ & _ & _ & _ & L & N & E).
  cbv zeta in N, E.
  set (db1 := to_sql_locations locations_df
                (to_sql_firms firms_df (to_sql_persons persons_df fresh))) in *.
  exists (to_sql_investors rs db1).
  assert (I : investors (to_sql_investors rs db1) = append_all rs created)
    by reflexivity.
  split; [|split; [|split]].
  - exact E.
  - rewrite I, StorageFacts.ids_append_all_created. now rewrite L.
  - intros i row Hi. destruct (N i row Hi) as (r & E1 & E2).
    exists r. split.
    + rewrite I, StorageFacts.append_all_created.
      rewrite (StorageFacts.nth_error_combine_seq rs 1 i r E1).
      now rewrite Nat.add_comm.
    + exact E2.
  - intros person_map i row. split.
    + apply CompletePopulationGrowth.cp_extract_row_grows;
        try (intros r Hr; exact Hr); intros; exact Logic.I.
    + apply FixedGrowth.fixed_record_body_grows; intros r Hr; exact Hr.
Qed.

Lemma investor_ids_are_ordinals_witness :
  fact_rows_build plain_builtins 0 scenario
  /\ exists db,
       ExportRelationalFast.extract_and_bulk_insert plain_builtins scenario fresh
       = (db, Returns tt)
       /\ ids (investors db) = [1; 2].
Proof.
  assert (H : fact_rows_build plain_builtins 0 scenario).
  { intros [|[|[|j]]] row E; simpl in E; try discriminate;
      injection E as <-; vm_compute; reflexivity. }
  split; [exact H|].
  destruct (investor_ids_are_ordinals plain_builtins scenario H)
    as (db & E & I & _).
  exists db. split; [exact E | exact I].
Defined.

(** Rows of the ordinary shapes can always be built into a fact row. *)
Module OrdinaryRows.
Import ExportRelationalFast.

Lemma plain_scalar_hashable v :
  plain_scalar v = true -> returned (hash_key v) = true.
Proof. destruct v; simpl; intros H; try reflexivity; discriminate. Qed.

Lemma plain_scalar_truthy v :
  plain_scalar v = true -> returned (truthy v) = true.
Proof. destruct v; simpl; intros H; try reflexivity; discriminate. Qed.

Lemma dimension_shape_reference key token row field map :
  dimension_shape key (assoc field row) = true ->
  plain_scalar token = true ->
  exists v, nested row field = Returns v
            /\ returned (reference map v (dict_get v key token)) = true.
Proof.
  unfold nested, get, reference. intros H T.
  destruct (assoc field row) as [x|]; [|exists (VDict []); now split].
  destruct x; simpl in H; try discriminate; simpl;
    try (eexists; split; [reflexivity | reflexivity]).
  exists (VDict d). split; [reflexivity|].
  destruct d as [|kv d]; [reflexivity|].
  cbn [nonempty_dict nonempty dict_get]. unfold get.
  destruct (assoc key (kv :: d)) as [k|].
  - destruct (hash_key k) eqn:E; [reflexivity|].
    apply plain_scalar_hashable in H. now rewrite E in H.
  - destruct (hash_key token) eqn:E; [reflexivity|].
    apply plain_scalar_hashable in T. now rewrite E in T.
Qed.

Lemma count_shape_vote_count B row :
  count_shape (assoc "vote_count" row) = true ->
  returned (vote_count_of B row) = true.
Proof.
  unfold vote_count_of, get. intros H.
  destruct (assoc "vote_count" row) as [x|]; [|reflexivity].
  destruct x; simpl in H; try discriminate; reflexivity.
Qed.

Lemma map_outcome_returns {A C} (f : A -> outcome C) (l : list A) :
  (forall x, In x l -> returned (f x) = true) ->
  returned (map_outcome f l) = true.
Proof.
  induction l as [|x l IH]; intros H; [reflexivity|].
  cbn [map_outcome].
  destruct (returned_true (f x) (H x (or_introl eq_refl))) as [y ->].
  cbn [obind].
  destruct (returned_true _ (IH (fun z Hz => H z (or_intror Hz)))) as [ys ->].
  reflexivity.
Qed.

Lemma ordinary_row_builds B idx row :
  ordinary_row row = true ->
  returned (investor_data B [] [] [] idx row) = true.
Proof.
  unfold ordinary_row. intros H.
  apply andb_prop in H as [H Hflags]. apply andb_prop in H as [H Hcount].
  apply andb_prop in H as [H Hloc]. apply andb_prop in H as [Hper Hfirm].
  destruct (dimension_shape_reference "slug" (person_token idx) row "person" []
              Hper eq_refl) as (person & Ep & Rp).
  destruct (dimension_shape_reference "slug" (firm_token idx) row "firm" []
              Hfirm eq_refl) as (firm & Ef & Rf).
  destruct (dimension_shape_reference "display_name" VNone row "location" []
              Hloc eq_refl) as (location & El & Rl).
  apply returned_true in Rp as [pid Rp]. apply returned_true in Rf as [fid Rf].
  apply returned_true in Rl as [lid Rl].
  destruct (returned_true _ (count_shape_vote_count B row Hcount)) as [vc Ev].
  assert (F : returned (map_outcome
                (fun c => obind (truthy (get row c (VBool false)))
                            (fun b => Returns (c, VBool b))) flag_columns) = true).
  { apply map_outcome_returns. intros c Hc.
    rewrite forallb_forall in Hflags. specialize (Hflags c Hc).
    unfold get. unfold flag_shape in Hflags.
    destruct (assoc c row) as [x|]; [|reflexivity].
    destruct (returned_true _ (plain_scalar_truthy x Hflags)) as [b ->].
    reflexivity. }
  apply returned_true in F as [flags F].
  unfold investor_data.
  rewrite Ep. cbn [obind]. rewrite Ef. cbn [obind]. rewrite El. cbn [obind].
  rewrite Rp. cbn [obind]. rewrite Rf. cbn [obind]. rewrite Rl. cbn [obind].
  rewrite Ev. cbn [obind]. rewrite F. reflexivity.
Qed.

(** A frame of ordinary rows can be built row by row, whether or not any
    person, firm or location is present or known. *)
Lemma ordinary_rows_build B df idx :
  Forall (fun row => ordinary_row row = true) df ->
  fact_rows_build B idx df.
Proof.
  intros H j row E. apply ordinary_row_builds.
  rewrite Forall_forall in H. apply H. eapply nth_error_In; eassumption.
Qed.

End OrdinaryRows.

(** ** The row-at-a-time export *)

Module ExportRelationalFacts.
Import ExportRelational.

(** A row is a Series, so every [safe_get(row, ...)] answers its
    default: no person, no location and no firm is looked at, and the
    investor row is blank. *)
Lemma record_body_is_blank B idx row s :
  record_body B idx row s
  = (commit (fst (insert_investor blank_investor s)), Returns tt).
Proof. reflexivity. Qed.

Lemma guarded_is_blank B idx row s :
  guarded B idx row s = commit (fst (insert_investor blank_investor s)).
Proof. unfold guarded. now rewrite record_body_is_blank. Qed.

(** Whatever the frame holds, the run leaves [persons], [firms] and
    [locations] as it found them, logs nothing, and adds one blank
    investor row for each record. *)
Lemma process_from_is_blank B df : forall idx s,
  let s' := process_from B idx df s in
  persons (db s') = persons (db s)
  /\ firms (db s') = firms (db s)
  /\ locations (db s') = locations (db s)
  /\ errors s' = errors s
  /\ investors (db s')
     = append_all (repeat blank_investor (List.length df)) (investors (db s)).
Proof.
  induction df as [|row df IH]; intros idx s; cbn [process_from].
  - repeat split; reflexivity.
  - rewrite guarded_is_blank.
    destruct (IH (S idx) (commit (fst (insert_investor blank_investor s))))
      as (E1 & E2 & E3 & E4 & E5).
    cbv zeta. rewrite E1, E2, E3, E4, E5. repeat split; reflexivity.
Qed.

End ExportRelationalFacts.

(** C1.  On the scenario of the specification, two records of the person
    with slug "a", [export_relational.py] ends with no person row at all
    and with two investor rows that reference no person: [df.iterrows()]
    hands the loop a Series, [safe_get] answers its default for anything
    that is not a dict, and so [person_data] is the empty dict for every
    row.  [export_relational_fast.py], which reads the row with
    [row.get], ends with exactly one person row, with id 1, that both
    investor rows reference. *)
Theorem export_relational_creates_no_person :
  let s := ExportRelational.process_investor_data plain_builtins scenario fresh in
  rows (persons (ExportRelational.db s)) = []
  /\ map i_person_id (contents (investors (ExportRelational.db s))) = [None; None]
  /\ ExportRelational.errors s = []
  /\ (let db := fst (ExportRelationalFast.extract_and_bulk_insert
                       plain_builtins scenario fresh) in
      map (fun r => (fst r, dim_key (snd r))) (rows (persons db)) = [(1, VStr "a")]
      /\ map i_person_id (contents (investors db)) = [Some 1; Some 1]).
Proof. repeat split; vm_compute; reflexivity. Qed.

(** ** Registries *)

Module RegistryFacts.

Lemma hkey_eqb_eq (a b : hkey) : hkey_eqb a b = true <-> a = b.
Proof.
  destruct a, b; simpl; split; intros H; try discriminate; try reflexivity.
  - apply Z.eqb_eq in H. now subst.
  - injection H as ->. apply Z.eqb_refl.
  - apply String.eqb_eq in H. now subst.
  - injection H as ->. apply String.eqb_refl.
Qed.

Lemma hkey_eqb_refl (a : hkey) : hkey_eqb a a = true.
Proof. now apply hkey_eqb_eq. Qed.

Lemma hkey_eqb_neq (a b : hkey) : a <> b -> hkey_eqb a b = false.
Proof.
  intros N. destruct (hkey_eqb a b) eqn:E; [|reflexivity].
  apply hkey_eqb_eq in E. now elim N.
Qed.

Lemma reg_get_set_same {A} (k : hkey) (i : A) (m : pydict A) :
  reg_get k (reg_set k i m) = Some i.
Proof.
  induction m as [|[k' j] m IH]; simpl.
  - now rewrite hkey_eqb_refl.
  - destruct (hkey_eqb k k') eqn:E; simpl; rewrite E; [reflexivity | exact IH].
Qed.

Lemma reg_get_set_other {A} (k k' : hkey) (i : A) (m : pydict A) :
  k' <> k -> reg_get k' (reg_set k i m) = reg_get k' m.
Proof.
  intros N. induction m as [|[k0 j] m IH]; simpl.
  - now rewrite (hkey_eqb_neq k' k N).
  - destruct (hkey_eqb k k0) eqn:E; simpl.
    + apply hkey_eqb_eq in E. subst k0.
      now rewrite (hkey_eqb_neq k' k N).
    + now rewrite IH.
Qed.

Lemma reg_set_fresh {A} (k : hkey) (i : A) (m : pydict A) :
  reg_get k m = None -> reg_set k i m = m ++ [(k, i)].
Proof.
  induction m as [|[k' j] m IH]; simpl; [reflexivity|].
  destruct (hkey_eqb k k'); [discriminate|].
  intros H. now rewrite IH.
Qed.

Lemma reg_get_none_not_in {A} (k : hkey) (m : pydict A) :
  reg_get k m = None -> ~ In k (map fst m).
Proof.
  induction m as [|[k' j] m IH]; simpl; [tauto|].
  destruct (hkey_eqb k k') eqn:E; [discriminate|].
  intros H [-> | Hin].
  - now rewrite hkey_eqb_refl in E.
  - now apply IH.
Qed.

Lemma reg_get_in {A} (k : hkey) (i : A) (m : pydict A) :
  reg_get k m = Some i -> In (k, i) m.
Proof.
  induction m as [|[k' j] m IH]; simpl; [discriminate|].
  destruct (hkey_eqb k k') eqn:E.
  - apply hkey_eqb_eq in E. subst. intros [= ->]. now left.
  - intros H. right. now apply IH.
Qed.

Lemma reg_set_keys_known {A} (k : hkey) (i j : A) (m : pydict A) :
  reg_get k m = Some j -> map fst (reg_set k i m) = map fst m.
Proof.
  induction m as [|[k' x] m IH]; simpl; [discriminate|].
  destruct (hkey_eqb k k') eqn:E; simpl; [reflexivity|].
  intros H. now rewrite IH.
Qed.

Lemma reg_set_nodup {A} (k : hkey) (i : A) (m : pydict A) :
  NoDup (map fst m) -> NoDup (map fst (reg_set k i m)).
Proof.
  intros H. destruct (reg_get k m) as [j|] eqn:E.
  - now rewrite (reg_set_keys_known k i j m E).
  - rewrite (reg_set_fresh k i m E), map_app. simpl.
    apply NoDup_app; [exact H | repeat constructor; simpl; tauto |].
    intros x Hx [<- | []]. now apply (reg_get_none_not_in k m E).
Qed.

End RegistryFacts.

(** ** Lazily created companies and schools (populate_nested_data_fixed.py) *)

Module FixedRegistry.
Import PopulateNestedDataFixed RegistryFacts.

Lemma registries_kept_preorder : preorder registries_kept.
Proof.
  split.
  - intros s. unfold registries_kept. auto.
  - intros a b c (A1 & A2 & A3 & A4) (B1 & B2 & B3 & B4).
    unfold registries_kept. repeat split; auto.
Qed.

(** A name that is already registered: nothing is written and the
    registered id is answered. *)
Lemma company_id_of_known B d s k i :
  d <> [] ->
  truthy (get d "name" VNone) = Returns true ->
  hash_key (get d "name" VNone) = Returns k ->
  reg_get k (company_map s) = Some i ->
  company_id_of B (VDict d) s = (s, Returns (Some i)).
Proof.
  intros Hd Ht Hk Hg. unfold company_id_of.
  destruct d as [|kv d]; [now elim Hd|].
  cbn [nonempty_dict nonempty safe_get].
  unfold bind, lift, gets. rewrite Ht, Hk, Hg. reflexivity.
Qed.

(** A name that is not registered yet: one row is written, with the next
    id of the table, and the name is registered under that id. *)
Lemma company_id_of_new B d s k :
  d <> [] ->
  truthy (get d "name" VNone) = Returns true ->
  hash_key (get d "name" VNone) = Returns k ->
  reg_get k (company_map s) = None ->
  let r := {| co_name := get d "name" VNone;
              co_display_name := get d "display_name" (get d "name" VNone);
              co_total_employee_count :=
                safe_int B (get d "total_employee_count" VNone) VNone |} in
  let i := next_id (companies (db s)) in
  exists s',
    company_id_of B (VDict d) s = (s', Returns (Some i))
    /\ rows (companies (db s')) = rows (companies (db s)) ++ [(i, r)]
    /\ company_map s' = company_map s ++ [(k, i)]
    /\ reg_get k (company_map s') = Some i
    /\ schools (db s') = schools (db s)
    /\ school_map s' = school_map s.
Proof.
  intros Hd Ht Hk Hg r i. unfold company_id_of.
  destruct d as [|kv d]; [now elim Hd|].
  cbn [nonempty_dict nonempty safe_get].
  unfold bind, lift, gets. rewrite Ht, Hk, Hg.
  eexists. split; [reflexivity|]. cbn.
  rewrite (reg_set_fresh k _ _ Hg).
  repeat split; try reflexivity.
  rewrite <- (reg_set_fresh k _ _ Hg). apply reg_get_set_same.
Qed.

Lemma company_id_of_kept B company_data :
  moves registries_kept (company_id_of B company_data).
Proof.
  intros s. unfold company_id_of.
  destruct (nonempty_dict company_data);
    [|apply (pre_refl registries_kept_preorder)].
  unfold bind, lift, gets.
  destruct (truthy _) as [[|]|e]; try apply (pre_refl registries_kept_preorder).
  destruct (hash_key _) as [k|e] eqn:Hk;
    try apply (pre_refl registries_kept_preorder).
  destruct (reg_get k (company_map s)) as [i|] eqn:Hg;
    [apply (pre_refl registries_kept_preorder)|].
  cbn. unfold registries_kept. cbn. repeat split; auto.
  - intros base (added & E & F & N).
    exists (added ++ [(next_id (companies (db s)),
                       {| co_name := safe_get company_data "name" VNone;
                          co_display_name :=
                            safe_get company_data "display_name"
                              (safe_get company_data "name" VNone);
                          co_total_employee_count :=
                            safe_int B
                              (safe_get company_data "total_employee_count" VNone)
                              VNone |})]).
    rewrite (reg_set_fresh k _ _ Hg). split; [|split].
    + rewrite E. now rewrite app_assoc.
    + apply Forall2_app; [exact F|]. constructor; [|constructor].
      split; [reflexivity | exact Hk].
    + cbn [company_map set_company_map]. rewrite map_app. simpl.
      apply NoDup_app; [exact N | repeat constructor; simpl; tauto |].
      intros x Hx [<- | []]. now apply (reg_get_none_not_in k _ Hg).
  - intros k' i' H.
    destruct (hkey_eqb k' k) eqn:E.
    + apply hkey_eqb_eq in E. subst k'. rewrite Hg in H. discriminate.
    + rewrite reg_get_set_other; [exact H|].
      intros ->. now rewrite hkey_eqb_refl in E.
Qed.

(** The same three facts for schools. *)
Lemma school_id_of_known B d s k i :
  d <> [] ->
  truthy (get d "name" VNone) = Returns true ->
  hash_key (get d "name" VNone) = Returns k ->
  reg_get k (school_map s) = Some i ->
  school_id_of B (VDict d) s = (s, Returns (Some i)).
Proof.
  intros Hd Ht Hk Hg. unfold school_id_of.
  destruct d as [|kv d]; [now elim Hd|].
  cbn [nonempty_dict nonempty safe_get].
  unfold bind, lift, gets. rewrite Ht, Hk, Hg. reflexivity.
Qed.

Lemma school_id_of_new B d s k :
  d <> [] ->
  truthy (get d "name" VNone) = Returns true ->
  hash_key (get d "name" VNone) = Returns k ->
  reg_get k (school_map s) = None ->
  let r := {| sc_name := get d "name" VNone;
              sc_display_name := get d "display_name" (get d "name" VNone);
              sc_total_student_count :=
                safe_int B (get d "total_student_count" VNone) VNone |} in
  let i := next_id (schools (db s)) in
  exists s',
    school_id_of B (VDict d) s = (s', Returns (Some i))
    /\ rows (schools (db s')) = rows (schools (db s)) ++ [(i, r)]
    /\ school_map s' = school_map s ++ [(k, i)]
    /\ reg_get k (school_map s') = Some i
    /\ companies (db s') = companies (db s)
    /\ company_map s' = company_map s.
Proof.
  intros Hd Ht Hk Hg r i. unfold school_id_of.
  destruct d as [|kv d]; [now elim Hd|].
  cbn [nonempty_dict nonempty safe_get].
  unfold bind, lift, gets. rewrite Ht, Hk, Hg.
  eexists. split; [reflexivity|]. cbn.
  rewrite (reg_set_fresh k _ _ Hg).
  repeat split; try reflexivity.
  rewrite <- (reg_set_fresh k _ _ Hg). apply reg_get_set_same.
Qed.

Lemma school_id_of_kept B school_data :
  moves registries_kept (school_id_of B school_data).
Proof.
  intros s. unfold school_id_of.
  destruct (nonempty_dict school_data);
    [|apply (pre_refl registries_kept_preorder)].
  unfold bind, lift, gets.
  destruct (truthy _) as [[|]|e]; try apply (pre_refl registries_kept_preorder).
  destruct (hash_key _) as [k|e] eqn:Hk;
    try apply (pre_refl registries_kept_preorder).
  destruct (reg_get k (school_map s)) as [i|] eqn:Hg;
    [apply (pre_refl registries_kept_preorder)|].
  cbn. unfold registries_kept. cbn. repeat split; auto.
  - intros base (added & E & F & N).
    exists (added ++ [(next_id (schools (db s)),
                       {| sc_name := safe_get school_data "name" VNone;
                          sc_display_name :=
                            safe_get school_data "display_name"
                              (safe_get school_data "name" VNone);
                          sc_total_student_count :=
                            safe_int B
                              (safe_get school_data "total_student_count" VNone)
                              VNone |})]).
    rewrite (reg_set_fresh k _ _ Hg). split; [|split].
    + rewrite E. now rewrite app_assoc.
    + apply Forall2_app; [exact F|]. constructor; [|constructor].
      split; [reflexivity | exact Hk].
    + cbn [school_map set_school_map]. rewrite map_app. simpl.
      apply NoDup_app; [exact N | repeat constructor; simpl; tauto |].
      intros x Hx [<- | []]. now apply (reg_get_none_not_in k _ Hg).
  - intros k' i' H.
    destruct (hkey_eqb k' k) eqn:E.
    + apply hkey_eqb_eq in E. subst k'. rewrite Hg in H. discriminate.
    + rewrite reg_get_set_other; [exact H|].
      intros ->. now rewrite hkey_eqb_refl in E.
Qed.


Lemma push_kept (f : state -> state) :
  (forall s, company_map (f s) = company_map s) ->
  (forall s, school_map (f s) = school_map s) ->
  (forall s, companies (db (f s)) = companies (db s)) ->
  (forall s, schools (db (f s)) = schools (db s)) ->
  moves registries_kept (modify f).
Proof.
  intros H1 H2 H3 H4 s. unfold modify. cbn [fst].
  unfold registries_kept, companies_in_step, schools_in_step.
  rewrite H1, H2, H3, H4. auto.
Qed.

Lemma positions_step_kept B person_id row :
  moves registries_kept (positions_step B person_id row).
Proof.
  unfold positions_step. destruct person_id as [[|p]|];
    try apply (RunFacts.moves_ret _ registries_kept_preorder).
  apply (RunFacts.moves_when _ registries_kept_preorder); intros _.
  apply (RunFacts.moves_for_each _ registries_kept_preorder); intros pos _.
  apply (RunFacts.moves_when _ registries_kept_preorder); intros _.
  apply (RunFacts.moves_bind _ registries_kept_preorder);
    [apply company_id_of_kept|].
  intros i. apply push_kept; reflexivity.
Qed.

Lemma degrees_step_kept B person_id row :
  moves registries_kept (degrees_step B person_id row).
Proof.
  unfold degrees_step. destruct person_id as [[|p]|];
    try apply (RunFacts.moves_ret _ registries_kept_preorder).
  apply (RunFacts.moves_when _ registries_kept_preorder); intros _.
  apply (RunFacts.moves_for_each _ registries_kept_preorder); intros deg _.
  apply (RunFacts.moves_when _ registries_kept_preorder); intros _.
  apply (RunFacts.moves_bind _ registries_kept_preorder);
    [apply school_id_of_kept|].
  intros i. apply push_kept; reflexivity.
Qed.

Lemma record_body_kept B idx row : moves registries_kept (record_body B idx row).
Proof.
  unfold record_body.
  apply (RunFacts.moves_bind _ registries_kept_preorder).
  { unfold person_id_of. destruct (nonempty_dict _);
      moves_auto registries_kept_preorder. }
  intros person_id.
  apply (RunFacts.moves_bind _ registries_kept_preorder);
    [apply positions_step_kept|].
  intros _. apply (RunFacts.moves_bind _ registries_kept_preorder);
    [apply degrees_step_kept|].
  intros _. unfold investments_step, kind_step, image_step, media_step.
  repeat first
    [ apply (RunFacts.moves_ret _ registries_kept_preorder)
    | apply (RunFacts.moves_lift _ registries_kept_preorder)
    | apply (RunFacts.moves_bind _ registries_kept_preorder); [ | intros ? ]
    | apply (RunFacts.moves_when _ registries_kept_preorder); intros ?
    | apply (RunFacts.moves_for_each _ registries_kept_preorder); intros ? ?
    | apply push_kept; reflexivity ].
Qed.

Lemma guarded_kept B idx row s : registries_kept s (guarded B idx row s).
Proof.
  unfold guarded. pose proof (record_body_kept B idx row s) as K.
  destruct (record_body B idx row s) as [s' [u|e]]; cbn [fst] in K; [exact K|].
  eapply (pre_trans registries_kept_preorder); [exact K|].
  unfold registries_kept, companies_in_step, schools_in_step. cbn. auto.
Qed.

Lemma process_from_kept B df : forall idx s,
  registries_kept s (process_from B idx df s).
Proof.
  induction df as [|row df IH]; intros idx s; cbn [process_from].
  - apply (pre_refl registries_kept_preorder).
  - eapply (pre_trans registries_kept_preorder);
      [apply guarded_kept | apply IH].
Qed.

End FixedRegistry.

(** ** One company for each name (complete_population.py) *)

Module SelectFacts.
Import RegistryFacts.

Lemma reg_get_set {A} (k k' : hkey) (i : A) (m : pydict A) :
  reg_get k (reg_set k' i m) = if hkey_eqb k k' then Some i else reg_get k m.
Proof.
  destruct (hkey_eqb k k') eqn:E.
  - apply hkey_eqb_eq in E. subst. apply reg_get_set_same.
  - apply reg_get_set_other. intros ->. now rewrite hkey_eqb_refl in E.
Qed.

Lemma fold_select_get {A} (key : A -> pyval) (k : hkey) (rs : list (nat * A)) :
  forall acc,
    reg_get k
      (fold_left
         (fun m (r : nat * A) =>
            match hash_key (key (snd r)) with
            | Returns k' => reg_set k' (fst r) m
            | Raises _ => m
            end) rs acc)
    = match last_id key k rs with
      | Some j => Some j
      | None => reg_get k acc
      end.
Proof.
  induction rs as [|[i r] rs IH]; intros acc; [reflexivity|].
  cbn [fold_left last_id fst snd]. rewrite IH.
  destruct (last_id key k rs); [reflexivity|].
  destruct (hash_key (key r)) as [k'|e]; [|reflexivity].
  rewrite reg_get_set. now destruct (hkey_eqb k k').
Qed.

(** What [select_map] maps a key to. *)
Lemma select_map_get {A} (key : A -> pyval) (k : hkey) (t : table A) :
  reg_get k (select_map key t) = last_id key k (rows t).
Proof.
  unfold select_map. rewrite fold_select_get.
  now destruct (last_id key k (rows t)).
Qed.

Lemma in_numbered {A B} (f : A -> B) (l : list A) : forall n i y,
  In (i, y) (combine (seq n (List.length l)) (map f l)) ->
  exists x, In x l /\ y = f x.
Proof.
  induction l as [|x l IH]; intros n i y; simpl; [tauto|].
  intros [[= _ <-] | H]; [eauto|].
  rewrite length_map in H || idtac.
  destruct (IH (S n) i y) as (x' & Hx & ->).
  - exact H.
  - eauto.
Qed.

(** Rows numbered from [n], one for each entry of a dict whose keys are
    distinct and are what the names of its values hash to: the key of an
    entry finds the row of that entry and no other. *)
Lemma numbered_by_key {A} (key : A -> pyval) (uc : pydict A) :
  NoDup (map fst uc) ->
  (forall k c, In (k, c) uc -> hash_key (key c) = Returns k) ->
  forall n k c0,
    reg_get k uc = Some c0 ->
    exists id,
      last_id key k (combine (seq n (List.length uc)) (map snd uc)) = Some id
      /\ In (id, c0) (combine (seq n (List.length uc)) (map snd uc))
      /\ forall id' c',
           In (id', c') (combine (seq n (List.length uc)) (map snd uc)) ->
           hash_key (key c') = Returns k -> id' = id.
Proof.
  induction uc as [|[k1 c1] uc IH]; intros N H n k c0; [discriminate|].
  inversion N as [|? ? Nk Nuc]; subst.
  assert (H' : forall k c, In (k, c) uc -> hash_key (key c) = Returns k)
    by (intros; apply H; now right).
  assert (Rest : forall id' c',
            In (id', c') (combine (seq (S n) (List.length uc)) (map snd uc)) ->
            exists k', In (k', c') uc).
  { intros id' c' Hin. apply in_numbered in Hin as ([k' c''] & Hin & ->).
    now exists k'. }
  cbn [reg_get]. destruct (hkey_eqb k k1) eqn:E.
  - apply hkey_eqb_eq in E. subst k1. intros [= ->].
    assert (None' : forall id' c',
              In (id', c') (combine (seq (S n) (List.length uc)) (map snd uc)) ->
              hash_key (key c') = Returns k -> False).
    { intros id' c' Hin Hh. destruct (Rest id' c' Hin) as [k' Hk'].
      rewrite (H' k' c' Hk') in Hh. injection Hh as ->.
      apply Nk. change k with (fst (k, c')). now apply in_map. }
    assert (L : last_id key k
                  (combine (seq (S n) (List.length uc)) (map snd uc)) = None).
    { generalize None'.
      generalize (combine (seq (S n) (List.length uc)) (map snd uc)).
      induction l as [|[i r] l IHl]; intros Hn; [reflexivity|].
      cbn [last_id]. rewrite IHl by (intros; eapply Hn; [right|]; eassumption).
      destruct (hash_key (key r)) as [k'|e] eqn:Er; [|reflexivity].
      destruct (hkey_eqb k k') eqn:Ek; [|reflexivity].
      apply hkey_eqb_eq in Ek. subst k'.
      exfalso. eapply Hn; [left; reflexivity | exact Er]. }
    exists n. cbn [List.length seq map combine snd last_id]. rewrite L.
    rewrite (H k c0 (or_introl eq_refl)), hkey_eqb_refl.
    split; [reflexivity|]. split; [now left|].
    intros id' c' [[= <- <-] | Hin] Hh; [reflexivity|].
    exfalso. eapply None'; eassumption.
  - intros Hg. destruct (IH Nuc H' (S n) k c0 Hg) as (id & L & I & U).
    exists id. cbn [List.length seq map combine snd last_id]. rewrite L.
    split; [reflexivity|]. split; [now right|].
    intros id' c' [[= <- <-] | Hin] Hh.
    + rewrite (H k1 c1 (or_introl eq_refl)) in Hh. injection Hh as <-.
      now rewrite hkey_eqb_refl in E.
    + now apply U with c'.
Qed.

End SelectFacts.

Module CompletePopulationRegistry.
Import CompletePopulation RegistryFacts SelectFacts.

Lemma reg_set_in {A} (k k0 : hkey) (c c0 : A) (m : pydict A) :
  In (k, c) (reg_set k0 c0 m) -> (k = k0 /\ c = c0) \/ In (k, c) m.
Proof.
  induction m as [|[k' c'] m IH]; simpl.
  - intros [[= <- <-] | []]. now left.
  - destruct (hkey_eqb k0 k') eqn:E; simpl.
    + apply hkey_eqb_eq in E. subst k'.
      intros [[= <- <-] | H]; [now left | right; now right].
    + intros [H | H]; [right; now left|].
      destruct (IH H) as [L | R]; [now left | right; now right].
Qed.

Lemma reg_get_some_set {A} (k k0 : hkey) (c c0 : A) (m : pydict A) :
  reg_get k m = Some c -> exists c', reg_get k (reg_set k0 c0 m) = Some c'.
Proof.
  intros H. rewrite reg_get_set. destruct (hkey_eqb k k0); eauto.
Qed.

(** [unique_companies]: distinct keys, an entry for the name of every
    position that has one, and under each key a company of that name. *)
Lemma unique_companies_spec ps : forall acc uc,
  unique_companies ps acc = Returns uc ->
  NoDup (map fst acc) ->
  (forall k c, In (k, c) acc -> hash_key (co_name c) = Returns k) ->
  NoDup (map fst uc)
  /\ (forall k c, In (k, c) uc -> hash_key (co_name c) = Returns k)
  /\ (forall k c, reg_get k acc = Some c -> exists c', reg_get k uc = Some c')
  /\ (forall pos k, In pos ps ->
        truthy (pd_company_name pos) = Returns true ->
        hash_key (pd_company_name pos) = Returns k ->
        exists c, reg_get k uc = Some c).
Proof.
  induction ps as [|pos ps IH]; intros acc uc E N H.
  - injection E as <-. repeat split; eauto. intros pos k [].
  - cbn [unique_companies] in E.
    destruct (truthy (pd_company_name pos)) as [[|]|e] eqn:Et;
      cbn [obind] in E; try discriminate.
    + destruct (hash_key (pd_company_name pos)) as [k0|e] eqn:Ek;
        cbn [obind] in E; try discriminate.
      destruct (IH _ _ E (reg_set_nodup k0 (company_of pos) acc N))
        as (N' & H' & M' & P').
      { intros k c Hin. apply reg_set_in in Hin as [[-> ->] | Hin];
          [exact Ek | now apply H]. }
      repeat split; auto.
      * intros k c Hg.
        destruct (reg_get_some_set k k0 c (company_of pos) acc Hg) as [c' Hc'].
        eapply M'; eassumption.
      * intros pos' k [<- | Hin] Ht Hk.
        -- rewrite Ek in Hk. injection Hk as <-.
           apply (M' k0 (company_of pos)). apply reg_get_set_same.
        -- eapply P'; eassumption.
    + destruct (IH _ _ E N H) as (N' & H' & M' & P').
      repeat split; auto.
      intros pos' k [<- | Hin] Ht Hk.
      * rewrite Et in Ht. discriminate.
      * eapply P'; eassumption.
Qed.

(** After the companies of a run are written into an empty table, the
    table has one row for each distinct name, and every position whose
    company has a name is given the id of the one row of that name. *)
Lemma one_company_for_each_name ps uc db :
  unique_companies ps [] = Returns uc ->
  rows (companies db) = [] ->
  let db1 := to_sql_companies (map snd uc) db in
  List.length (rows (companies db1)) = List.length uc
  /\ NoDup (map fst uc)
  /\ forall pos k, In pos ps ->
       truthy (pd_company_name pos) = Returns true ->
       hash_key (pd_company_name pos) = Returns k ->
       exists id c,
         In (id, c) (rows (companies db1))
         /\ hash_key (co_name c) = Returns k
         /\ (forall id' c', In (id', c') (rows (companies db1)) ->
               hash_key (co_name c') = Returns k -> id' = id)
         /\ exists r,
              position_with_fk (select_map co_name (companies db1)) pos
              = Returns r
              /\ pos_company_id r = Some id.
Proof.
  intros E R db1.
  destruct (unique_companies_spec ps [] uc E) as (N & H & _ & P);
    [constructor | intros k c [] |].
  assert (Rows : rows (companies db1)
                 = combine (seq (next_id (companies db)) (List.length uc))
                     (map snd uc)).
  { unfold db1, to_sql_companies. cbn [companies set_companies].
    destruct (StorageFacts.append_all_spec (map snd uc) (companies db)) as [-> _].
    rewrite R, length_map. reflexivity. }
  split; [|split; [exact N|]].
  - rewrite Rows, length_combine, length_seq, length_map. apply Nat.min_id.
  - intros pos k Hin Ht Hk. destruct (P pos k Hin Ht Hk) as [c Hc].
    destruct (numbered_by_key co_name uc N H (next_id (companies db)) k c Hc)
      as (id & L & I & U).
    exists id, c. rewrite Rows.
    split; [exact I|]. split; [apply H; now apply reg_get_in|].
    split; [exact U|].
    unfold position_with_fk. rewrite Hk. cbn [obind].
    eexists. split; [reflexivity|]. cbn [pos_company_id].
    rewrite select_map_get, Rows. exact L.
Qed.

(** The same for [unique_schools] and the degrees. *)
Lemma unique_schools_spec ps : forall acc uc,
  unique_schools ps acc = Returns uc ->
  NoDup (map fst acc) ->
  (forall k c, In (k, c) acc -> hash_key (sc_name c) = Returns k) ->
  NoDup (map fst uc)
  /\ (forall k c, In (k, c) uc -> hash_key (sc_name c) = Returns k)
  /\ (forall k c, reg_get k acc = Some c -> exists c', reg_get k uc = Some c')
  /\ (forall pos k, In pos ps ->
        truthy (dd_school_name pos) = Returns true ->
        hash_key (dd_school_name pos) = Returns k ->
        exists c, reg_get k uc = Some c).
Proof.
  induction ps as [|pos ps IH]; intros acc uc E N H.
  - injection E as <-. repeat split; eauto. intros pos k [].
  - cbn [unique_schools] in E.
    destruct (truthy (dd_school_name pos)) as [[|]|e] eqn:Et;
      cbn [obind] in E; try discriminate.
    + destruct (hash_key (dd_school_name pos)) as [k0|e] eqn:Ek;
        cbn [obind] in E; try discriminate.
      destruct (IH _ _ E (reg_set_nodup k0 (school_of pos) acc N))
        as (N' & H' & M' & P').
      { intros k c Hin. apply reg_set_in in Hin as [[-> ->] | Hin];
          [exact Ek | now apply H]. }
      repeat split; auto.
      * intros k c Hg.
        destruct (reg_get_some_set k k0 c (school_of pos) acc Hg) as [c' Hc'].
        eapply M'; eassumption.
      * intros pos' k [<- | Hin] Ht Hk.
        -- rewrite Ek in Hk. injection Hk as <-.
           apply (M' k0 (school_of pos)). apply reg_get_set_same.
        -- eapply P'; eassumption.
    + destruct (IH _ _ E N H) as (N' & H' & M' & P').
      repeat split; auto.
      intros pos' k [<- | Hin] Ht Hk.
      * rewrite Et in Ht. discriminate.
      * eapply P'; eassumption.
Qed.

Lemma one_school_for_each_name ps uc db :
  unique_schools ps [] = Returns uc ->
  rows (schools db) = [] ->
  let db1 := to_sql_schools (map snd uc) db in
  List.length (rows (schools db1)) = List.length uc
  /\ NoDup (map fst uc)
  /\ forall pos k, In pos ps ->
       truthy (dd_school_name pos) = Returns true ->
       hash_key (dd_school_name pos) = Returns k ->
       exists id c,
         In (id, c) (rows (schools db1))
         /\ hash_key (sc_name c) = Returns k
         /\ (forall id' c', In (id', c') (rows (schools db1)) ->
               hash_key (sc_name c') = Returns k -> id' = id)
         /\ exists r,
              degree_with_fk (select_map sc_name (schools db1)) pos
              = Returns r
              /\ deg_school_id r = Some id.
Proof.
  intros E R db1.
  destruct (unique_schools_spec ps [] uc E) as (N & H & _ & P);
    [constructor | intros k c [] |].
  assert (Rows : rows (schools db1)
                 = combine (seq (next_id (schools db)) (List.length uc))
                     (map snd uc)).
  { unfold db1, to_sql_schools. cbn [schools set_schools].
    destruct (StorageFacts.append_all_spec (map snd uc) (schools db)) as [-> _].
    rewrite R, length_map. reflexivity. }
  split; [|split; [exact N|]].
  - rewrite Rows, length_combine, length_seq, length_map. apply Nat.min_id.
  - intros pos k Hin Ht Hk. destruct (P pos k Hin Ht Hk) as [c Hc].
    destruct (numbered_by_key sc_name uc N H (next_id (schools db)) k c Hc)
      as (id & L & I & U).
    exists id, c. rewrite Rows.
    split; [exact I|]. split; [apply H; now apply reg_get_in|].
    split; [exact U|].
    unfold degree_with_fk. rewrite Hk. cbn [obind].
    eexists. split; [reflexivity|]. cbn [deg_school_id].
    rewrite select_map_get, Rows. exact L.
Qed.

End CompletePopulationRegistry.

Module ExportRelationalRegistry.
Import ExportRelational.

(** The registries of [export_relational.py]: a key that is already
    registered is answered from the registry and nothing is written. *)
Lemma person_of_known B idx d s k i :
  d <> [] ->
  hash_key (get d "slug" (person_token idx)) = Returns k ->
  reg_get k (person_map s) = Some i ->
  person_of B idx (VDict d) s = (s, Returns (Some i)).
Proof.
  intros Hd Hk Hg. unfold person_of.
  destruct d as [|kv d]; [now elim Hd|].
  unfold bind, lift, gets. cbn [truthy nonempty is_dict andb safe_get].
  rewrite Hk, Hg. reflexivity.
Qed.

Lemma firm_of_known idx d s k i :
  d <> [] ->
  hash_key (get d "slug" (firm_token idx)) = Returns k ->
  reg_get k (firm_map s) = Some i ->
  firm_of idx (VDict d) s = (s, Returns (Some i)).
Proof.
  intros Hd Hk Hg. unfold firm_of.
  destruct d as [|kv d]; [now elim Hd|].
  unfold bind, lift, gets. cbn [truthy nonempty is_dict andb safe_get].
  rewrite Hk, Hg. reflexivity.
Qed.

Lemma location_of_known d s k i :
  d <> [] ->
  truthy (get d "display_name" VNone) = Returns true ->
  hash_key (get d "display_name" VNone) = Returns k ->
  reg_get k (location_map s) = Some i ->
  location_of (VDict d) s = (s, Returns (Some i)).
Proof.
  intros Hd Ht Hk Hg. unfold location_of.
  destruct d as [|kv d]; [now elim Hd|].
  unfold bind, lift, gets. cbn [truthy nonempty is_dict andb safe_get].
  rewrite Ht, Hk, Hg. reflexivity.
Qed.

End ExportRelationalRegistry.

(** The registries of the scripts never overwrite an entry.
    In [populate_nested_data_fixed.py], looking up the company (school)
    of a position (degree) whose name is registered writes nothing,
    leaves the state as it is and answers the registered id; a name that
    is not registered yet gets exactly one new row, with the next id of
    the table, is registered under that id, and the very same lookup
    afterwards answers that id again without writing.  Over a whole run
    the registry and the rows written go in step, one row for each
    registered name and no name twice, and an id once registered is still
    registered after any later record.  The person, firm and location
    registries of [export_relational.py] answer a registered key in the
    same way.  In [complete_population.py] the companies (schools) are
    written after the loop: into an empty table goes one row for each
    distinct name, and every position (degree) with a named company
    (school) is given the id of the one row of that name. *)
Lemma registration_is_idempotent :
  forall (B : builtins),
    (forall d s k i,
        d <> [] ->
        truthy (get d "name" VNone) = Returns true ->
        hash_key (get d "name" VNone) = Returns k ->
        (reg_get k (PopulateNestedDataFixed.company_map s) = Some i ->
           PopulateNestedDataFixed.company_id_of B (VDict d) s
           = (s, Returns (Some i)))
        /\ (reg_get k (PopulateNestedDataFixed.school_map s) = Some i ->
              PopulateNestedDataFixed.school_id_of B (VDict d) s
              = (s, Returns (Some i))))
    /\ (forall d s k,
          d <> [] ->
          truthy (get d "name" VNone) = Returns true ->
          hash_key (get d "name" VNone) = Returns k ->
          reg_get k (PopulateNestedDataFixed.company_map s) = None ->
          let i := next_id (companies (PopulateNestedDataFixed.db s)) in
          exists s' r,
            PopulateNestedDataFixed.company_id_of B (VDict d) s
            = (s', Returns (Some i))
            /\ co_name r = get d "name" VNone
            /\ rows (companies (PopulateNestedDataFixed.db s'))
               = rows (companies (PopulateNestedDataFixed.db s)) ++ [(i, r)]
            /\ PopulateNestedDataFixed.company_map s'
               = PopulateNestedDataFixed.company_map s ++ [(k, i)]
            /\ PopulateNestedDataFixed.company_id_of B (VDict d) s'
               = (s', Returns (Some i)))
    /\ (forall d s k,
          d <> [] ->
          truthy (get d "name" VNone) = Returns true ->
          hash_key (get d "name" VNone) = Returns k ->
          reg_get k (PopulateNestedDataFixed.school_map s) = None ->
          let i := next_id (schools (PopulateNestedDataFixed.db s)) in
          exists s' r,
            PopulateNestedDataFixed.school_id_of B (VDict d) s
            = (s', Returns (Some i))
            /\ sc_name r = get d "name" VNone
            /\ rows (schools (PopulateNestedDataFixed.db s'))
               = rows (schools (PopulateNestedDataFixed.db s)) ++ [(i, r)]
            /\ PopulateNestedDataFixed.school_map s'
               = PopulateNestedDataFixed.school_map s ++ [(k, i)]
            /\ PopulateNestedDataFixed.school_id_of B (VDict d) s'
               = (s', Returns (Some i)))
    /\ (forall person_id row s,
          registries_kept s
            (fst (PopulateNestedDataFixed.positions_step B person_id row s))
          /\ registries_kept s
               (fst (PopulateNestedDataFixed.degrees_step B person_id row s)))
    /\ (forall df db0,
          let s := PopulateNestedDataFixed.process_from B 0 df
                     (PopulateNestedDataFixed.initial db0) in
          companies_in_step (rows (companies db0)) s
          /\ schools_in_step (rows (schools db0)) s)
    /\ (forall idx d s k i,
          d <> [] ->
          hash_key (get d "slug" (person_token idx)) = Returns k ->
          reg_get k (ExportRelational.person_map s) = Some i ->
          ExportRelational.person_of B idx (VDict d) s = (s, Returns (Some i)))
    /\ (forall idx d s k i,
          d <> [] ->
          hash_key (get d "slug" (firm_token idx)) = Returns k ->
          reg_get k (ExportRelational.firm_map s) = Some i ->
          ExportRelational.firm_of idx (VDict d) s = (s, Returns (Some i)))
    /\ (forall d s k i,
          d <> [] ->
          truthy (get d "display_name" VNone) = Returns true ->
          hash_key (get d "display_name" VNone) = Returns k ->
          reg_get k (ExportRelational.location_map s) = Some i ->
          ExportRelational.location_of (VDict d) s = (s, Returns (Some i)))
    /\ (forall ps uc db,
          CompletePopulation.unique_companies ps [] = Returns uc ->
          rows (companies db) = [] ->
          let db1 := to_sql_companies (map snd uc) db in
          List.length (rows (companies db1)) = List.length uc
          /\ NoDup (map fst uc)
          /\ forall pos k, In pos ps ->
               truthy (CompletePopulation.pd_company_name pos) = Returns true ->
               hash_key (CompletePopulation.pd_company_name pos) = Returns k ->
               exists id c,
                 In (id, c) (rows (companies db1))
                 /\ hash_key (co_name c) = Returns k
                 /\ (forall id' c', In (id', c') (rows (companies db1)) ->
                       hash_key (co_name c') = Returns k -> id' = id)
                 /\ exists r,
                      CompletePopulation.position_with_fk
                        (select_map co_name (companies db1)) pos = Returns r
                      /\ pos_company_id r = Some id)
    /\ (forall ds us db,
          CompletePopulation.unique_schools ds [] = Returns us ->
          rows (schools db) = [] ->
          let db1 := to_sql_schools (map snd us) db in
          List.length (rows (schools db1)) = List.length us
          /\ NoDup (map fst us)
          /\ forall deg k, In deg ds ->
               truthy (CompletePopulation.dd_school_name deg) = Returns true ->
               hash_key (CompletePopulation.dd_school_name deg) = Returns k ->
               exists id c,
                 In (id, c) (rows (schools db1))
                 /\ hash_key (sc_name c) = Returns k
                 /\ (forall id' c', In (id', c') (rows (schools db1)) ->
                       hash_key (sc_name c') = Returns k -> id' = id)
                 /\ exists r,
                      CompletePopulation.degree_with_fk
                        (select_map sc_name (schools db1)) deg = Returns r
                      /\ deg_school_id r = Some id).
Proof.
  intros B.
  repeat match goal with |- _ /\ _ => split end.
  - intros d s k i Hd Ht Hk. split; intros Hg.
    + now apply FixedRegistry.company_id_of_known with k.
    + now apply FixedRegistry.school_id_of_known with k.
  - intros d s k Hd Ht Hk Hg i.
    destruct (FixedRegistry.company_id_of_new B d s k Hd Ht Hk Hg)
      as (s' & E & R & M & G & _).
    exists s'. eexists. split; [exact E|]. split; [|split; [exact R|]].
    + reflexivity.
    + split; [exact M|].
      now apply FixedRegistry.company_id_of_known with k.
  - intros d s k Hd Ht Hk Hg i.
    destruct (FixedRegistry.school_id_of_new B d s k Hd Ht Hk Hg)
      as (s' & E & R & M & G & _).
    exists s'. eexists. split; [exact E|]. split; [|split; [exact R|]].
    + reflexivity.
    + split; [exact M|].
      now apply FixedRegistry.school_id_of_known with k.
  - intros person_id row s. split.
    + apply FixedRegistry.positions_step_kept.
    + apply FixedRegistry.degrees_step_kept.
  - intros df db0 s.
    destruct (FixedRegistry.process_from_kept B df 0
                (PopulateNestedDataFixed.initial db0)) as (K1 & K2 & _).
    split.
    + apply K1. exists []. cbn. rewrite app_nil_r.
      repeat split; constructor.
    + apply K2. exists []. cbn. rewrite app_nil_r.
      repeat split; constructor.
  - intros. now apply ExportRelationalRegistry.person_of_known with k.
  - intros. now apply ExportRelationalRegistry.firm_of_known with k.
  - intros. now apply ExportRelationalRegistry.location_of_known with k.
  - intros ps uc db E R.
    now apply CompletePopulationRegistry.one_company_for_each_name.
  - intros ds us db E R.
    now apply CompletePopulationRegistry.one_school_for_each_name.
Qed.

Lemma registration_is_idempotent_witness :
  let acme := [("name", VStr "Acme")] in
  let s0 := PopulateNestedDataFixed.initial fresh in
  exists s' r,
    PopulateNestedDataFixed.company_id_of plain_builtins (VDict acme) s0
    = (s', Returns (Some 1))
    /\ co_name r = VStr "Acme"
    /\ rows (companies (PopulateNestedDataFixed.db s')) = [(1, r)]
    /\ PopulateNestedDataFixed.company_map s' = [(KStr "Acme", 1)]
    /\ PopulateNestedDataFixed.company_id_of plain_builtins (VDict acme) s'
       = (s', Returns (Some 1)).
Proof.
  intros acme s0.
  destruct (registration_is_idempotent plain_builtins) as (_ & New & _).
  apply (New acme s0 (KStr "Acme"));
    [discriminate | reflexivity | reflexivity | reflexivity].
Defined.

(** ** One person for each slug (export_relational_fast.py) *)

Module FastDedup.
Import ExportRelationalFast RegistryFacts SelectFacts.

Lemma nested_of_dict row f d :
  assoc f row = Some (VDict d) -> nested row f = Returns (VDict d).
Proof. intros H. unfold nested, get. now rewrite H. Qed.

Lemma collect_contains B : forall df idx acc c,
  collect B idx df acc = Returns c ->
  (forall r, In r (persons_data acc) -> In r (persons_data c))
  /\ forall j row p,
       nth_error df j = Some row ->
       nested row "person" = Returns p ->
       nonempty_dict p = true ->
       In (person_entry B (idx + j) p) (persons_data c).
Proof.
  induction df as [|row df IH]; intros idx acc c E.
  - injection E as <-. split; [auto|]. intros [|j] row p; discriminate.
  - cbn [collect] in E.
    apply obind_returns in E as (person & Ep & E).
    apply obind_returns in E as (firm & Ef & E).
    apply obind_returns in E as (location & El & E).
    destruct (IH _ _ _ E) as [A Hj]. cbn [persons_data] in A.
    split.
    + intros r Hr. apply A.
      destruct (nonempty_dict person); [apply in_or_app; now left | exact Hr].
    + intros [|j] row' p Hn Hp Hd.
      * injection Hn as <-. rewrite Ep in Hp. injection Hp as <-.
        rewrite Nat.add_0_r. apply A. rewrite Hd.
        apply in_or_app. right. now left.
      * replace (idx + S j) with (S idx + j) by lia. eapply Hj; eassumption.
Qed.

(** [drop_duplicates] keeps one row for each key: the rows kept are the
    values of a dict with distinct keys, under each key a row of that
    key, and every key of the input that was not seen before has an
    entry. *)
Lemma drop_duplicates_spec rs : forall seen kept,
  drop_duplicates rs seen = Returns kept ->
  exists uc : pydict dimension_row,
    kept = map snd uc
    /\ NoDup (map fst uc)
    /\ (forall k, In k (map fst uc) -> existsb (hkey_eqb k) seen = false)
    /\ (forall k r, In (k, r) uc ->
          hash_key (dim_key r) = Returns k /\ In r rs)
    /\ (forall r k, In r rs -> hash_key (dim_key r) = Returns k ->
          existsb (hkey_eqb k) seen = false ->
          exists r', reg_get k uc = Some r').
Proof.
  induction rs as [|r rs IH]; intros seen kept E.
  - injection E as <-. exists []. cbn.
    split; [reflexivity|]. split; [constructor|].
    split; [intros k []|]. split; [intros k r []|]. intros r k [].
  - cbn [drop_duplicates] in E.
    apply obind_returns in E as (k0 & Ek & E).
    destruct (existsb (hkey_eqb k0) seen) eqn:Es.
    + destruct (IH _ _ E) as (uc & -> & N & S & H & P).
      exists uc. repeat split; auto.
      * now apply H.
      * right. now apply (H k r0).
      * intros r' k [<- | Hin] Hk Hs; [|eauto].
        rewrite Ek in Hk. injection Hk as <-. rewrite Es in Hs. discriminate.
    + apply obind_returns in E as (kept' & E & [= <-]).
      destruct (IH _ _ E) as (uc & -> & N & S & H & P).
      exists ((k0, r) :: uc). repeat split.
      * cbn. constructor; [|exact N].
        intros Hin. specialize (S k0 Hin). cbn in S.
        now rewrite hkey_eqb_refl in S.
      * intros k [<- | Hin]; [exact Es|].
        specialize (S k Hin). cbn in S.
        now apply orb_false_elim in S as [_ S].
      * destruct H0 as [[= <- <-] | Hin]; [exact Ek | now apply (H k r0)].
      * destruct H0 as [[= <- <-] | Hin]; [now left | right; now apply (H k r0)].
      * intros r' k [<- | Hin] Hk Hs.
        -- rewrite Ek in Hk. injection Hk as <-. exists r. cbn.
           now rewrite hkey_eqb_refl.
        -- cbn. destruct (hkey_eqb k k0) eqn:E0; [eauto|].
           apply (P r' k Hin Hk). cbn. now rewrite E0.
Qed.

Lemma investor_person_id B pm fm lm idx row r p k :
  investor_data B pm fm lm idx row = Returns r ->
  nested row "person" = Returns p ->
  nonempty_dict p = true ->
  hash_key (dict_get p "slug" (person_token idx)) = Returns k ->
  i_person_id r = reg_get k pm.
Proof.
  intros E Hp Hd Hk. unfold investor_data in E.
  rewrite Hp in E. cbn [obind] in E.
  apply obind_returns in E as (firm & _ & E).
  apply obind_returns in E as (location & _ & E).
  unfold reference at 1 in E. rewrite Hd, Hk in E. cbn [obind] in E.
  apply obind_returns in E as (firm_id & _ & E).
  apply obind_returns in E as (location_id & _ & E).
  apply obind_returns in E as (vote_count & _ & E).
  apply obind_returns in E as (flags & _ & E).
  now injection E as <-.
Qed.

(** The bulk export deduplicates: whenever every fact row can be built,
    a record whose person is a non-empty dict finds, after the run,
    exactly one person row of its slug, and the investor row of the
    record references the id of that row.  So however many records share
    a slug, there is one person row for it and all of them reference
    it. *)
Lemma one_person_for_each_slug B df :
  fact_rows_build B 0 df ->
  exists db,
    extract_and_bulk_insert B df fresh = (db, Returns tt)
    /\ forall j row d k,
         nth_error df j = Some row ->
         assoc "person" row = Some (VDict d) -> d <> [] ->
         hash_key (get d "slug" (person_token j)) = Returns k ->
         exists id person,
           In (id, person) (rows (persons db))
           /\ hash_key (dim_key person) = Returns k
           /\ (forall id' person',
                 In (id', person') (rows (persons db)) ->
                 hash_key (dim_key person') = Returns k -> id' = id)
           /\ exists r,
                nth_error (rows (investors db)) j = Some (j + 1, r)
                /\ i_person_id r = Some id.
Proof.
  intros H.
  destruct (FastRun.run_spec B df H)
    as (c & persons_df & firms_df & locations_df & rs
        & Ec & Ep & _ & _ & L & N & E).
  cbv zeta in N, E.
  set (db1 := to_sql_locations locations_df
                (to_sql_firms firms_df (to_sql_persons persons_df fresh))) in *.
  exists (to_sql_investors rs db1). split; [exact E|].
  intros j row d k Hj Hrow Hd Hk.
  pose proof (nested_of_dict row "person" d Hrow) as Hn.
  assert (Hne : nonempty_dict (VDict d) = true)
    by (destruct d; [now elim Hd | reflexivity]).
  destruct (collect_contains B df 0 _ c Ec) as [_ Hc].
  specialize (Hc j row (VDict d) Hj Hn Hne). cbn [Nat.add] in Hc.
  destruct (drop_duplicates_spec _ _ _ Ep) as (uc & -> & Nd & _ & Hu & Pu).
  destruct (Pu _ k Hc Hk eq_refl) as [person Hperson].
  assert (Rows : rows (persons (to_sql_investors rs db1))
                 = combine (seq 1 (List.length uc)) (map snd uc)).
  { cbn [persons to_sql_investors set_investors db1 to_sql_locations
         set_locations to_sql_firms set_firms to_sql_persons set_persons fresh].
    rewrite StorageFacts.append_all_created, length_map. reflexivity. }
  destruct (numbered_by_key dim_key uc Nd (fun k c Hin => proj1 (Hu k c Hin))
              1 k person Hperson) as (id & Lid & Iid & Uid).
  exists id, person. rewrite Rows.
  split; [exact Iid|]. split; [apply Hu; now apply reg_get_in|].
  split; [exact Uid|].
  destruct (N j row Hj) as (r & Er & Ei).
  exists r. split.
  - change (investors (to_sql_investors rs db1)) with (append_all rs created).
    rewrite StorageFacts.append_all_created.
    rewrite (StorageFacts.nth_error_combine_seq rs 1 j r Er).
    now rewrite Nat.add_comm.
  - rewrite (investor_person_id B _ _ _ j row r (VDict d) k Ei Hn Hne Hk).
    rewrite select_map_get.
    change (persons db1) with (persons (to_sql_investors rs db1)).
    rewrite Rows. exact Lid.
Qed.

End FastDedup.

(* ===================================================================== *)
(** * Further properties of the scripts *)
(* ===================================================================== *)

(** ** The first version of the population script *)

Module PopulateNestedDataRunFacts.
Import PopulateNestedDataFixed PopulateNestedDataRun.

(** Every read of the row answers its default, so the body finds no
    person, no list with an element and nothing to write. *)
Lemma first_record_body_idle B person_map idx row s :
  Nat.leb 1000 (List.length (positions_batch s)) = false ->
  record_body B person_map idx row s = (s, Returns tt).
Proof.
  intros H. unfold record_body, bind, gets, lift. cbn -[Nat.leb].
  rewrite H. reflexivity.
Qed.

Lemma first_guarded_idle B person_map idx row s :
  Nat.leb 1000 (List.length (positions_batch s)) = false ->
  guarded B person_map idx row s = s.
Proof. intros H. unfold guarded. now rewrite first_record_body_idle. Qed.

Lemma first_process_from_idle B person_map df : forall idx s,
  Nat.leb 1000 (List.length (positions_batch s)) = false ->
  process_from B person_map idx df s = s.
Proof.
  induction df as [|row df IH]; intros idx s H; cbn [process_from].
  - reflexivity.
  - rewrite first_guarded_idle by exact H. now apply IH.
Qed.

Lemma write_no_batches db0 : write_batches (initial db0) = db0.
Proof. destruct db0 as [[] [] [] [] [] [] [] [] [] [] [] [] [] []]. reflexivity. Qed.

End PopulateNestedDataRunFacts.

(** X1.  [process_nested_data] of [populate_nested_data.py] stores
    nothing, whatever the frame and the database: it reads every field of
    a record with [safe_get(row, ...)], the row is a Series and not a
    dict, so each read answers its default (an empty list or dict); no
    batch receives a row, no company or school is inserted, no record is
    reported, and the run ends in the state it started from with the
    database as it was. *)
Theorem first_version_stores_nothing :
  forall (B : builtins) (df : list (list (string * pyval))) (db0 : database),
    let s := PopulateNestedDataRun.process_nested_data B df db0 in
    PopulateNestedDataFixed.db s = db0
    /\ PopulateNestedDataFixed.errors s = []
    /\ s = PopulateNestedDataFixed.initial db0.
Proof.
  intros B df db0.
  assert (E : PopulateNestedDataRun.process_nested_data B df db0
              = PopulateNestedDataFixed.initial db0).
  { unfold PopulateNestedDataRun.process_nested_data.
    rewrite PopulateNestedDataRunFacts.first_process_from_idle by reflexivity.
    unfold PopulateNestedDataFixed.set_db.
    rewrite PopulateNestedDataRunFacts.write_no_batches. reflexivity. }
  cbv zeta. rewrite E. repeat split; reflexivity.
Qed.

(** ** Integer coercion, continued *)

Lemma decimal_nonempty (z : Z) : String.eqb (decimal z) "" = false.
Proof.
  pose proof (strip_nonempty_decimal z) as H.
  destruct (decimal z); [discriminate | reflexivity].
Qed.

(** X2.  The two versions of [safe_int] differ only by the test
    [str(value) != 'nan'] of the fixed one: on every value whose text is
    not 'nan' they return the same result, and on a value whose text is
    'nan' (the float NaN, or that very string) the fixed version returns
    the default without calling [float]. *)
Theorem safe_int_versions_agree :
  forall (B : builtins) (value default : pyval),
    (py_str B value <> "nan" ->
       PopulateNestedDataFixed.safe_int B value default
       = PopulateNestedData.safe_int B value default)
    /\ (py_str B value = "nan" ->
          PopulateNestedDataFixed.safe_int B value default = default).
Proof.
  intros B value default.
  unfold PopulateNestedData.safe_int, PopulateNestedDataFixed.safe_int,
    PopulateNestedData.safe_int_body, PopulateNestedDataFixed.safe_int_body.
  split.
  - intros H. apply String.eqb_neq in H. rewrite H.
    destruct (truthy value) as [t|e]; cbn [obind negb]; [|reflexivity].
    now rewrite andb_true_r.
  - intros H. rewrite H.
    destruct (truthy value) as [t|e]; cbn; [|reflexivity].
    now rewrite andb_false_r.
Qed.

Lemma safe_int_versions_agree_witness :
  PopulateNestedDataFixed.safe_int plain_builtins (VStr "12") VNone
  = PopulateNestedData.safe_int plain_builtins (VStr "12") VNone
  /\ PopulateNestedDataFixed.safe_int plain_builtins VNaN (VInt 0) = VInt 0.
Proof.
  split.
  - apply (safe_int_versions_agree plain_builtins (VStr "12") VNone).
    discriminate.
  - apply (safe_int_versions_agree plain_builtins VNaN (VInt 0)).
    reflexivity.
Defined.

(** X3.  [safe_int] reads the decimal text of an integer back as that
    integer, zero included: the string '0' is truthy and converts to 0,
    whereas the integer 0 is falsy and gives the default.  (Magnitude at
    most 2^53, where [float] is exact.) *)
Theorem safe_int_reads_decimal_text :
  forall (B : builtins) (z : Z) (default : pyval),
    (Z.abs z <= 2 ^ 53)%Z ->
    PopulateNestedData.safe_int B (VStr (decimal z)) default = VInt z
    /\ PopulateNestedDataFixed.safe_int B (VStr (decimal z)) default = VInt z
    /\ PopulateNestedData.safe_int B (VStr "0") default = VInt 0
    /\ PopulateNestedData.safe_int B (VInt 0) default = default.
Proof.
  intros B z default H. apply Z.leb_le in H.
  unfold PopulateNestedData.safe_int, PopulateNestedDataFixed.safe_int,
    PopulateNestedData.safe_int_body, PopulateNestedDataFixed.safe_int_body.
  cbn [truthy obind py_str].
  rewrite decimal_nonempty, strip_nonempty_decimal, decimal_not_nan.
  cbn [negb andb]. unfold int_of_float_of_str.
  rewrite plain_decimal_decimal, H.
  repeat split; reflexivity.
Qed.

Lemma safe_int_reads_decimal_text_witness :
  PopulateNestedData.safe_int plain_builtins (VStr "-42") VNone = VInt (-42)
  /\ PopulateNestedDataFixed.safe_int plain_builtins (VStr "-42") VNone
     = VInt (-42).
Proof.
  split;
    apply (safe_int_reads_decimal_text plain_builtins (-42)%Z VNone);
    vm_compute; discriminate.
Defined.

(** ** Tables, continued *)

Module TableFacts.

Lemma numbered_contents {A} (rs : list A) : forall n,
  map snd (combine (seq n (List.length rs)) rs) = rs.
Proof.
  induction rs as [|r rs IH]; intros n; cbn [List.length seq combine map snd].
  - reflexivity.
  - now rewrite IH.
Qed.

Lemma numbered_ids {A} (rs : list A) : forall n,
  map fst (combine (seq n (List.length rs)) rs) = seq n (List.length rs).
Proof.
  induction rs as [|r rs IH]; intros n; cbn [List.length seq combine map fst].
  - reflexivity.
  - now rewrite IH.
Qed.

Lemma contents_append_all {A} (rs : list A) (t : table A) :
  contents (append_all rs t) = contents t ++ rs.
Proof.
  unfold contents. destruct (StorageFacts.append_all_spec rs t) as [R _].
  now rewrite R, map_app, numbered_contents.
Qed.

Lemma ids_append_all {A} (rs : list A) (t : table A) :
  ids (append_all rs t) = ids t ++ seq (next_id t) (List.length rs).
Proof.
  unfold ids. destruct (StorageFacts.append_all_spec rs t) as [R _].
  now rewrite R, map_app, numbered_ids.
Qed.

Lemma next_id_append_all {A} (rs : list A) (t : table A) :
  next_id (append_all rs t) = next_id t + List.length rs.
Proof. now destruct (StorageFacts.append_all_spec rs t). Qed.

End TableFacts.

(** ** The row-at-a-time export, on every frame *)

Module ExportRelationalRun.
Import ExportRelational.

Lemma process_from_commits B df : forall idx s,
  committed s = db s ->
  committed (process_from B idx df s) = db (process_from B idx df s).
Proof.
  induction df as [|row df IH]; intros idx s H; cbn [process_from].
  - exact H.
  - apply IH. rewrite ExportRelationalFacts.guarded_is_blank. reflexivity.
Qed.

Lemma process_from_registries B df : forall idx s,
  person_map (process_from B idx df s) = person_map s
  /\ firm_map (process_from B idx df s) = firm_map s
  /\ location_map (process_from B idx df s) = location_map s.
Proof.
  induction df as [|row df IH]; intros idx s; cbn [process_from].
  - repeat split.
  - rewrite ExportRelationalFacts.guarded_is_blank.
    destruct (IH (S idx) (commit (fst (insert_investor blank_investor s))))
      as (E1 & E2 & E3).
    rewrite E1, E2, E3. repeat split.
Qed.

End ExportRelationalRun.

(** X4.  [process_investor_data] of [export_relational.py] stores, for
    every frame, one investor row for each record and nothing else: the
    row has no person, firm or location, None in every text column, a
    vote count of 0 and False in every flag, since each column is read
    with [safe_get(row, ...)] from a Series.  The three dimension tables
    and the three registries stay as they were, no record is reported,
    and every row is committed.  Into a freshly created schema the rows
    get the ids 1, 2, ... in the order of the frame. *)
Theorem export_relational_stores_blank_investors :
  forall (B : builtins) (df : list (list (string * pyval))) (db0 : database),
    let s := ExportRelational.process_investor_data B df db0 in
    persons (ExportRelational.db s) = persons db0
    /\ firms (ExportRelational.db s) = firms db0
    /\ locations (ExportRelational.db s) = locations db0
    /\ contents (investors (ExportRelational.db s))
       = contents (investors db0) ++ repeat blank_investor (List.length df)
    /\ ExportRelational.errors s = []
    /\ ExportRelational.person_map s = []
    /\ ExportRelational.firm_map s = []
    /\ ExportRelational.location_map s = []
    /\ ExportRelational.committed s = ExportRelational.db s
    /\ (rows (investors db0) = [] -> next_id (investors db0) = 1 ->
        ids (investors (ExportRelational.db s)) = seq 1 (List.length df)).
Proof.
  intros B df db0. cbv zeta. unfold ExportRelational.process_investor_data.
  destruct (ExportRelationalFacts.process_from_is_blank B df 0
              (ExportRelational.initial db0)) as (E1 & E2 & E3 & E4 & E5).
  destruct (ExportRelationalRun.process_from_registries B df 0
              (ExportRelational.initial db0)) as (M1 & M2 & M3).
  cbn [ExportRelational.db ExportRelational.initial] in E5.
  repeat match goal with |- _ /\ _ => split end;
    try assumption.
  - rewrite E5. apply TableFacts.contents_append_all.
  - now apply ExportRelationalRun.process_from_commits.
  - intros H0 H1. rewrite E5, TableFacts.ids_append_all.
    unfold ids. now rewrite H0, H1, repeat_length.
Qed.

Lemma export_relational_stores_blank_investors_witness :
  ids (investors (ExportRelational.db
         (ExportRelational.process_investor_data plain_builtins scenario fresh)))
  = [1; 2].
Proof.
  apply (export_relational_stores_blank_investors plain_builtins scenario fresh);
    reflexivity.
Defined.

(** ** The registries and the transaction *)

(** X5.  In [export_relational.py] the handler of the loop rolls the
    connection back but leaves the registries as they are.  Take a state
    with nothing pending and a person whose slug is not registered:
    [person_of] inserts the row and registers its id; if the record then
    fails, the rollback removes the row from the table, while
    [person_map] still answers the id of the removed row, so the next
    record of the same person is given a [person_id] that no row of
    [persons] carries.  (In a run of the script the row is a Series and
    no person is ever looked at; this is about the registry code as
    written.) *)
Theorem rollback_keeps_registered_id :
  forall (B : builtins) (idx : nat) (d : list (string * pyval))
         (s : ExportRelational.state) (k : hkey),
    d <> [] ->
    hash_key (get d "slug" (person_token idx)) = Returns k ->
    reg_get k (ExportRelational.person_map s) = None ->
    ExportRelational.committed s = ExportRelational.db s ->
    Forall (fun i => i < next_id (persons (ExportRelational.db s)))
      (ids (persons (ExportRelational.db s))) ->
    let id := next_id (persons (ExportRelational.db s)) in
    exists s1,
      ExportRelational.person_of B idx (VDict d) s = (s1, Returns (Some id))
      /\ In id (ids (persons (ExportRelational.db s1)))
      /\ (let s2 := ExportRelational.rollback s1 in
          rows (persons (ExportRelational.db s2))
          = rows (persons (ExportRelational.db s))
          /\ ~ In id (ids (persons (ExportRelational.db s2)))
          /\ forall idx',
               hash_key (get d "slug" (person_token idx')) = Returns k ->
               ExportRelational.person_of B idx' (VDict d) s2
               = (s2, Returns (Some id))).
Proof.
  intros B idx d s k Hd Hk Hn Hc Hw id.
  destruct d as [|c d]; [now elim Hd|].
  unfold ExportRelational.person_of at 1.
  unfold bind, lift, gets, modify, ret, ExportRelational.insert_person.
  cbn [truthy nonempty is_dict andb safe_get insert fst snd].
  rewrite Hk, Hn. cbn [fst snd].
  eexists. split; [reflexivity|].
  cbn [ExportRelational.db ExportRelational.set_db
       ExportRelational.set_person_map persons set_persons ids rows].
  split.
  - unfold ids. cbn [rows]. rewrite map_app. apply in_or_app. right. now left.
  - cbv zeta.
    cbn [ExportRelational.rollback ExportRelational.db ExportRelational.set_db
         ExportRelational.set_person_map ExportRelational.committed
         persons set_persons set_firms set_locations set_investors
         ExportRelational.rolled_back rows].
    rewrite Hc. split; [reflexivity|]. split.
    + intros Hin. rewrite Forall_forall in Hw.
      specialize (Hw _ Hin). unfold id in Hw. lia.
    + intros idx' Hk'.
      apply ExportRelationalRegistry.person_of_known with (k := k);
        [discriminate | exact Hk' |].
      cbn [ExportRelational.person_map ExportRelational.rollback
           ExportRelational.set_db ExportRelational.set_person_map].
      apply RegistryFacts.reg_get_set_same.
Qed.

Lemma rollback_keeps_registered_id_witness :
  let d := [("slug", VStr "a"); ("name", VStr "Alice")] in
  let s := ExportRelational.initial fresh in
  exists s1,
    ExportRelational.person_of plain_builtins 0 (VDict d) s
    = (s1, Returns (Some 1))
    /\ In 1 (ids (persons (ExportRelational.db s1)))
    /\ (let s2 := ExportRelational.rollback s1 in
        rows (persons (ExportRelational.db s2)) = []
        /\ ~ In 1 (ids (persons (ExportRelational.db s2)))
        /\ forall idx',
             hash_key (get d "slug" (person_token idx')) = Returns (KStr "a") ->
             ExportRelational.person_of plain_builtins idx' (VDict d) s2
             = (s2, Returns (Some 1))).
Proof.
  apply (rollback_keeps_registered_id plain_builtins 0
           [("slug", VStr "a"); ("name", VStr "Alice")]
           (ExportRelational.initial fresh) (KStr "a"));
    try reflexivity; [discriminate | constructor].
Defined.

(** ** Stepping through a run *)

Module Steps.

Lemma lift_returns {S A B} (a : A) (f : A -> M S B) (s : S) :
  bind (lift (Returns a)) f s = f a s.
Proof. reflexivity. Qed.

Lemma lift_raises {S A B} (e : exn) (f : A -> M S B) (s : S) :
  bind (lift (Raises e)) f s = (s, Raises e).
Proof. reflexivity. Qed.

Lemma modify_then {S B} (g : S -> S) (f : unit -> M S B) (s : S) :
  bind (modify g) f s = f tt (g s).
Proof. reflexivity. Qed.

Lemma gets_then {S A B} (g : S -> A) (f : A -> M S B) (s : S) :
  bind (gets g) f s = f (g s) s.
Proof. reflexivity. Qed.

Lemma ret_then {S A B} (a : A) (f : A -> M S B) (s : S) :
  bind (ret a) f s = f a s.
Proof. reflexivity. Qed.

(** A sequence that returns went through both of its parts. *)
Lemma bind_returned {S A B} (m : M S A) (f : A -> M S B) s s' b :
  bind m f s = (s', Returns b) ->
  exists s1 a, m s = (s1, Returns a) /\ f a s1 = (s', Returns b).
Proof.
  unfold bind. destruct (m s) as [s1 [a|e]]; [eauto | discriminate].
Qed.

End Steps.

(** ** The bulk export: references *)

Module FastReferences.
Import ExportRelationalFast RegistryFacts SelectFacts Views.

Lemma last_id_in {A} (key : A -> pyval) (k : hkey) (rs : list (nat * A)) i :
  last_id key k rs = Some i -> In i (map fst rs).
Proof.
  induction rs as [|[j r] rs IH]; cbn [last_id map fst]; [discriminate|].
  destruct (last_id key k rs) as [j'|].
  - intros [= <-]. right. now apply IH.
  - destruct (hash_key (key r)) as [k'|e]; [|discriminate].
    destruct (hkey_eqb k k'); [|discriminate].
    intros [= <-]. now left.
Qed.

Lemma select_map_in {A} (key : A -> pyval) (k : hkey) (t : table A) i :
  reg_get k (select_map key t) = Some i -> In i (ids t).
Proof. rewrite select_map_get. apply last_id_in. Qed.

Lemma reference_some map v key i :
  reference map v key = Returns (Some i) -> exists k, reg_get k map = Some i.
Proof.
  unfold reference. destruct (nonempty_dict v); [|discriminate].
  destruct (hash_key key) as [k|e]; [|discriminate].
  cbn [obind]. intros [= H]. eauto.
Qed.

Lemma investor_data_references B pm fm lm idx row r :
  investor_data B pm fm lm idx row = Returns r ->
  (forall p, i_person_id r = Some p -> exists k, reg_get k pm = Some p)
  /\ (forall f, i_firm_id r = Some f -> exists k, reg_get k fm = Some f)
  /\ (forall l, i_location_id r = Some l -> exists k, reg_get k lm = Some l).
Proof.
  unfold investor_data. intros E.
  apply obind_returns in E as (person & _ & E).
  apply obind_returns in E as (firm & _ & E).
  apply obind_returns in E as (location & _ & E).
  apply obind_returns in E as (person_id & Ep & E).
  apply obind_returns in E as (firm_id & Ef & E).
  apply obind_returns in E as (location_id & El & E).
  apply obind_returns in E as (vote_count & _ & E).
  apply obind_returns in E as (flags & _ & E).
  injection E as <-. cbn [i_person_id i_firm_id i_location_id].
  repeat split; intros i ->; eapply reference_some; eassumption.
Qed.

Lemma Forall_numbered {A} (P : A -> Prop) (l : list A) : forall n,
  Forall P l -> Forall (fun ir => P (snd ir)) (combine (seq n (List.length l)) l).
Proof.
  induction l as [|x l IH]; intros n H; cbn [List.length seq combine].
  - constructor.
  - inversion H; subst. constructor; [assumption | now apply IH].
Qed.

Lemma to_sql_investors_adds (P : investor_row -> Prop) rs db :
  Forall P rs ->
  persons (to_sql_investors rs db) = persons db
  /\ firms (to_sql_investors rs db) = firms db
  /\ locations (to_sql_investors rs db) = locations db
  /\ exists added,
       rows (investors (to_sql_investors rs db)) = rows (investors db) ++ added
       /\ Forall (fun ir => P (snd ir)) added.
Proof.
  intros H. repeat split.
  cbn [to_sql_investors investors set_investors].
  destruct (StorageFacts.append_all_spec rs (investors db)) as [R _].
  rewrite R. eexists. split; [reflexivity|]. now apply Forall_numbered.
Qed.

(** The second loop only adds investor rows, and every row it adds was
    built by [investor_data]. *)
Lemma create_investors_adds B pm fm lm (P : investor_row -> Prop) :
  (forall idx row r, investor_data B pm fm lm idx row = Returns r -> P r) ->
  forall df idx batch db,
    Forall P batch ->
    let db' := fst (create_investors B pm fm lm idx df batch db) in
    persons db' = persons db
    /\ firms db' = firms db
    /\ locations db' = locations db
    /\ exists added,
         rows (investors db') = rows (investors db) ++ added
         /\ Forall (fun ir => P (snd ir)) added.
Proof.
  intros HP. induction df as [|row df IH]; intros idx batch db Hb;
    cbn [create_investors].
  - cbn [modify fst]. now apply to_sql_investors_adds.
  - destruct (investor_data B pm fm lm idx row) as [r|e] eqn:E.
    + rewrite Steps.lift_returns. cbv zeta.
      assert (Hb' : Forall P (batch ++ [r])).
      { apply Forall_app. split; [exact Hb|]. constructor; [|constructor].
        eapply HP. exact E. }
      destruct (Nat.leb 1000 (List.length (batch ++ [r]))).
      * rewrite Steps.modify_then.
        destruct (to_sql_investors_adds P (batch ++ [r]) db Hb')
          as (E1 & E2 & E3 & a1 & R1 & F1).
        destruct (IH (S idx) [] (to_sql_investors (batch ++ [r]) db)
                    (Forall_nil _)) as (I1 & I2 & I3 & a2 & R2 & F2).
        cbv zeta in *. rewrite I1, I2, I3, R2, R1, E1, E2, E3.
        repeat split. exists (a1 ++ a2). rewrite app_assoc.
        split; [reflexivity|]. apply Forall_app. now split.
      * now apply IH.
    + rewrite Steps.lift_raises. cbn [fst]. repeat split.
      exists []. rewrite app_nil_r. split; [reflexivity | constructor].
Qed.

Lemma nothing_added (db0 db : database) :
  investors db = investors db0 ->
  exists added : list (nat * investor_row),
    rows (investors db) = rows (investors db0) ++ added
    /\ forall id r, In (id, r) added -> references_resolve db r.
Proof.
  intros ->. exists []. rewrite app_nil_r. split; [reflexivity|]. intros id r [].
Qed.

End FastReferences.

(** X6.  Referential integrity of the bulk export.  Whatever the frame
    and the database it starts from, and whether the run returns or
    raises on the way, [extract_and_bulk_insert] only adds rows to
    [investors], and every row it adds references rows that exist: a
    [person_id], [firm_id] or [location_id] that is not null is the id of
    a row of [persons], [firms] or [locations] as the run leaves them. *)
Theorem fast_foreign_keys_resolve :
  forall (B : builtins) (df : list (list (string * pyval))) (db0 : database),
    let db := fst (ExportRelationalFast.extract_and_bulk_insert B df db0) in
    exists added,
      rows (investors db) = rows (investors db0) ++ added
      /\ forall id r, In (id, r) added -> Views.references_resolve db r.
Proof.
  intros B df db0. cbv zeta.
  unfold ExportRelationalFast.extract_and_bulk_insert.
  destruct (ExportRelationalFast.collect B 0 df _) as [c|e];
    [rewrite Steps.lift_returns
    | rewrite Steps.lift_raises; now apply FastReferences.nothing_added].
  destruct (ExportRelationalFast.drop_duplicates
              (ExportRelationalFast.persons_data c) []) as [persons_df|e];
    [rewrite Steps.lift_returns
    | rewrite Steps.lift_raises; now apply FastReferences.nothing_added].
  rewrite Steps.modify_then.
  destruct (ExportRelationalFast.drop_duplicates
              (ExportRelationalFast.firms_data c) []) as [firms_df|e];
    [rewrite Steps.lift_returns
    | rewrite Steps.lift_raises; now apply FastReferences.nothing_added].
  rewrite Steps.modify_then.
  destruct (ExportRelationalFast.drop_duplicates
              (ExportRelationalFast.locations_data c) []) as [locations_df|e];
    [rewrite Steps.lift_returns
    | rewrite Steps.lift_raises; now apply FastReferences.nothing_added].
  rewrite Steps.modify_then.
  rewrite !Steps.gets_then.
  set (db1 := to_sql_locations locations_df
                (to_sql_firms firms_df (to_sql_persons persons_df db0))).
  destruct (FastReferences.create_investors_adds B
              (select_map dim_key (persons db1))
              (select_map dim_key (firms db1))
              (select_map dim_key (locations db1))
              (Views.references_resolve db1)) with (df := df) (idx := 0)
              (batch := @nil investor_row) (db := db1)
    as (E1 & E2 & E3 & added & R & F).
  - intros idx row r E.
    destruct (FastReferences.investor_data_references B _ _ _ idx row r E)
      as (Hp & Hf & Hl).
    repeat split; intros i Hi.
    + destruct (Hp i Hi) as [k Hk]. eapply FastReferences.select_map_in; eauto.
    + destruct (Hf i Hi) as [k Hk]. eapply FastReferences.select_map_in; eauto.
    + destruct (Hl i Hi) as [k Hk]. eapply FastReferences.select_map_in; eauto.
  - constructor.
  - cbv zeta in *. exists added. split; [rewrite R; reflexivity|].
    intros id r Hin. rewrite Forall_forall in F. specialize (F _ Hin).
    unfold Views.references_resolve in *. cbn [snd] in F.
    rewrite E1, E2, E3. exact F.
Qed.

(** ** The bulk export: batches *)

Module FastBatches.
Import ExportRelationalFast.

Lemma firstn_whole_batch {A} (batch rest : list A) (m : nat) :
  List.length batch = 1000 ->
  firstn (1000 + m) (batch ++ rest) = batch ++ firstn m rest.
Proof. intros H. rewrite <- H. apply firstn_app_2. Qed.

(** The second loop stops at the first record whose fact row cannot be
    built; what it has written by then are the whole batches. *)
Lemma create_investors_stops B pm fm lm : forall df idx batch db j row e rs,
  List.length batch < 1000 ->
  nth_error df j = Some row ->
  List.length rs = j ->
  (forall i r, nth_error rs i = Some r ->
     exists row_i, nth_error df i = Some row_i
                   /\ investor_data B pm fm lm (idx + i) row_i = Returns r) ->
  investor_data B pm fm lm (idx + j) row = Raises e ->
  create_investors B pm fm lm idx df batch db
  = (to_sql_investors
       (firstn (1000 * ((List.length batch + j) / 1000)) (batch ++ rs)) db,
     Raises e).
Proof.
  induction df as [|row0 df IH]; intros idx batch db j row e rs Hb Hj Hl Hrs He.
  - destruct j; discriminate.
  - cbn [create_investors]. destruct j as [|j].
    + injection Hj as ->. rewrite Nat.add_0_r in He. rewrite He.
      rewrite Steps.lift_raises.
      destruct rs; [|discriminate]. rewrite app_nil_r, Nat.add_0_r.
      rewrite Nat.div_small by exact Hb.
      rewrite Nat.mul_0_r. cbn [firstn].
      destruct db as [? ? ? [] ? ? ? ? ? ? ? ? ? ?]. reflexivity.
    + destruct rs as [|r rs]; [discriminate|].
      destruct (Hrs 0 r eq_refl) as (row_0 & E0 & Er).
      injection E0 as <-. rewrite Nat.add_0_r in Er. rewrite Er.
      rewrite Steps.lift_returns. cbv zeta.
      cbn [nth_error] in Hj. cbn [List.length] in Hl. injection Hl as Hl.
      assert (Hrs' : forall i r', nth_error rs i = Some r' ->
                exists row_i, nth_error df i = Some row_i
                  /\ investor_data B pm fm lm (S idx + i) row_i = Returns r').
      { intros i r' Hi. destruct (Hrs (S i) r' Hi) as (row_i & Ei & Eri).
        exists row_i. split; [exact Ei|].
        now replace (S idx + i) with (idx + S i) by lia. }
      assert (He' : investor_data B pm fm lm (S idx + j) row = Raises e)
        by now replace (S idx + j) with (idx + S j) by lia.
      rewrite length_app. cbn [List.length].
      destruct (Nat.leb 1000 (List.length batch + 1)) eqn:Ef.
      * apply Nat.leb_le in Ef.
        assert (Hfull : List.length (batch ++ [r]) = 1000)
          by (rewrite length_app; cbn [List.length]; lia).
        rewrite Steps.modify_then.
        rewrite (IH (S idx) [] _ j row e rs); try assumption;
          [|cbn [List.length]; lia].
        rewrite FastRun.to_sql_investors_twice. cbn [List.length Nat.add app].
        f_equal. f_equal.
        replace (List.length batch + S j) with (j + 1 * 1000) by lia.
        rewrite Nat.div_add by lia.
        replace (1000 * (j / 1000 + 1)) with (1000 + 1000 * (j / 1000)) by lia.
        replace (batch ++ r :: rs) with ((batch ++ [r]) ++ rs)
          by (rewrite <- app_assoc; reflexivity).
        now rewrite firstn_whole_batch.
      * apply Nat.leb_gt in Ef.
        rewrite (IH (S idx) (batch ++ [r]) db j row e rs); try assumption;
          [|rewrite length_app; cbn [List.length]; lia].
        rewrite length_app. cbn [List.length].
        replace (List.length batch + 1 + j) with (List.length batch + S j) by lia.
        now rewrite <- app_assoc.
Qed.

End FastBatches.

(** X7.  The second loop of [extract_and_bulk_insert] writes the
    investor rows in batches of 1000 and has no handler: when the fact
    row of the record at position [j] cannot be built (the rows before it
    can), the loop raises there and the table has received exactly the
    first [1000 * (j / 1000)] rows, the whole batches; the rows of up to
    999 records that were built after the last write are lost with the
    exception. *)
Theorem fast_failure_keeps_whole_batches :
  forall (B : builtins) (pm fm lm : registry)
         (df : list (list (string * pyval))) (db : database)
         (j : nat) (row : list (string * pyval)) (e : exn)
         (rs : list investor_row),
    nth_error df j = Some row ->
    List.length rs = j ->
    (forall i r, nth_error rs i = Some r ->
       exists row_i, nth_error df i = Some row_i
                     /\ ExportRelationalFast.investor_data B pm fm lm i row_i
                        = Returns r) ->
    ExportRelationalFast.investor_data B pm fm lm j row = Raises e ->
    ExportRelationalFast.create_investors B pm fm lm 0 df [] db
    = (to_sql_investors (firstn (1000 * (j / 1000)) rs) db, Raises e).
Proof.
  intros B pm fm lm df db j row e rs Hj Hl Hrs He.
  apply (FastBatches.create_investors_stops B pm fm lm df 0 [] db j row e rs);
    try assumption.
  cbn [List.length]. lia.
Qed.

Lemma fast_failure_keeps_whole_batches_witness :
  let good := [("vote_count", VInt 3)] in
  let bad := [("vote_count", VStr "many")] in
  exists r,
    ExportRelationalFast.create_investors plain_builtins [] [] [] 0
      [good; bad; good] [] fresh
    = (to_sql_investors (firstn (1000 * (1 / 1000)) [r]) fresh,
       Raises ValueError).
Proof.
  eexists.
  apply (fast_failure_keeps_whole_batches plain_builtins [] [] []
           [[("vote_count", VInt 3)]; [("vote_count", VStr "many")];
            [("vote_count", VInt 3)]]
           fresh 1 [("vote_count", VStr "many")] ValueError).
  - reflexivity.
  - reflexivity.
  - intros [|[|i]] r H; [|discriminate|destruct i; discriminate].
    injection H as <-. eexists. split; reflexivity.
  - reflexivity.
Defined.

(** ** The bulk export: the dimension tables *)

Module FastDimensions.
Import ExportRelationalFast RegistryFacts SelectFacts Views.

Lemma iterrows_cons {A} (idx : nat) (row : A) (df : list A) :
  iterrows idx (row :: df) = (idx, row) :: iterrows (S idx) df.
Proof. reflexivity. Qed.

(** What the first loop collects, for each of the three dimensions: the
    entries of the records that carry a non-empty dict, in the order of
    the frame. *)
Lemma collect_spec B : forall df idx acc c,
  collect B idx df acc = Returns c ->
  persons_data c
  = persons_data acc
    ++ flat_map (dimension_part "person" (person_entry B)) (iterrows idx df)
  /\ firms_data c
     = firms_data acc
       ++ flat_map (dimension_part "firm" firm_entry) (iterrows idx df)
  /\ locations_data c
     = locations_data acc
       ++ flat_map (dimension_part "location" (fun _ => location_entry))
            (iterrows idx df).
Proof.
  induction df as [|row df IH]; intros idx acc c E.
  - injection E as <-. cbn. now rewrite !app_nil_r.
  - cbn [collect] in E.
    apply obind_returns in E as (person & Ep & E).
    apply obind_returns in E as (firm & Ef & E).
    apply obind_returns in E as (location & El & E).
    destruct (IH _ _ _ E) as (I1 & I2 & I3).
    cbn [persons_data firms_data locations_data] in I1, I2, I3.
    rewrite iterrows_cons. cbn [flat_map].
    unfold dimension_part at 1 3 5. cbn [fst snd].
    rewrite Ep, Ef, El, I1, I2, I3.
    repeat split.
    + destruct (nonempty_dict person);
        [now rewrite <- app_assoc | reflexivity].
    + destruct (nonempty_dict firm);
        [now rewrite <- app_assoc | reflexivity].
    + destruct (nonempty_dict location);
        [now rewrite <- app_assoc | reflexivity].
Qed.





Section Dimension.
Variable field : string.
Variable entry : nat -> pyval -> dimension_row.


(** The entry of the record at position [j], and where the entries
    before it come from. *)
Lemma entries_at : forall df idx j row v,
  nth_error df j = Some row ->
  nested row field = Returns v -> nonempty_dict v = true ->
  exists l1 l2,
    flat_map (dimension_part field entry) (iterrows idx df)
    = l1 ++ entry (idx + j) v :: l2
    /\ forall r, In r l1 ->
         exists j' row' v',
           j' < j /\ nth_error df j' = Some row'
           /\ nested row' field = Returns v' /\ nonempty_dict v' = true
           /\ r = entry (idx + j') v'.
Proof.
  induction df as [|row0 df IH]; intros idx j row v Hj Hn Hd.
  - destruct j; discriminate.
  - rewrite iterrows_cons. cbn [flat_map]. destruct j as [|j].
    + injection Hj as ->. exists [], (flat_map (dimension_part field entry)
                                        (iterrows (S idx) df)).
      unfold dimension_part at 1. cbn [fst snd]. rewrite Hn, Hd, Nat.add_0_r.
      split; [reflexivity | intros r []].
    + cbn [nth_error] in Hj.
      destruct (IH (S idx) j row v Hj Hn Hd) as (l1 & l2 & E & H).
      exists (dimension_part field entry (idx, row0) ++ l1), l2.
      rewrite E, <- app_assoc.
      replace (S idx + j) with (idx + S j) by lia.
      split; [reflexivity|].
      intros r Hr. apply in_app_or in Hr as [Hr | Hr].
      * unfold dimension_part in Hr. cbn [fst snd] in Hr.
        destruct (nested row0 field) as [v0|e0] eqn:E0; [|destruct Hr].
        destruct (nonempty_dict v0) eqn:D0; [|destruct Hr].
        destruct Hr as [<- | []].
        exists 0, row0, v0. rewrite Nat.add_0_r.
        repeat split; try assumption. lia.
      * destruct (H r Hr) as (j' & row' & v' & Hlt & Hn' & Hv' & Hd' & ->).
        exists (S j'), row', v'.
        replace (idx + S j') with (S idx + j') by lia.
        repeat split; try assumption. lia.
Qed.


(** One row for each key: the record at position [j] finds exactly one
    row of its key among the rows kept, numbered as the table numbers
    them, and the registry read from the table answers its id. *)
Lemma one_row_for_each_key df kept j row d k :
  drop_duplicates (flat_map (dimension_part field entry) (iterrows 0 df)) []
  = Returns kept ->
  nth_error df j = Some row ->
  assoc field row = Some (VDict d) -> d <> [] ->
  hash_key (dim_key (entry j (VDict d))) = Returns k ->
  exists id r0,
    In (id, r0) (combine (seq 1 (List.length kept)) kept)
    /\ hash_key (dim_key r0) = Returns k
    /\ (forall id' r',
          In (id', r') (combine (seq 1 (List.length kept)) kept) ->
          hash_key (dim_key r') = Returns k -> id' = id)
    /\ last_id dim_key k (combine (seq 1 (List.length kept)) kept) = Some id.
Proof.
  intros E Hj Ha Hd Hk.
  assert (Hn : nested row field = Returns (VDict d))
    by now apply FastDedup.nested_of_dict.
  assert (Hne : nonempty_dict (VDict d) = true)
    by (destruct d; [now elim Hd | reflexivity]).
  destruct (entries_at df 0 j row (VDict d) Hj Hn Hne) as (l1 & l2 & El & _).
  cbn [Nat.add] in El.
  assert (Hin : In (entry j (VDict d))
                  (flat_map (dimension_part field entry) (iterrows 0 df))).
  { rewrite El. apply in_or_app. right. now left. }
  destruct (FastDedup.drop_duplicates_spec _ _ _ E)
    as (uc & -> & Nd & _ & Hu & Pu).
  destruct (Pu _ k Hin Hk eq_refl) as [r0 Hr0].
  destruct (numbered_by_key dim_key uc Nd (fun k c Hc => proj1 (Hu k c Hc))
              1 k r0 Hr0) as (id & Lid & Iid & Uid).
  rewrite length_map.
  exists id, r0. repeat split; try assumption.
  apply Hu. now apply reg_get_in.
Qed.

End Dimension.

Lemma investor_firm_id B pm fm lm idx row r v k :
  investor_data B pm fm lm idx row = Returns r ->
  nested row "firm" = Returns v ->
  nonempty_dict v = true ->
  hash_key (dict_get v "slug" (firm_token idx)) = Returns k ->
  i_firm_id r = reg_get k fm.
Proof.
  intros E Hv Hd Hk. unfold investor_data in E.
  apply obind_returns in E as (person & _ & E).
  rewrite Hv in E. cbn [obind] in E.
  apply obind_returns in E as (location & _ & E).
  apply obind_returns in E as (person_id & _ & E).
  unfold reference at 1 in E. rewrite Hd, Hk in E. cbn [obind] in E.
  apply obind_returns in E as (location_id & _ & E).
  apply obind_returns in E as (vote_count & _ & E).
  apply obind_returns in E as (flags & _ & E).
  now injection E as <-.
Qed.

Lemma investor_location_id B pm fm lm idx row r v k :
  investor_data B pm fm lm idx row = Returns r ->
  nested row "location" = Returns v ->
  nonempty_dict v = true ->
  hash_key (dict_get v "display_name" VNone) = Returns k ->
  i_location_id r = reg_get k lm.
Proof.
  intros E Hv Hd Hk. unfold investor_data in E.
  apply obind_returns in E as (person & _ & E).
  apply obind_returns in E as (firm & _ & E).
  rewrite Hv in E. cbn [obind] in E.
  apply obind_returns in E as (person_id & _ & E).
  apply obind_returns in E as (firm_id & _ & E).
  unfold reference at 1 in E. rewrite Hd, Hk in E. cbn [obind] in E.
  apply obind_returns in E as (vote_count & _ & E).
  apply obind_returns in E as (flags & _ & E).
  now injection E as <-.
Qed.

(** The run into a fresh schema, with what the first loop collected
    spelled out. *)
Lemma run_tables B df :
  fact_rows_build B 0 df ->
  exists persons_df firms_df locations_df rs db,
    drop_duplicates
      (flat_map (dimension_part "person" (person_entry B)) (iterrows 0 df)) []
    = Returns persons_df
    /\ drop_duplicates
         (flat_map (dimension_part "firm" firm_entry) (iterrows 0 df)) []
       = Returns firms_df
    /\ drop_duplicates
         (flat_map (dimension_part "location" (fun _ => location_entry))
            (iterrows 0 df)) []
       = Returns locations_df
    /\ extract_and_bulk_insert B df fresh = (db, Returns tt)
    /\ rows (persons db) = combine (seq 1 (List.length persons_df)) persons_df
    /\ rows (firms db) = combine (seq 1 (List.length firms_df)) firms_df
    /\ rows (locations db)
       = combine (seq 1 (List.length locations_df)) locations_df
    /\ rows (investors db) = combine (seq 1 (List.length rs)) rs
    /\ forall j row, nth_error df j = Some row ->
         exists r, nth_error rs j = Some r
                   /\ investor_data B (select_map dim_key (persons db))
                        (select_map dim_key (firms db))
                        (select_map dim_key (locations db)) j row
                      = Returns r.
Proof.
  intros H.
  destruct (FastRun.run_spec B df H)
    as (c & persons_df & firms_df & locations_df & rs
        & Ec & Ep & Ef & El & L & N & E).
  cbv zeta in N, E.
  destruct (collect_spec B df 0 _ c Ec) as (C1 & C2 & C3).
  cbn [persons_data firms_data locations_data app] in C1, C2, C3.
  rewrite C1 in Ep. rewrite C2 in Ef. rewrite C3 in El.
  exists persons_df, firms_df, locations_df, rs.
  eexists. split; [exact Ep|]. split; [exact Ef|]. split; [exact El|].
  split; [exact E|].
  cbn [persons firms locations investors to_sql_investors set_investors
       to_sql_locations set_locations to_sql_firms set_firms
       to_sql_persons set_persons fresh].
  rewrite !StorageFacts.append_all_created.
  repeat split. exact N.
Qed.

End FastDimensions.


(** ** One row for each key, when the run returns *)

Module FastKeys.
Import ExportRelationalFast.

(** A second loop that returns has built the row of every record. *)
Lemma create_investors_returned B pm fm lm : forall df idx batch db db' u,
  create_investors B pm fm lm idx df batch db = (db', Returns u) ->
  forall j row, nth_error df j = Some row ->
    returned (investor_data B pm fm lm (idx + j) row) = true.
Proof.
  induction df as [|row0 df IH]; intros idx batch db db' u E j row Hj.
  - destruct j; discriminate.
  - cbn [create_investors] in E.
    apply Steps.bind_returned in E as (s1 & r0 & E0 & E).
    unfold lift in E0. injection E0 as <- E0.
    destruct j as [|j].
    + injection Hj as <-. now rewrite Nat.add_0_r, E0.
    + cbn [nth_error] in Hj.
      replace (idx + S j) with (S idx + j) by lia.
      destruct (Nat.leb 1000 (List.length (batch ++ [r0]))).
      * apply Steps.bind_returned in E as (s2 & u2 & _ & E).
        eapply IH; eassumption.
      * eapply IH; eassumption.
Qed.

Lemma returns_builds B df db0 db u :
  extract_and_bulk_insert B df db0 = (db, Returns u) ->
  fact_rows_build B 0 df.
Proof.
  unfold extract_and_bulk_insert. intros E.
  apply Steps.bind_returned in E as (s1 & c & _ & E).
  apply Steps.bind_returned in E as (s2 & persons_df & _ & E).
  apply Steps.bind_returned in E as (s3 & u3 & _ & E).
  apply Steps.bind_returned in E as (s4 & firms_df & _ & E).
  apply Steps.bind_returned in E as (s5 & u5 & _ & E).
  apply Steps.bind_returned in E as (s6 & locations_df & _ & E).
  apply Steps.bind_returned in E as (s7 & u7 & _ & E).
  apply Steps.bind_returned in E as (s8 & pm & _ & E).
  apply Steps.bind_returned in E as (s9 & fm & _ & E).
  apply Steps.bind_returned in E as (s10 & lm & _ & E).
  intros j row Hj.
  pose proof (create_investors_returned B pm fm lm df 0 [] _ _ _ E j row Hj)
    as H.
  apply FastRun.investor_data_parts in H as [_ H].
  destruct (H [] [] []) as [r ->]. reflexivity.
Qed.

Lemma scenario_text_keys : Views.text_keys scenario.
Proof.
  intros [|[|[|j]]] row d E Hd; cbn in E; try discriminate;
    injection E as <-; repeat split; intros [= <-]; reflexivity.
Qed.

(** The same under the condition that every fact row can be built, which
    makes the run return. *)
Lemma one_row_when_built :
  forall (B : builtins) (df : list (list (string * pyval))),
    fact_rows_build B 0 df ->
    exists db,
      ExportRelationalFast.extract_and_bulk_insert B df fresh = (db, Returns tt)
      /\ (forall j row d k,
            nth_error df j = Some row ->
            assoc "person" row = Some (VDict d) -> d <> [] ->
            hash_key (get d "slug" (person_token j)) = Returns k ->
            exists id person,
              In (id, person) (rows (persons db))
              /\ hash_key (dim_key person) = Returns k
              /\ (forall id' person',
                    In (id', person') (rows (persons db)) ->
                    hash_key (dim_key person') = Returns k -> id' = id)
              /\ exists r,
                   nth_error (rows (investors db)) j = Some (j + 1, r)
                   /\ i_person_id r = Some id)
      /\ (forall j row d k,
            nth_error df j = Some row ->
            assoc "firm" row = Some (VDict d) -> d <> [] ->
            hash_key (get d "slug" (firm_token j)) = Returns k ->
            exists id firm,
              In (id, firm) (rows (firms db))
              /\ hash_key (dim_key firm) = Returns k
              /\ (forall id' firm',
                    In (id', firm') (rows (firms db)) ->
                    hash_key (dim_key firm') = Returns k -> id' = id)
              /\ exists r,
                   nth_error (rows (investors db)) j = Some (j + 1, r)
                   /\ i_firm_id r = Some id)
      /\ (forall j row d k,
            nth_error df j = Some row ->
            assoc "location" row = Some (VDict d) -> d <> [] ->
            hash_key (get d "display_name" VNone) = Returns k ->
            exists id location,
              In (id, location) (rows (locations db))
              /\ hash_key (dim_key location) = Returns k
              /\ (forall id' location',
                    In (id', location') (rows (locations db)) ->
                    hash_key (dim_key location') = Returns k -> id' = id)
              /\ exists r,
                   nth_error (rows (investors db)) j = Some (j + 1, r)
                   /\ i_location_id r = Some id).
Proof.
  intros B df H.
  destruct (FastDimensions.run_tables B df H)
    as (persons_df & firms_df & locations_df & rs & db
        & Ep & Ef & El & E & Rp & Rf & Rl & Ri & N).
  exists db. split; [exact E|].
  assert (Inv : forall j row r, nth_error df j = Some row ->
            nth_error rs j = Some r ->
            nth_error (rows (investors db)) j = Some (j + 1, r)).
  { intros j row r _ Hr. rewrite Ri.
    rewrite (StorageFacts.nth_error_combine_seq rs 1 j r Hr).
    now rewrite Nat.add_comm. }
  assert (Dict : forall d : list (string * pyval), d <> [] ->
            ExportRelationalFast.nonempty_dict (VDict d) = true)
    by (intros [|? ?] Hd; [now elim Hd | reflexivity]).
  split; [|split].
  - intros j row d k Hj Ha Hd Hk.
    destruct (FastDimensions.one_row_for_each_key "person"
                (ExportRelationalFast.person_entry B) df persons_df j row d k
                Ep Hj Ha Hd Hk) as (id & r0 & Iid & K0 & Uid & Lid).
    exists id, r0. rewrite Rp. repeat split; try assumption.
    destruct (N j row Hj) as (r & Hr & Er).
    exists r. split; [now apply (Inv j row)|].
    rewrite (FastDedup.investor_person_id B _ _ _ j row r (VDict d) k Er
               (FastDedup.nested_of_dict row "person" d Ha) (Dict d Hd) Hk).
    now rewrite SelectFacts.select_map_get, Rp.
  - intros j row d k Hj Ha Hd Hk.
    destruct (FastDimensions.one_row_for_each_key "firm"
                ExportRelationalFast.firm_entry df firms_df j row d k
                Ef Hj Ha Hd Hk) as (id & r0 & Iid & K0 & Uid & Lid).
    exists id, r0. rewrite Rf. repeat split; try assumption.
    destruct (N j row Hj) as (r & Hr & Er).
    exists r. split; [now apply (Inv j row)|].
    rewrite (FastDimensions.investor_firm_id B _ _ _ j row r (VDict d) k Er
               (FastDedup.nested_of_dict row "firm" d Ha) (Dict d Hd) Hk).
    now rewrite SelectFacts.select_map_get, Rf.
  - intros j row d k Hj Ha Hd Hk.
    destruct (FastDimensions.one_row_for_each_key "location"
                (fun _ => ExportRelationalFast.location_entry) df locations_df
                j row d k El Hj Ha Hd Hk) as (id & r0 & Iid & K0 & Uid & Lid).
    exists id, r0. rewrite Rl. repeat split; try assumption.
    destruct (N j row Hj) as (r & Hr & Er).
    exists r. split; [now apply (Inv j row)|].
    rewrite (FastDimensions.investor_location_id B _ _ _ j row r (VDict d) k Er
               (FastDedup.nested_of_dict row "location" d Ha) (Dict d Hd) Hk).
    now rewrite SelectFacts.select_map_get, Rl.
Qed.

End FastKeys.

(** X8.  The bulk export keeps one row for each natural key, in all
    three dimension tables.  Take a frame whose keys are text, as the
    VARCHAR columns store them, and a run into a fresh schema that
    returns.  Then for a record whose [person] ([firm], [location]) is a
    non-empty dict the table [persons] ([firms], [locations]) holds
    exactly one row of the record's slug (slug, display name), and the
    investor row of the record references the id of that row.  A person
    or firm without a slug is keyed by [person_<idx>] or [firm_<idx>].
    (A key that is not text, an integer slug say, is read back from the
    table as text and is not found again: such frames are outside this
    statement.) *)
Theorem fast_one_row_for_each_key :
  forall (B : builtins) (df : list (list (string * pyval))) (db : database),
    Views.text_keys df ->
    ExportRelationalFast.extract_and_bulk_insert B df fresh = (db, Returns tt) ->
    (forall j row d k,
          nth_error df j = Some row ->
          assoc "person" row = Some (VDict d) -> d <> [] ->
          hash_key (get d "slug" (person_token j)) = Returns k ->
          exists id person,
            In (id, person) (rows (persons db))
            /\ hash_key (dim_key person) = Returns k
            /\ (forall id' person',
                  In (id', person') (rows (persons db)) ->
                  hash_key (dim_key person') = Returns k -> id' = id)
            /\ exists r,
                 nth_error (rows (investors db)) j = Some (j + 1, r)
                 /\ i_person_id r = Some id)
    /\ (forall j row d k,
          nth_error df j = Some row ->
          assoc "firm" row = Some (VDict d) -> d <> [] ->
          hash_key (get d "slug" (firm_token j)) = Returns k ->
          exists id firm,
            In (id, firm) (rows (firms db))
            /\ hash_key (dim_key firm) = Returns k
            /\ (forall id' firm',
                  In (id', firm') (rows (firms db)) ->
                  hash_key (dim_key firm') = Returns k -> id' = id)
            /\ exists r,
                 nth_error (rows (investors db)) j = Some (j + 1, r)
                 /\ i_firm_id r = Some id)
    /\ (forall j row d k,
          nth_error df j = Some row ->
          assoc "location" row = Some (VDict d) -> d <> [] ->
          hash_key (get d "display_name" VNone) = Returns k ->
          exists id location,
            In (id, location) (rows (locations db))
            /\ hash_key (dim_key location) = Returns k
            /\ (forall id' location',
                  In (id', location') (rows (locations db)) ->
                  hash_key (dim_key location') = Returns k -> id' = id)
            /\ exists r,
                 nth_error (rows (investors db)) j = Some (j + 1, r)
                 /\ i_location_id r = Some id).
Proof.
  intros B df db _ E.
  destruct (FastKeys.one_row_when_built B df (FastKeys.returns_builds B df _ _ _ E))
    as (db' & E' & H).
  rewrite E in E'. injection E' as <-. exact H.
Qed.

Lemma fast_one_row_for_each_key_witness :
  let db := fst (ExportRelationalFast.extract_and_bulk_insert plain_builtins
                   scenario fresh) in
  exists id firm r,
    In (id, firm) (rows (firms db))
    /\ hash_key (dim_key firm) = Returns (KStr "f1")
    /\ nth_error (rows (investors db)) 0 = Some (1, r)
    /\ i_firm_id r = Some id.
Proof.
  cbv zeta.
  destruct (fast_one_row_for_each_key plain_builtins scenario
              (fst (ExportRelationalFast.extract_and_bulk_insert plain_builtins
                      scenario fresh))
              FastKeys.scenario_text_keys eq_refl)
    as (_ & Hf & _).
  destruct (Hf 0 _ [("slug", VStr "f1"); ("name", VStr "Acme")] (KStr "f1")
              eq_refl eq_refl ltac:(discriminate) eq_refl)
    as (id & firm & Hin & Hk & _ & r & Hr & Hi).
  exists id, firm, r. repeat split; assumption.
Defined.



(** ** The bulk export: the columns of an investor row *)

Module FastColumns.
Import ExportRelationalFast.

Lemma map_outcome_each {A C} (f : A -> outcome C) (l : list A) : forall ys,
  map_outcome f l = Returns ys ->
  Forall2 (fun x y => f x = Returns y) l ys.
Proof.
  induction l as [|x l IH]; intros ys E; cbn [map_outcome] in E.
  - injection E as <-. constructor.
  - apply obind_returns in E as (y & Ey & E).
    apply obind_returns in E as (ys' & Eys & [= <-]).
    constructor; [exact Ey | now apply IH].
Qed.

Lemma vote_count_is_integer B row v :
  vote_count_of B row = Returns v ->
  (exists z, v = VInt z)
  /\ (is_null (get row "vote_count" VNone) = true -> v = VInt 0).
Proof.
  unfold vote_count_of. intros E.
  apply obind_returns in E as (t & Et & E). destruct t.
  - apply obind_returns in E as (z & _ & [= <-]). split; [eauto|].
    intros Hn. destruct (get row "vote_count" VNone); try discriminate Hn;
      discriminate Et.
  - injection E as <-. split; [eauto | reflexivity].
Qed.

Lemma flags_each (row : list (string * pyval)) (l : list string) ys :
  Forall2 (fun c y => obind (truthy (get row c (VBool false)))
                        (fun b => Returns (c, VBool b)) = Returns y) l ys ->
  map fst ys = l
  /\ (forall c v, In (c, v) ys ->
        exists b, v = VBool b /\ truthy (get row c (VBool false)) = Returns b)
  /\ (forall c b, In c l -> truthy (get row c (VBool false)) = Returns b ->
        In (c, VBool b) ys).
Proof.
  induction 1 as [|c y l ys Hy _ (I1 & I2 & I3)].
  - repeat split; intros; contradiction.
  - apply obind_returns in Hy as (b & Hb & [= <-]).
    cbn [map fst]. rewrite I1. split; [reflexivity|]. split.
    + intros c' v [[= <- <-] | Hin]; [eauto | now apply I2].
    + intros c' b' [<- | Hin] Hb'.
      * rewrite Hb in Hb'. injection Hb' as <-. now left.
      * right. now apply I3.
Qed.

End FastColumns.

(** X10.  The scalar columns of an investor row, as the bulk export
    builds it.  [vote_count] is always an integer, 0 when the cell is
    absent, None or NaN.  The nine flags are always booleans, in the
    order of the schema, each the truth value of its cell: an absent cell
    or None gives False, and NaN, the missing value of a float column,
    gives True.  The ten text columns are copied as they are. *)
Theorem fast_investor_row_columns :
  forall (B : builtins) (pm fm lm : registry) (idx : nat)
         (row : list (string * pyval)) (r : investor_row),
    ExportRelationalFast.investor_data B pm fm lm idx row = Returns r ->
    (exists z, i_vote_count r = VInt z)
    /\ (is_null (get row "vote_count" VNone) = true -> i_vote_count r = VInt 0)
    /\ map fst (i_flags r) = ExportRelationalFast.flag_columns
    /\ (forall c v, In (c, v) (i_flags r) ->
          exists b, v = VBool b
                    /\ truthy (get row c (VBool false)) = Returns b)
    /\ (forall c, In c ExportRelationalFast.flag_columns ->
          assoc c row = Some VNaN -> In (c, VBool true) (i_flags r))
    /\ (forall c, In c ExportRelationalFast.flag_columns ->
          assoc c row = None \/ assoc c row = Some VNone ->
          In (c, VBool false) (i_flags r))
    /\ i_texts r
       = map (fun c => (c, get row c VNone)) ExportRelationalFast.text_columns.
Proof.
  intros B pm fm lm idx row r E. unfold ExportRelationalFast.investor_data in E.
  apply obind_returns in E as (person & _ & E).
  apply obind_returns in E as (firm & _ & E).
  apply obind_returns in E as (location & _ & E).
  apply obind_returns in E as (person_id & _ & E).
  apply obind_returns in E as (firm_id & _ & E).
  apply obind_returns in E as (location_id & _ & E).
  apply obind_returns in E as (vote_count & Ev & E).
  apply obind_returns in E as (flags & Ef & E).
  injection E as <-. cbn [i_vote_count i_flags i_texts].
  destruct (FastColumns.vote_count_is_integer B row vote_count Ev) as [V1 V2].
  apply FastColumns.map_outcome_each in Ef.
  destruct (FastColumns.flags_each row _ _ Ef) as (F1 & F2 & F3).
  split; [exact V1|]. split; [exact V2|].
  split; [exact F1|]. split; [exact F2|].
  split; [|split].
  - intros c Hc Ha. apply F3; [exact Hc|].
    unfold get. now rewrite Ha.
  - intros c Hc Ha. apply F3; [exact Hc|].
    unfold get. now destruct Ha as [-> | ->].
  - reflexivity.
Qed.

Lemma fast_investor_row_columns_witness :
  exists r,
    ExportRelationalFast.investor_data plain_builtins [] [] [] 0
      [("claimed", VNaN); ("vote_count", VNaN)] = Returns r
    /\ i_vote_count r = VInt 0
    /\ In ("claimed", VBool true) (i_flags r)
    /\ In ("can_edit", VBool false) (i_flags r).
Proof.
  eexists. split; [reflexivity|].
  split; [|split].
  - apply (fast_investor_row_columns plain_builtins [] [] [] 0
             [("claimed", VNaN); ("vote_count", VNaN)] _ eq_refl).
    reflexivity.
  - apply (fast_investor_row_columns plain_builtins [] [] [] 0
             [("claimed", VNaN); ("vote_count", VNaN)] _ eq_refl).
    + now left.
    + reflexivity.
  - apply (fast_investor_row_columns plain_builtins [] [] [] 0
             [("claimed", VNaN); ("vote_count", VNaN)] _ eq_refl).
    + right. now left.
    + now left.
Defined.

(** ** complete_population.py, whole runs *)

Module CompletePopulationRun.
Import CompletePopulation Views.

(** The person of a record never resolves, so the registry of persons
    plays no part in the extraction. *)
Lemma extract_from_any_map person_map df : forall idx,
  extract_from person_map idx df = extract_from [] idx df.
Proof.
  induction df as [|row df IH]; intros idx; cbn [extract_from].
  - reflexivity.
  - now rewrite IH.
Qed.

Lemma cp_extract_row_no_career person_map idx row :
  moves (cp_grows no_career) (extract_row person_map idx row).
Proof.
  apply CompletePopulationGrowth.cp_extract_row_grows;
    try (intros; exact I);
    intros p r E; rewrite CompletePopulationFacts.cp_person_never_resolves in E;
    discriminate.
Qed.

Lemma cp_extract_from_no_career person_map df : forall idx,
  moves (cp_grows no_career) (extract_from person_map idx df).
Proof.
  pose proof (CompletePopulationGrowth.cp_grows_preorder no_career) as HR.
  induction df as [|row df IH]; intros idx; cbn [extract_from].
  - apply (RunFacts.moves_ret _ HR).
  - apply (RunFacts.moves_bind _ HR).
    + apply cp_extract_row_no_career.
    + intros _. apply IH.
Qed.

Lemma extracted_no_career person_map df idx b :
  all_positions (fst (extract_from person_map idx df b)) = all_positions b
  /\ all_degrees (fst (extract_from person_map idx df b)) = all_degrees b.
Proof.
  destruct (cp_extract_from_no_career person_map df idx b) as (G1 & G2 & _).
  apply extends_never in G1, G2. now split.
Qed.

(** The run as a whole: the eight tables are emptied, the frame is
    gone through, and either the six lists are written or, when a record
    raised, nothing is. *)
Lemma run_form df db :
  process_all_nested_data df db
  = match extract_all [] df no_batches with
    | (b, Returns _) =>
        (to_sql_investments (all_investments b)
           (to_sql_media_links (all_media b)
              (to_sql_image_urls (all_images b)
                 (to_sql_investor_stages (all_stages b)
                    (to_sql_investment_locations (all_locations b)
                       (to_sql_areas_of_interest (all_areas b)
                          (clear_nested db)))))),
         Returns tt)
    | (_, Raises e) => (clear_nested db, Raises e)
    end.
Proof.
  unfold process_all_nested_data.
  rewrite Steps.modify_then, Steps.gets_then.
  unfold extract_all. rewrite extract_from_any_map.
  pose proof (extracted_no_career [] df 0 no_batches) as [Hp Hd].
  destruct (extract_from [] 0 df no_batches) as [b [u|e]].
  - rewrite Steps.lift_returns, !Steps.modify_then.
    cbn [fst all_positions all_degrees no_batches] in Hp, Hd.
    rewrite Hp, Hd. reflexivity.
  - now rewrite Steps.lift_raises.
Qed.

Lemma truncated_then_written {A} (rs : list A) (t : table A) :
  contents (append_all rs (truncate t)) = rs
  /\ ids (append_all rs (truncate t)) = seq (next_id t) (List.length rs)
  /\ List.length (rows (append_all rs (truncate t))) = List.length rs
  /\ next_id (append_all rs (truncate t)) = next_id t + List.length rs.
Proof.
  rewrite TableFacts.contents_append_all, TableFacts.ids_append_all,
    TableFacts.next_id_append_all.
  destruct (StorageFacts.append_all_spec rs (truncate t)) as [R _].
  rewrite R. cbn [truncate rows next_id contents ids map app].
  repeat split.
  rewrite length_combine, length_seq. apply Nat.min_id.
Qed.

Lemma written_again {A} (rs : list A) (t : table A) :
  stored_again (append_all rs (truncate t))
    (append_all rs (truncate (append_all rs (truncate t)))).
Proof.
  destruct (truncated_then_written rs t) as (C1 & I1 & L1 & N1).
  destruct (truncated_then_written rs (append_all rs (truncate t)))
    as (C2 & I2 & _ & _).
  split.
  - now rewrite C2, C1.
  - now rewrite I2, L1.
Qed.

End CompletePopulationRun.

(** X11.  [process_all_nested_data] of [complete_population.py] never
    stores a position, a degree, a company or a school.  It reads the
    person of a record with [safe_get(row, 'person', {})] from a Series,
    which answers the empty dict, so [person_id] stays None and the two
    sections under [if person_id:] are never entered.  Whatever the frame
    and the database, and whether the run returns or raises, [positions]
    and [degrees] end empty (they are emptied at the start), [companies]
    and [schools] are as they were, and so are [persons], [firms],
    [locations] and [investors], which the script only reads. *)
Theorem complete_population_stores_no_career :
  forall (df : list (list (string * pyval))) (db : database),
    let db' := fst (CompletePopulation.process_all_nested_data df db) in
    rows (positions db') = []
    /\ rows (degrees db') = []
    /\ companies db' = companies db
    /\ schools db' = schools db
    /\ persons db' = persons db
    /\ firms db' = firms db
    /\ locations db' = locations db
    /\ investors db' = investors db.
Proof.
  intros df db. cbv zeta. rewrite CompletePopulationRun.run_form.
  destruct (CompletePopulation.extract_all [] df CompletePopulation.no_batches)
    as [b [u|e]]; cbn [fst]; repeat split.
Qed.

(** X12.  When the loop of [complete_population.py] raises, the eight
    nested tables are left empty.  The tables are emptied, and the
    emptying committed, before the frame is read, and they are written
    only after the whole frame has been gone through; the loop has no
    handler.  So when the body raises for some record, the function ends
    with that exception, the rows that the tables held before the run
    are gone and nothing has been stored in their place; the sequences
    keep their values and no other table is touched.  (A write that
    fails after the loop is another matter: tables written before it
    stay written.) *)
Theorem complete_population_failure_empties_tables :
  forall (df : list (list (string * pyval))) (db : database)
         (person_map : registry) (e : exn),
    snd (CompletePopulation.extract_all person_map df
           CompletePopulation.no_batches) = Raises e ->
    snd (CompletePopulation.process_all_nested_data df db) = Raises e
    /\ (let db' := fst (CompletePopulation.process_all_nested_data df db) in
        db' = CompletePopulation.clear_nested db
        /\ rows (areas_of_interest db') = []
        /\ rows (investment_locations db') = []
        /\ rows (investor_stages db') = []
        /\ rows (image_urls db') = []
        /\ rows (media_links db') = []
        /\ rows (investments db') = []
        /\ rows (positions db') = []
        /\ rows (degrees db') = []
        /\ next_id (areas_of_interest db') = next_id (areas_of_interest db)).
Proof.
  intros df db person_map e H. cbv zeta.
  rewrite CompletePopulationRun.run_form.
  unfold CompletePopulation.extract_all in *.
  rewrite CompletePopulationRun.extract_from_any_map in H.
  destruct (CompletePopulation.extract_from [] 0 df CompletePopulation.no_batches)
    as [b [u|e']]; cbn [fst snd] in *; [discriminate|].
  injection H as ->. repeat split.
Qed.

Lemma complete_population_failure_empties_tables_witness :
  let stored :=
    to_sql_areas_of_interest
      [{| kr_investor_id := 1; kr_kind := VStr "sector";
          kr_display_name := VStr "Fintech" |}] fresh in
  rows (areas_of_interest stored) <> []
  /\ rows (areas_of_interest
       (fst (CompletePopulation.process_all_nested_data
               [plain_record; unserialisable_record] stored))) = [].
Proof.
  split; [discriminate|].
  apply (complete_population_failure_empties_tables
           [plain_record; unserialisable_record]
           (to_sql_areas_of_interest
              [{| kr_investor_id := 1; kr_kind := VStr "sector";
                  kr_display_name := VStr "Fintech" |}] fresh)
           [] TypeError).
  reflexivity.
Defined.

(** X13.  Running [complete_population.py] a second time on the same
    frame does not duplicate anything: when a run returns, the next run
    on the same frame returns as well and each of the six tables it
    writes holds the same rows in the same order.  The ids are new ones:
    [TRUNCATE] leaves the sequences where they are, so the second run
    numbers its rows from where the first one stopped. *)
Theorem complete_population_rerun_stores_again :
  forall (df : list (list (string * pyval))) (db db1 : database),
    CompletePopulation.process_all_nested_data df db = (db1, Returns tt) ->
    exists db2,
      CompletePopulation.process_all_nested_data df db1 = (db2, Returns tt)
      /\ Views.stored_again (areas_of_interest db1) (areas_of_interest db2)
      /\ Views.stored_again (investment_locations db1) (investment_locations db2)
      /\ Views.stored_again (investor_stages db1) (investor_stages db2)
      /\ Views.stored_again (image_urls db1) (image_urls db2)
      /\ Views.stored_again (media_links db1) (media_links db2)
      /\ Views.stored_again (investments db1) (investments db2).
Proof.
  intros df db db1. rewrite !CompletePopulationRun.run_form.
  destruct (CompletePopulation.extract_all [] df CompletePopulation.no_batches)
    as [b [u|e]]; [|discriminate].
  intros [= <-]. eexists. split; [reflexivity|].
  cbn [areas_of_interest investment_locations investor_stages image_urls
       media_links investments
       to_sql_investments to_sql_media_links to_sql_image_urls
       to_sql_investor_stages to_sql_investment_locations
       to_sql_areas_of_interest
       set_investments set_media_links set_image_urls set_investor_stages
       set_investment_locations set_areas_of_interest
       CompletePopulation.clear_nested set_positions set_degrees].
  repeat split; apply CompletePopulationRun.written_again.
Qed.

Lemma complete_population_rerun_stores_again_witness :
  exists db1 db2,
    CompletePopulation.process_all_nested_data [plain_record] fresh
    = (db1, Returns tt)
    /\ CompletePopulation.process_all_nested_data [plain_record] db1
       = (db2, Returns tt)
    /\ ids (areas_of_interest db1) = [1]
    /\ ids (areas_of_interest db2) = [2]
    /\ contents (areas_of_interest db2) = contents (areas_of_interest db1).
Proof.
  eexists.
  destruct (complete_population_rerun_stores_again [plain_record] fresh _ eq_refl)
    as (db2 & E & (C & I) & _).
  exists db2. split; [reflexivity|]. split; [exact E|].
  split; [reflexivity|]. split; [exact I | exact C].
Defined.

(** ** Loops that append *)

Module LoopFacts.

(** [for x in l: if c(x): batch.append(mk(x))] *)
Lemma for_each_pushes {S X R} (c : X -> bool) (mk : X -> R)
    (push : R -> S -> S) (l : list X) : forall s,
  for_each l (fun x => when (c x) (modify (push (mk x)))) s
  = (fold_left (fun s r => push r s) (map mk (filter c l)) s, Returns tt).
Proof.
  induction l as [|x l IH]; intros s; cbn [for_each filter].
  - reflexivity.
  - destruct (c x); cbn [when].
    + rewrite Steps.modify_then. cbn [map fold_left]. apply IH.
    + rewrite Steps.ret_then. apply IH.
Qed.

(** The same with a test that can raise: when the loop returns, it has
    appended for the elements that passed. *)
Lemma for_each_pushes_checked {S X R} (t : X -> outcome bool) (c : X -> bool)
    (mk : X -> R) (push : R -> S -> S) (l : list X) : forall s s' u,
  for_each l (fun x => bind (lift (t x))
                         (fun b => when (b && c x) (modify (push (mk x))))) s
  = (s', Returns u) ->
  s' = fold_left (fun s r => push r s)
         (map mk (filter (fun x => match t x with
                                   | Returns b => b && c x
                                   | Raises _ => false
                                   end) l)) s.
Proof.
  induction l as [|x l IH]; intros s s' u E; cbn [for_each filter] in *.
  - now injection E as <-.
  - apply Steps.bind_returned in E as (s1 & [] & E1 & E).
    destruct (t x) as [b|e].
    + rewrite Steps.lift_returns in E1.
      destruct (b && c x); cbn [when] in E1.
      * injection E1 as <-. cbn [map fold_left]. eapply IH; eassumption.
      * injection E1 as <-. eapply IH; eassumption.
    + discriminate.
Qed.

Lemma truthy_text (l : list pyval) :
  filter (fun x => match truthy x with
                   | Returns b => b && is_str x
                   | Raises _ => false
                   end) l
  = filter Views.nonempty_text l.
Proof.
  apply filter_ext. intros x.
  destruct x as [| |b|z|s|l'|l'|d|d]; cbn [truthy is_str Views.nonempty_text];
    try reflexivity; try (now rewrite andb_false_r).
  - now rewrite andb_true_r.
  - destruct l' as [|y [|? ?]]; try reflexivity.
    destruct (truthy y); [now rewrite andb_false_r | reflexivity].
Qed.

End LoopFacts.

(** ** What complete_population.py extracts *)

Module CompletePopulationForms.
Import CompletePopulation Views.

Lemma fold_push_area l : forall b,
  fold_left (fun b r => push_area r b) l b
  = {| all_positions := all_positions b; all_degrees := all_degrees b;
       all_investments := all_investments b; all_areas := all_areas b ++ l;
       all_locations := all_locations b; all_stages := all_stages b;
       all_images := all_images b; all_media := all_media b |}.
Proof.
  induction l as [|r l IH]; intros b; cbn [fold_left].
  - rewrite app_nil_r. now destruct b.
  - rewrite IH. cbn. now rewrite <- app_assoc.
Qed.

Lemma fold_push_location l : forall b,
  fold_left (fun b r => push_location r b) l b
  = {| all_positions := all_positions b; all_degrees := all_degrees b;
       all_investments := all_investments b; all_areas := all_areas b;
       all_locations := all_locations b ++ l; all_stages := all_stages b;
       all_images := all_images b; all_media := all_media b |}.
Proof.
  induction l as [|r l IH]; intros b; cbn [fold_left].
  - rewrite app_nil_r. now destruct b.
  - rewrite IH. cbn. now rewrite <- app_assoc.
Qed.

Lemma fold_push_stage l : forall b,
  fold_left (fun b r => push_stage r b) l b
  = {| all_positions := all_positions b; all_degrees := all_degrees b;
       all_investments := all_investments b; all_areas := all_areas b;
       all_locations := all_locations b; all_stages := all_stages b ++ l;
       all_images := all_images b; all_media := all_media b |}.
Proof.
  induction l as [|r l IH]; intros b; cbn [fold_left].
  - rewrite app_nil_r. now destruct b.
  - rewrite IH. cbn. now rewrite <- app_assoc.
Qed.

Lemma fold_push_image l : forall b,
  fold_left (fun b r => push_image r b) l b
  = {| all_positions := all_positions b; all_degrees := all_degrees b;
       all_investments := all_investments b; all_areas := all_areas b;
       all_locations := all_locations b; all_stages := all_stages b;
       all_images := all_images b ++ l; all_media := all_media b |}.
Proof.
  induction l as [|r l IH]; intros b; cbn [fold_left].
  - rewrite app_nil_r. now destruct b.
  - rewrite IH. cbn. now rewrite <- app_assoc.
Qed.

Lemma fold_push_media l : forall b,
  fold_left (fun b r => push_media r b) l b
  = {| all_positions := all_positions b; all_degrees := all_degrees b;
       all_investments := all_investments b; all_areas := all_areas b;
       all_locations := all_locations b; all_stages := all_stages b;
       all_images := all_images b; all_media := all_media b ++ l |}.
Proof.
  induction l as [|r l IH]; intros b; cbn [fold_left].
  - rewrite app_nil_r. now destruct b.
  - rewrite IH. cbn. now rewrite <- app_assoc.
Qed.

Lemma kind_step_form f push inv row b :
  kind_step f push inv row b
  = (fold_left (fun b r => push r b) (kind_rows inv (get row f VNone)) b,
     Returns tt).
Proof.
  unfold kind_step, kind_rows.
  destruct (get row f VNone) as [| | | | | |l| |]; try reflexivity.
  destruct l as [|x l]; [reflexivity|].
  cbn [is_valid_array nonempty when elements].
  apply (LoopFacts.for_each_pushes is_dict
           (fun item => {| kr_investor_id := inv;
                           kr_kind := safe_get item "kind" VNone;
                           kr_display_name := safe_get item "display_name" VNone |})
           push (x :: l) b).
Qed.

Lemma media_step_form inv row b :
  media_step inv row b
  = (fold_left (fun b r => push_media r b)
       (media_rows inv (get row "media_links" VNone)) b, Returns tt).
Proof.
  unfold media_step, media_rows.
  destruct (get row "media_links" VNone) as [| | | | | |l| |]; try reflexivity.
  destruct l as [|x l]; [reflexivity|].
  cbn [is_valid_array nonempty when elements].
  apply (LoopFacts.for_each_pushes is_dict
           (fun m => {| ml_investor_id := inv;
                        ml_url := safe_get m "url" VNone;
                        ml_title := safe_get m "title" VNone;
                        ml_image_url := safe_get m "image_url" VNone |})
           push_media (x :: l) b).
Qed.

Lemma image_step_form f e inv row b b' u :
  image_step f e inv row b = (b', Returns u) ->
  b' = fold_left (fun b r => push_image r b)
         (image_rows e inv (get row f VNone)) b.
Proof.
  unfold image_step, image_rows.
  destruct (get row f VNone) as [| | | | | |l| |];
    try (intros [= <-]; reflexivity).
  destruct l as [|x l]; [intros [= <-]; reflexivity|].
  cbn [is_valid_array nonempty when elements]. intros E.
  rewrite <- LoopFacts.truthy_text.
  apply (LoopFacts.for_each_pushes_checked truthy is_str
           (fun url => {| im_investor_id := inv; im_url := url;
                          im_is_edit_mode := e |})
           push_image (x :: l) b b' u E).
Qed.

Lemma investments_step_frame inv row b b' o :
  investments_step inv row b = (b', o) ->
  all_areas b' = all_areas b /\ all_locations b' = all_locations b
  /\ all_stages b' = all_stages b /\ all_images b' = all_images b
  /\ all_media b' = all_media b.
Proof.
  intros E.
  destruct (CompletePopulationGrowth.cp_investments_step_grows
              investments_only inv row (fun _ _ => I) b)
    as (_ & _ & _ & G1 & G2 & G3 & G4 & G5).
  rewrite E in G1, G2, G3, G4, G5. cbn [fst] in G1, G2, G3, G4, G5.
  apply extends_never in G1, G2, G3, G4, G5. now repeat split.
Qed.

Ltac projections E :=
  pose proof (f_equal all_areas E); pose proof (f_equal all_locations E);
  pose proof (f_equal all_stages E); pose proof (f_equal all_images E);
  pose proof (f_equal all_media E); clear E;
  cbn [all_areas all_locations all_stages all_images all_media] in *.

(** What the body of the loop appends for one record, when it returns. *)
Lemma extract_row_form person_map idx row b b' u :
  extract_row person_map idx row b = (b', Returns u) ->
  all_areas b'
  = all_areas b ++ kind_rows (idx + 1) (get row "areas_of_interest" VNone)
  /\ all_locations b'
     = all_locations b
       ++ kind_rows (idx + 1) (get row "investment_locations" VNone)
  /\ all_stages b'
     = all_stages b ++ kind_rows (idx + 1) (get row "stages" VNone)
  /\ all_images b'
     = all_images b
       ++ image_rows false (idx + 1) (get row "image_urls" VNone)
       ++ image_rows true (idx + 1) (get row "image_urls_edit_mode" VNone)
  /\ all_media b'
     = all_media b ++ media_rows (idx + 1) (get row "media_links" VNone).
Proof.
  intros E. unfold extract_row in E. cbv zeta in E.
  rewrite CompletePopulationFacts.cp_person_never_resolves in E.
  rewrite Steps.lift_returns in E.
  apply Steps.bind_returned in E as (b1 & u1 & E1 & E).
  rewrite kind_step_form, fold_push_area in E1. injection E1 as E1.
  apply Steps.bind_returned in E as (b2 & u2 & E2 & E).
  rewrite kind_step_form, fold_push_location in E2. injection E2 as E2.
  apply Steps.bind_returned in E as (b3 & u3 & E3 & E).
  rewrite kind_step_form, fold_push_stage in E3. injection E3 as E3.
  apply Steps.bind_returned in E as (b4 & u4 & E4 & E).
  apply image_step_form in E4. rewrite fold_push_image in E4. symmetry in E4.
  apply Steps.bind_returned in E as (b5 & u5 & E5 & E).
  apply image_step_form in E5. rewrite fold_push_image in E5. symmetry in E5.
  apply Steps.bind_returned in E as (b6 & u6 & E6 & E).
  rewrite media_step_form, fold_push_media in E6. injection E6 as E6.
  rewrite Steps.ret_then in E.
  apply investments_step_frame in E as (F1 & F2 & F3 & F4 & F5).
  projections E1. projections E2. projections E3. projections E4.
  projections E5. projections E6.
  rewrite app_assoc. repeat split; congruence.
Qed.

Lemma extract_from_form person_map df : forall idx b b' u,
  extract_from person_map idx df b = (b', Returns u) ->
  all_areas b'
  = all_areas b
    ++ flat_map (fun ir => kind_rows (fst ir + 1)
                             (get (snd ir) "areas_of_interest" VNone))
         (iterrows idx df)
  /\ all_locations b'
     = all_locations b
       ++ flat_map (fun ir => kind_rows (fst ir + 1)
                                (get (snd ir) "investment_locations" VNone))
            (iterrows idx df)
  /\ all_stages b'
     = all_stages b
       ++ flat_map (fun ir => kind_rows (fst ir + 1)
                                (get (snd ir) "stages" VNone))
            (iterrows idx df)
  /\ all_images b'
     = all_images b
       ++ flat_map (fun ir =>
                      image_rows false (fst ir + 1)
                        (get (snd ir) "image_urls" VNone)
                      ++ image_rows true (fst ir + 1)
                           (get (snd ir) "image_urls_edit_mode" VNone))
            (iterrows idx df)
  /\ all_media b'
     = all_media b
       ++ flat_map (fun ir => media_rows (fst ir + 1)
                                (get (snd ir) "media_links" VNone))
            (iterrows idx df).
Proof.
  induction df as [|row df IH]; intros idx b b' u E; cbn [extract_from] in E.
  - injection E as <-. cbn. now rewrite !app_nil_r.
  - apply Steps.bind_returned in E as (b1 & u1 & E1 & E).
    apply extract_row_form in E1 as (A1 & A2 & A3 & A4 & A5).
    apply IH in E as (B1 & B2 & B3 & B4 & B5).
    rewrite FastDimensions.iterrows_cons. cbn [flat_map fst snd].
    rewrite B1, B2, B3, B4, B5, A1, A2, A3, A4, A5.
    now rewrite <- !app_assoc.
Qed.

End CompletePopulationForms.

(** X14.  What a run of [complete_population.py] that returns has
    stored in five of its tables, read off the frame.  [areas_of_interest],
    [investment_locations] and [investor_stages] hold one row for each
    dict of the record's array, [media_links] likewise, and [image_urls]
    one row for each non-empty string of [image_urls] (not in edit mode)
    followed by one for each of [image_urls_edit_mode] (in edit mode);
    the rows come in the order of the frame and, within a record, of its
    array, each under the ordinal of its record counted from 1.  An
    element of another type, and a cell that is not an array, add
    nothing. *)
Theorem complete_population_stores_these_rows :
  forall (df : list (list (string * pyval))) (db db1 : database),
    CompletePopulation.process_all_nested_data df db = (db1, Returns tt) ->
    contents (areas_of_interest db1)
    = flat_map (fun ir => Views.kind_rows (fst ir + 1)
                            (get (snd ir) "areas_of_interest" VNone))
        (Views.iterrows 0 df)
    /\ contents (investment_locations db1)
       = flat_map (fun ir => Views.kind_rows (fst ir + 1)
                               (get (snd ir) "investment_locations" VNone))
           (Views.iterrows 0 df)
    /\ contents (investor_stages db1)
       = flat_map (fun ir => Views.kind_rows (fst ir + 1)
                               (get (snd ir) "stages" VNone))
           (Views.iterrows 0 df)
    /\ contents (image_urls db1)
       = flat_map (fun ir =>
                     Views.image_rows false (fst ir + 1)
                       (get (snd ir) "image_urls" VNone)
                     ++ Views.image_rows true (fst ir + 1)
                          (get (snd ir) "image_urls_edit_mode" VNone))
           (Views.iterrows 0 df)
    /\ contents (media_links db1)
       = flat_map (fun ir => Views.media_rows (fst ir + 1)
                               (get (snd ir) "media_links" VNone))
           (Views.iterrows 0 df).
Proof.
  intros df db db1. rewrite CompletePopulationRun.run_form.
  unfold CompletePopulation.extract_all.
  destruct (CompletePopulation.extract_from [] 0 df CompletePopulation.no_batches)
    as [b [u|e]] eqn:E; [|discriminate].
  intros [= <-].
  apply CompletePopulationForms.extract_from_form in E
    as (A1 & A2 & A3 & A4 & A5).
  cbn [CompletePopulation.no_batches CompletePopulation.all_areas
       CompletePopulation.all_locations CompletePopulation.all_stages
       CompletePopulation.all_images CompletePopulation.all_media app]
    in A1, A2, A3, A4, A5.
  cbn [areas_of_interest investment_locations investor_stages image_urls
       media_links investments
       to_sql_investments to_sql_media_links to_sql_image_urls
       to_sql_investor_stages to_sql_investment_locations
       to_sql_areas_of_interest
       set_investments set_media_links set_image_urls set_investor_stages
       set_investment_locations set_areas_of_interest
       CompletePopulation.clear_nested set_positions set_degrees].
  rewrite <- A1, <- A2, <- A3, <- A4, <- A5.
  repeat split; apply CompletePopulationRun.truncated_then_written.
Qed.

Lemma complete_population_stores_these_rows_witness :
  contents (areas_of_interest
     (fst (CompletePopulation.process_all_nested_data
             [[("areas_of_interest", VNone)]; plain_record] fresh)))
  = [{| kr_investor_id := 2; kr_kind := VStr "sector";
        kr_display_name := VStr "Fintech" |}].
Proof.
  apply (complete_population_stores_these_rows
           [[("areas_of_interest", VNone)]; plain_record] fresh _ eq_refl).
Defined.

(** ** populate_nested_data_fixed.py, whole runs *)

Module FixedRun.
Import PopulateNestedDataFixed Views.
Local Open Scope run_scope.

(** The person never resolves: what is left of the body are the steps
    that need no person. *)
Lemma record_body_live B idx row :
  record_body B idx row
  = (investments_step (idx + 1) row ;;;
     kind_step "areas_of_interest" push_area (idx + 1) row ;;;
     kind_step "investment_locations" push_location (idx + 1) row ;;;
     kind_step "stages" push_stage (idx + 1) row ;;;
     image_step "image_urls" false (idx + 1) row ;;;
     image_step "image_urls_edit_mode" true (idx + 1) row ;;;
     media_step (idx + 1) row).
Proof. reflexivity. Qed.

Lemma career_untouched_preorder : preorder career_untouched.
Proof.
  split.
  - intros s. now repeat split.
  - intros a b c (A1 & A2 & A3 & A4 & A5) (B1 & B2 & B3 & B4 & B5).
    unfold career_untouched. now rewrite B1, B2, B3, B4, B5.
Qed.

Lemma record_body_career B idx row :
  moves career_untouched (record_body B idx row).
Proof.
  rewrite record_body_live.
  unfold investments_step, kind_step, image_step, media_step.
  moves_auto career_untouched_preorder; now repeat split.
Qed.

Lemma guarded_career B idx row s : career_untouched s (guarded B idx row s).
Proof.
  unfold guarded. pose proof (record_body_career B idx row s) as H.
  destruct (record_body B idx row s) as [s' [u|e]]; cbn [fst] in H;
    [exact H|].
  destruct H as (H1 & H2 & H3 & H4 & H5). now repeat split.
Qed.

Lemma process_from_career B df : forall idx s,
  career_untouched s (process_from B idx df s).
Proof.
  induction df as [|row df IH]; intros idx s; cbn [process_from].
  - apply (pre_refl career_untouched_preorder).
  - eapply (pre_trans career_untouched_preorder);
      [apply guarded_career | apply IH].
Qed.

Lemma fixed_investments_step_frame inv row s :
  let s' := fst (investments_step inv row s) in
  areas_of_interest_batch s' = areas_of_interest_batch s
  /\ investment_locations_batch s' = investment_locations_batch s
  /\ investor_stages_batch s' = investor_stages_batch s
  /\ image_urls_batch s' = image_urls_batch s
  /\ media_links_batch s' = media_links_batch s
  /\ errors s' = errors s.
Proof.
  destruct (FixedGrowth.fixed_investments_step_grows
              investments_only inv row (fun _ _ => I) s)
    as (_ & _ & _ & G1 & G2 & G3 & G4 & G5).
  apply extends_never in G1, G2, G3, G4, G5.
  repeat split; try assumption.
  unfold investments_step.
  generalize s.
  assert (M : moves (fun a b : state => errors b = errors a)
                (investments_step inv row)).
  { assert (HR : preorder (fun a b : state => errors b = errors a))
      by (split; [reflexivity | intros a b c H1 H2; now rewrite H2]).
    unfold investments_step. moves_auto HR; reflexivity. }
  exact M.
Qed.

End FixedRun.

(** X15.  [process_nested_data] of [populate_nested_data_fixed.py] never
    stores a position, a degree, a company or a school either: the person
    of a record is read with [safe_get(row, 'person', {})] from a Series,
    so no person is ever looked up and the sections for positions and
    degrees are skipped for every record.  Whatever the frame and the
    database, [positions], [degrees], [companies] and [schools] come out
    of the run as they went in, the two registries end empty, and the
    tables the script does not write ([persons], [firms], [locations],
    [investors]) are untouched. *)
Theorem fixed_stores_no_career :
  forall (B : builtins) (df : list (list (string * pyval))) (db0 : database),
    let s := PopulateNestedDataFixed.process_nested_data B df db0 in
    positions (PopulateNestedDataFixed.db s) = positions db0
    /\ degrees (PopulateNestedDataFixed.db s) = degrees db0
    /\ companies (PopulateNestedDataFixed.db s) = companies db0
    /\ schools (PopulateNestedDataFixed.db s) = schools db0
    /\ persons (PopulateNestedDataFixed.db s) = persons db0
    /\ firms (PopulateNestedDataFixed.db s) = firms db0
    /\ locations (PopulateNestedDataFixed.db s) = locations db0
    /\ investors (PopulateNestedDataFixed.db s) = investors db0
    /\ PopulateNestedDataFixed.company_map s = []
    /\ PopulateNestedDataFixed.school_map s = [].
Proof.
  intros B df db0. cbv zeta.
  unfold PopulateNestedDataFixed.process_nested_data.
  destruct (FixedRun.process_from_career B df 0
              (PopulateNestedDataFixed.initial db0))
    as (H1 & H2 & H3 & H4 & H5).
  cbn [PopulateNestedDataFixed.initial PopulateNestedDataFixed.db
       PopulateNestedDataFixed.company_map PopulateNestedDataFixed.school_map
       PopulateNestedDataFixed.positions_batch
       PopulateNestedDataFixed.degrees_batch] in H1, H2, H3, H4, H5.
  unfold PopulateNestedDataFixed.final_bulk_insert.
  cbn [PopulateNestedDataFixed.db PopulateNestedDataFixed.set_db
       PopulateNestedDataFixed.company_map PopulateNestedDataFixed.school_map].
  rewrite H1, H2, H3, H4, H5. repeat split.
Qed.

(** X16.  Every investment row that the fixed script adds names its
    company: whatever the frame, the rows of [investments] after the run
    are those it held before followed by rows whose
    [company_display_name] is truthy.  An edge whose node has no name, or
    an empty one, adds no row. *)
Theorem fixed_adds_named_investments_only :
  forall (B : builtins) (df : list (list (string * pyval))) (db0 : database),
    let s := PopulateNestedDataFixed.process_nested_data B df db0 in
    exists added,
      contents (investments (PopulateNestedDataFixed.db s))
      = contents (investments db0) ++ added
      /\ Forall named added.
Proof.
  intros B df db0. cbv zeta.
  pose proof (FixedInvestments.collected_investments_are_named B df db0) as N.
  unfold PopulateNestedDataFixed.process_nested_data in *.
  destruct (FixedRun.process_from_career B df 0
              (PopulateNestedDataFixed.initial db0)) as (H1 & _).
  cbn [PopulateNestedDataFixed.initial PopulateNestedDataFixed.db] in H1.
  unfold PopulateNestedDataFixed.final_bulk_insert in *.
  cbn [PopulateNestedDataFixed.db PopulateNestedDataFixed.set_db
       PopulateNestedDataFixed.investments_batch] in *.
  rewrite H1.
  cbn [investments to_sql_media_links to_sql_image_urls to_sql_investor_stages
       to_sql_investment_locations to_sql_areas_of_interest to_sql_investments
       to_sql_degrees to_sql_positions
       set_media_links set_image_urls set_investor_stages
       set_investment_locations set_areas_of_interest set_investments
       set_degrees set_positions].
  rewrite TableFacts.contents_append_all.
  eexists. split; [reflexivity | exact N].
Qed.

(** X17.  In the fixed script a record that fails while its investments
    are read loses its other rows.  The investments come first among the
    sections that need no person, and the handler of the loop skips the
    rest of the body: when [investments_step] raises for a record, the
    record is reported under its index and none of its areas of interest,
    investment locations, stages, image URLs or media links is
    collected, however well-formed they are. *)
Theorem fixed_failed_investments_drop_the_record :
  forall (B : builtins) (idx : nat) (row : list (string * pyval))
         (s : PopulateNestedDataFixed.state) (e : exn),
    snd (PopulateNestedDataFixed.investments_step (idx + 1) row s) = Raises e ->
    let s' := PopulateNestedDataFixed.guarded B idx row s in
    PopulateNestedDataFixed.errors s'
    = PopulateNestedDataFixed.errors s ++ [(idx, e)]
    /\ PopulateNestedDataFixed.areas_of_interest_batch s'
       = PopulateNestedDataFixed.areas_of_interest_batch s
    /\ PopulateNestedDataFixed.investment_locations_batch s'
       = PopulateNestedDataFixed.investment_locations_batch s
    /\ PopulateNestedDataFixed.investor_stages_batch s'
       = PopulateNestedDataFixed.investor_stages_batch s
    /\ PopulateNestedDataFixed.image_urls_batch s'
       = PopulateNestedDataFixed.image_urls_batch s
    /\ PopulateNestedDataFixed.media_links_batch s'
       = PopulateNestedDataFixed.media_links_batch s.
Proof.
  intros B idx row s e H. cbv zeta.
  unfold PopulateNestedDataFixed.guarded.
  rewrite FixedRun.record_body_live.
  pose proof (FixedRun.fixed_investments_step_frame (idx + 1) row s) as F.
  cbv zeta in F.
  destruct (PopulateNestedDataFixed.investments_step (idx + 1) row s)
    as [s1 o] eqn:E.
  cbn [snd] in H. subst o. cbn [fst] in F.
  rewrite (RunFacts.bind_raises _ _ _ _ _ E).
  destruct F as (F1 & F2 & F3 & F4 & F5 & F6).
  cbn [PopulateNestedDataFixed.errors PopulateNestedDataFixed.set_errors
       PopulateNestedDataFixed.areas_of_interest_batch
       PopulateNestedDataFixed.investment_locations_batch
       PopulateNestedDataFixed.investor_stages_batch
       PopulateNestedDataFixed.image_urls_batch
       PopulateNestedDataFixed.media_links_batch].
  rewrite F6. now repeat split.
Qed.

Lemma fixed_failed_investments_drop_the_record_witness :
  let row := unserialisable_record ++ plain_record in
  let s' := PopulateNestedDataFixed.guarded plain_builtins 0 row
              (PopulateNestedDataFixed.initial fresh) in
  PopulateNestedDataFixed.errors s' = [(0, TypeError)]
  /\ PopulateNestedDataFixed.areas_of_interest_batch s' = [].
Proof.
  cbv zeta. split;
    apply (fixed_failed_investments_drop_the_record plain_builtins 0
             (unserialisable_record ++ plain_record)
             (PopulateNestedDataFixed.initial fresh) TypeError);
    reflexivity.
Defined.

(** ** Two runs in step *)

Module InStep.
Import Views.

Section Relation.
Context {S : Type} (R : S -> S -> Prop).

Lemma in_step_ret {A} (a : A) : in_step R (ret a).
Proof. intros s1 s2 H. now split. Qed.

Lemma in_step_lift {A} (o : outcome A) : in_step R (lift o).
Proof. intros s1 s2 H. now split. Qed.

Lemma in_step_modify (f : S -> S) :
  (forall s1 s2, R s1 s2 -> R (f s1) (f s2)) -> in_step R (modify f).
Proof. intros Hf s1 s2 H. split; [now apply Hf | reflexivity]. Qed.

Lemma in_step_bind {A B} (m : M S A) (f : A -> M S B) :
  in_step R m -> (forall a, in_step R (f a)) -> in_step R (bind m f).
Proof.
  intros Hm Hf s1 s2 H. unfold bind.
  destruct (Hm s1 s2 H) as [H1 H2].
  destruct (m s1) as [s1' o1], (m s2) as [s2' o2]. cbn [fst snd] in *.
  subst o2. destruct o1 as [a|e]; [now apply Hf | now split].
Qed.

Lemma in_step_when (c : bool) (m : M S unit) :
  in_step R m -> in_step R (when c m).
Proof. intros Hm. destruct c; [exact Hm | apply in_step_ret]. Qed.

Lemma in_step_for_each {X} (l : list X) (body : X -> M S unit) :
  (forall x, in_step R (body x)) -> in_step R (for_each l body).
Proof.
  intros Hb. induction l as [|x l IH]; cbn [for_each].
  - apply in_step_ret.
  - apply in_step_bind; [apply Hb | intros _; exact IH].
Qed.

End Relation.

End InStep.

Ltac in_step_auto :=
  repeat first
    [ apply InStep.in_step_ret
    | apply InStep.in_step_lift
    | apply InStep.in_step_bind; [ | intros ? ]
    | apply InStep.in_step_when
    | apply InStep.in_step_for_each; intros ?
    | apply InStep.in_step_modify; intros ? ? ? ].

(** ** Each record on its own (populate_nested_data_fixed.py) *)

Module FixedIndependence.
Import PopulateNestedDataFixed Views.

Ltac ahead_after_push :=
  match goal with
  | H : fixed_ahead _ _ _ |- fixed_ahead _ _ _ =>
      destruct H as (H1 & H2 & H3 & H4 & H5 & H6 & H7 & H8 & H9);
      unfold fixed_ahead; cbn;
      rewrite ?H1, ?H2, ?H3, ?H4, ?H5, ?H6, ?H7, ?H8, ?H9;
      rewrite <- ?app_assoc; repeat split
  end.

Lemma record_body_in_step B idx row pre :
  in_step (fixed_ahead pre) (record_body B idx row).
Proof.
  rewrite FixedRun.record_body_live.
  unfold investments_step, kind_step, image_step, media_step.
  in_step_auto; ahead_after_push.
Qed.

Lemma guarded_ahead B idx row pre s1 s2 :
  fixed_ahead pre s1 s2 ->
  fixed_ahead pre (guarded B idx row s1) (guarded B idx row s2).
Proof.
  intros H. unfold guarded.
  destruct (record_body_in_step B idx row pre s1 s2 H) as [H1 H2].
  destruct (record_body B idx row s1) as [s1' o1],
           (record_body B idx row s2) as [s2' o2].
  cbn [fst snd] in *. subst o2. destruct o1 as [u|e]; [exact H1|].
  clear H. rename H1 into H. ahead_after_push.
Qed.

Lemma ahead_of_nothing db0 s : fixed_ahead s (initial db0) s.
Proof. unfold fixed_ahead. cbn. now rewrite !app_nil_r. Qed.

(** The loop gathers, batch by batch, what each record yields on its
    own. *)
Lemma process_from_gathers B db0 df : forall idx s,
  let s' := process_from B idx df s in
  investments_batch s'
  = investments_batch s
    ++ flat_map (fun ir => investments_batch (alone B db0 ir)) (iterrows idx df)
  /\ areas_of_interest_batch s'
     = areas_of_interest_batch s
       ++ flat_map (fun ir => areas_of_interest_batch (alone B db0 ir))
            (iterrows idx df)
  /\ investment_locations_batch s'
     = investment_locations_batch s
       ++ flat_map (fun ir => investment_locations_batch (alone B db0 ir))
            (iterrows idx df)
  /\ investor_stages_batch s'
     = investor_stages_batch s
       ++ flat_map (fun ir => investor_stages_batch (alone B db0 ir))
            (iterrows idx df)
  /\ image_urls_batch s'
     = image_urls_batch s
       ++ flat_map (fun ir => image_urls_batch (alone B db0 ir))
            (iterrows idx df)
  /\ media_links_batch s'
     = media_links_batch s
       ++ flat_map (fun ir => media_links_batch (alone B db0 ir))
            (iterrows idx df)
  /\ errors s'
     = errors s ++ flat_map (fun ir => errors (alone B db0 ir)) (iterrows idx df).
Proof.
  induction df as [|row df IH]; intros idx s; cbn [process_from].
  - cbn. now rewrite !app_nil_r.
  - destruct (IH (S idx) (guarded B idx row s))
      as (I1 & I2 & I3 & I4 & I5 & I6 & I7).
    destruct (guarded_ahead B idx row s (initial db0) s (ahead_of_nothing db0 s))
      as (_ & _ & G1 & G2 & G3 & G4 & G5 & G6 & G7).
    cbv zeta. rewrite FastDimensions.iterrows_cons. cbn [flat_map].
    unfold alone at 1 3 5 7 9 11 13. cbn [fst snd].
    rewrite I1, I2, I3, I4, I5, I6, I7, G1, G2, G3, G4, G5, G6, G7.
    now rewrite <- !app_assoc.
Qed.

End FixedIndependence.

(** X18.  In [populate_nested_data_fixed.py] every record is handled on
    its own.  What the loop collects for a record, and whether it reports
    the record, does not depend on the records before it: when the loop
    ends, each of the six batches it fills holds, record by record in
    the order of the frame, the rows that the body of the loop yields
    for that record alone, and the log lists, in the same order, the
    records whose body raises when handled alone.  So a record that
    fails takes no row of another record with it, and leaves behind
    exactly the rows it had appended before it failed.  These batches
    are what the script then hands to the eight final writes. *)
Theorem fixed_records_are_independent :
  forall (B : builtins) (df : list (list (string * pyval))) (db0 : database),
    let s := PopulateNestedDataFixed.process_from B 0 df
               (PopulateNestedDataFixed.initial db0) in
    let each {A} (batch : PopulateNestedDataFixed.state -> list A) :=
      flat_map (fun ir => batch (Views.alone B db0 ir)) (Views.iterrows 0 df) in
    PopulateNestedDataFixed.investments_batch s
    = each PopulateNestedDataFixed.investments_batch
    /\ PopulateNestedDataFixed.areas_of_interest_batch s
       = each PopulateNestedDataFixed.areas_of_interest_batch
    /\ PopulateNestedDataFixed.investment_locations_batch s
       = each PopulateNestedDataFixed.investment_locations_batch
    /\ PopulateNestedDataFixed.investor_stages_batch s
       = each PopulateNestedDataFixed.investor_stages_batch
    /\ PopulateNestedDataFixed.image_urls_batch s
       = each PopulateNestedDataFixed.image_urls_batch
    /\ PopulateNestedDataFixed.media_links_batch s
       = each PopulateNestedDataFixed.media_links_batch
    /\ PopulateNestedDataFixed.errors s = each PopulateNestedDataFixed.errors.
Proof.
  intros B df db0. cbv zeta.
  destruct (FixedIndependence.process_from_gathers B db0 df 0
              (PopulateNestedDataFixed.initial db0))
    as (I1 & I2 & I3 & I4 & I5 & I6 & I7).
  cbn [PopulateNestedDataFixed.initial
       PopulateNestedDataFixed.investments_batch
       PopulateNestedDataFixed.areas_of_interest_batch
       PopulateNestedDataFixed.investment_locations_batch
       PopulateNestedDataFixed.investor_stages_batch
       PopulateNestedDataFixed.image_urls_batch
       PopulateNestedDataFixed.media_links_batch
       PopulateNestedDataFixed.errors app] in I1, I2, I3, I4, I5, I6, I7.
  repeat split; assumption.
Qed.

(** ** The two population scripts side by side *)

Module FixedForms.
Import PopulateNestedDataFixed Views.

Lemma fixed_fold_push_area l : forall s,
  fold_left (fun s r => push_area r s) l s
  = set_areas_of_interest_batch (areas_of_interest_batch s ++ l) s.
Proof.
  induction l as [|r l IH]; intros s; cbn [fold_left].
  - rewrite app_nil_r. now destruct s.
  - rewrite IH. cbn. now rewrite <- app_assoc.
Qed.

Lemma fixed_fold_push_location l : forall s,
  fold_left (fun s r => push_location r s) l s
  = set_investment_locations_batch (investment_locations_batch s ++ l) s.
Proof.
  induction l as [|r l IH]; intros s; cbn [fold_left].
  - rewrite app_nil_r. now destruct s.
  - rewrite IH. cbn. now rewrite <- app_assoc.
Qed.

Lemma fixed_fold_push_stage l : forall s,
  fold_left (fun s r => push_stage r s) l s
  = set_investor_stages_batch (investor_stages_batch s ++ l) s.
Proof.
  induction l as [|r l IH]; intros s; cbn [fold_left].
  - rewrite app_nil_r. now destruct s.
  - rewrite IH. cbn. now rewrite <- app_assoc.
Qed.

Lemma fixed_fold_push_image l : forall s,
  fold_left (fun s r => push_image r s) l s
  = set_image_urls_batch (image_urls_batch s ++ l) s.
Proof.
  induction l as [|r l IH]; intros s; cbn [fold_left].
  - rewrite app_nil_r. now destruct s.
  - rewrite IH. cbn. now rewrite <- app_assoc.
Qed.

Lemma fixed_fold_push_media l : forall s,
  fold_left (fun s r => push_media r s) l s
  = set_media_links_batch (media_links_batch s ++ l) s.
Proof.
  induction l as [|r l IH]; intros s; cbn [fold_left].
  - rewrite app_nil_r. now destruct s.
  - rewrite IH. cbn. now rewrite <- app_assoc.
Qed.

Lemma fixed_kind_step_form f push inv row s :
  kind_step f push inv row s
  = (fold_left (fun s r => push r s) (kind_rows inv (get row f VNone)) s,
     Returns tt).
Proof.
  unfold kind_step, kind_rows.
  destruct (get row f VNone) as [| | | | | |l| |]; try reflexivity.
  destruct l as [|x l]; [reflexivity|].
  cbn [is_valid_array nonempty when elements].
  apply (LoopFacts.for_each_pushes is_dict
           (fun item => {| kr_investor_id := inv;
                           kr_kind := safe_get item "kind" VNone;
                           kr_display_name := safe_get item "display_name" VNone |})
           push (x :: l) s).
Qed.

Lemma fixed_media_step_form inv row s :
  media_step inv row s
  = (fold_left (fun s r => push_media r s)
       (media_rows inv (get row "media_links" VNone)) s, Returns tt).
Proof.
  unfold media_step, media_rows.
  destruct (get row "media_links" VNone) as [| | | | | |l| |]; try reflexivity.
  destruct l as [|x l]; [reflexivity|].
  cbn [is_valid_array nonempty when elements].
  apply (LoopFacts.for_each_pushes is_dict
           (fun m => {| ml_investor_id := inv;
                        ml_url := safe_get m "url" VNone;
                        ml_title := safe_get m "title" VNone;
                        ml_image_url := safe_get m "image_url" VNone |})
           push_media (x :: l) s).
Qed.

Lemma fixed_image_step_form f e inv row s s' u :
  image_step f e inv row s = (s', Returns u) ->
  s' = fold_left (fun s r => push_image r s)
         (image_rows e inv (get row f VNone)) s.
Proof.
  unfold image_step, image_rows.
  destruct (get row f VNone) as [| | | | | |l| |];
    try (intros [= <-]; reflexivity).
  destruct l as [|x l]; [intros [= <-]; reflexivity|].
  cbn [is_valid_array nonempty when elements]. intros E.
  rewrite <- LoopFacts.truthy_text.
  apply (LoopFacts.for_each_pushes_checked truthy is_str
           (fun url => {| im_investor_id := inv; im_url := url;
                          im_is_edit_mode := e |})
           push_image (x :: l) s s' u E).
Qed.

Lemma fixed_investments_frame inv row s s' o :
  investments_step inv row s = (s', o) ->
  areas_of_interest_batch s' = areas_of_interest_batch s
  /\ investment_locations_batch s' = investment_locations_batch s
  /\ investor_stages_batch s' = investor_stages_batch s
  /\ image_urls_batch s' = image_urls_batch s
  /\ media_links_batch s' = media_links_batch s.
Proof.
  intros E. pose proof (FixedRun.fixed_investments_step_frame inv row s) as F.
  cbv zeta in F. rewrite E in F. cbn [fst] in F.
  destruct F as (F1 & F2 & F3 & F4 & F5 & _). now repeat split.
Qed.

Ltac fixed_projections E :=
  pose proof (f_equal areas_of_interest_batch E);
  pose proof (f_equal investment_locations_batch E);
  pose proof (f_equal investor_stages_batch E);
  pose proof (f_equal image_urls_batch E);
  pose proof (f_equal media_links_batch E); clear E;
  cbn [areas_of_interest_batch investment_locations_batch
       investor_stages_batch image_urls_batch media_links_batch
       set_areas_of_interest_batch set_investment_locations_batch
       set_investor_stages_batch set_image_urls_batch set_media_links_batch]
    in *.

(** What the body of the loop appends for one record, when it returns. *)
Lemma record_body_form B idx row s s' u :
  record_body B idx row s = (s', Returns u) ->
  areas_of_interest_batch s'
  = areas_of_interest_batch s
    ++ kind_rows (idx + 1) (get row "areas_of_interest" VNone)
  /\ investment_locations_batch s'
     = investment_locations_batch s
       ++ kind_rows (idx + 1) (get row "investment_locations" VNone)
  /\ investor_stages_batch s'
     = investor_stages_batch s ++ kind_rows (idx + 1) (get row "stages" VNone)
  /\ image_urls_batch s'
     = image_urls_batch s
       ++ image_rows false (idx + 1) (get row "image_urls" VNone)
       ++ image_rows true (idx + 1) (get row "image_urls_edit_mode" VNone)
  /\ media_links_batch s'
     = media_links_batch s ++ media_rows (idx + 1) (get row "media_links" VNone).
Proof.
  rewrite FixedRun.record_body_live. intros E.
  apply Steps.bind_returned in E as (s0 & u0 & E0 & E).
  apply fixed_investments_frame in E0 as (F1 & F2 & F3 & F4 & F5).
  apply Steps.bind_returned in E as (s1 & u1 & E1 & E).
  rewrite fixed_kind_step_form, fixed_fold_push_area in E1. injection E1 as E1.
  apply Steps.bind_returned in E as (s2 & u2 & E2 & E).
  rewrite fixed_kind_step_form, fixed_fold_push_location in E2. injection E2 as E2.
  apply Steps.bind_returned in E as (s3 & u3 & E3 & E).
  rewrite fixed_kind_step_form, fixed_fold_push_stage in E3. injection E3 as E3.
  apply Steps.bind_returned in E as (s4 & u4 & E4 & E).
  apply fixed_image_step_form in E4. rewrite fixed_fold_push_image in E4.
  symmetry in E4.
  apply Steps.bind_returned in E as (s5 & u5 & E5 & E).
  apply fixed_image_step_form in E5. rewrite fixed_fold_push_image in E5.
  symmetry in E5.
  rewrite fixed_media_step_form, fixed_fold_push_media in E. injection E as E.
  fixed_projections E1. fixed_projections E2. fixed_projections E3.
  fixed_projections E4. fixed_projections E5. fixed_projections E.
  rewrite app_assoc. repeat split; congruence.
Qed.

Lemma flat_map_nil {A B} (f : A -> list B) (l : list A) :
  flat_map f l = [] -> forall x, In x l -> f x = [].
Proof.
  induction l as [|a l IH]; cbn [flat_map]; intros E x Hx; [destruct Hx|].
  apply app_eq_nil in E as [E1 E2].
  destruct Hx as [<- | Hx]; [exact E1 | now apply IH].
Qed.

Lemma flat_map_same {A B} (f g : A -> list B) (l : list A) :
  (forall x, In x l -> f x = g x) -> flat_map f l = flat_map g l.
Proof.
  induction l as [|a l IH]; cbn [flat_map]; intros H; [reflexivity|].
  rewrite (H a (or_introl eq_refl)), IH; [reflexivity|].
  intros x Hx. apply H. now right.
Qed.

(** A record that is not reported yields, on its own, the rows its
    cells stand for. *)
Lemma alone_form B db0 ir :
  errors (alone B db0 ir) = [] ->
  areas_of_interest_batch (alone B db0 ir)
  = kind_rows (fst ir + 1) (get (snd ir) "areas_of_interest" VNone)
  /\ investment_locations_batch (alone B db0 ir)
     = kind_rows (fst ir + 1) (get (snd ir) "investment_locations" VNone)
  /\ investor_stages_batch (alone B db0 ir)
     = kind_rows (fst ir + 1) (get (snd ir) "stages" VNone)
  /\ image_urls_batch (alone B db0 ir)
     = image_rows false (fst ir + 1) (get (snd ir) "image_urls" VNone)
       ++ image_rows true (fst ir + 1)
            (get (snd ir) "image_urls_edit_mode" VNone)
  /\ media_links_batch (alone B db0 ir)
     = media_rows (fst ir + 1) (get (snd ir) "media_links" VNone).
Proof.
  unfold alone, guarded.
  destruct (record_body B (fst ir) (snd ir) (initial db0)) as [s' [u|e]] eqn:E.
  - intros _. apply record_body_form in E. exact E.
  - cbn [errors set_errors]. intros H.
    apply app_eq_nil in H as [_ H]. discriminate.
Qed.

(** The tables after the run, in terms of what the loop collected. *)
Lemma run_contents B df db0 :
  let s0 := process_from B 0 df (initial db0) in
  let s := process_nested_data B df db0 in
  contents (areas_of_interest (db s))
  = contents (areas_of_interest db0) ++ areas_of_interest_batch s0
  /\ contents (investment_locations (db s))
     = contents (investment_locations db0) ++ investment_locations_batch s0
  /\ contents (investor_stages (db s))
     = contents (investor_stages db0) ++ investor_stages_batch s0
  /\ contents (image_urls (db s))
     = contents (image_urls db0) ++ image_urls_batch s0
  /\ contents (media_links (db s))
     = contents (media_links db0) ++ media_links_batch s0
  /\ errors s = errors s0.
Proof.
  cbv zeta. unfold process_nested_data.
  destruct (FixedRun.process_from_career B df 0 (initial db0)) as (H1 & _).
  cbn [initial db] in H1.
  unfold final_bulk_insert. cbn [db set_db errors]. rewrite H1.
  cbn [investments areas_of_interest investment_locations investor_stages
       image_urls media_links
       to_sql_media_links to_sql_image_urls to_sql_investor_stages
       to_sql_investment_locations to_sql_areas_of_interest to_sql_investments
       to_sql_degrees to_sql_positions
       set_media_links set_image_urls set_investor_stages
       set_investment_locations set_areas_of_interest set_investments
       set_degrees set_positions].
  rewrite !TableFacts.contents_append_all. repeat split.
Qed.

End FixedForms.

(** X19.  The two population scripts collect the same rows for five
    tables.  Take a frame that the loop of [complete_population.py] gets
    through without raising and on which the loop of
    [populate_nested_data_fixed.py] reports no record.  Then the rows
    that the two scripts have collected for [areas_of_interest],
    [investment_locations], [investor_stages], [image_urls] and
    [media_links] when their loops end, and which they hand to the
    writes that follow, are the same in the same order, whatever the
    database and the persons registered in it.  (They differ on
    [investments]: the fixed script skips a node without a company name
    and stores an empty payload as text.) *)
Theorem population_scripts_agree :
  forall (B : builtins) (df : list (list (string * pyval)))
         (db0 : database) (person_map : registry)
         (b : CompletePopulation.batches) (u : unit),
    CompletePopulation.extract_all person_map df CompletePopulation.no_batches
    = (b, Returns u) ->
    let s := PopulateNestedDataFixed.process_from B 0 df
               (PopulateNestedDataFixed.initial db0) in
    PopulateNestedDataFixed.errors s = [] ->
    PopulateNestedDataFixed.areas_of_interest_batch s
    = CompletePopulation.all_areas b
    /\ PopulateNestedDataFixed.investment_locations_batch s
       = CompletePopulation.all_locations b
    /\ PopulateNestedDataFixed.investor_stages_batch s
       = CompletePopulation.all_stages b
    /\ PopulateNestedDataFixed.image_urls_batch s
       = CompletePopulation.all_images b
    /\ PopulateNestedDataFixed.media_links_batch s
       = CompletePopulation.all_media b.
Proof.
  intros B df db0 person_map b u Hcp. cbv zeta. intros Herr.
  (* complete_population.py *)
  unfold CompletePopulation.extract_all in Hcp.
  apply CompletePopulationForms.extract_from_form in Hcp
    as (A1 & A2 & A3 & A4 & A5).
  cbn [CompletePopulation.no_batches CompletePopulation.all_areas
       CompletePopulation.all_locations CompletePopulation.all_stages
       CompletePopulation.all_images CompletePopulation.all_media app]
    in A1, A2, A3, A4, A5.
  (* populate_nested_data_fixed.py *)
  destruct (FixedIndependence.process_from_gathers B db0 df 0
              (PopulateNestedDataFixed.initial db0))
    as (_ & I2 & I3 & I4 & I5 & I6 & I7).
  cbv zeta in I2, I3, I4, I5, I6, I7.
  cbn [PopulateNestedDataFixed.initial
       PopulateNestedDataFixed.areas_of_interest_batch
       PopulateNestedDataFixed.investment_locations_batch
       PopulateNestedDataFixed.investor_stages_batch
       PopulateNestedDataFixed.image_urls_batch
       PopulateNestedDataFixed.media_links_batch
       PopulateNestedDataFixed.errors app] in I2, I3, I4, I5, I6, I7.
  rewrite I7 in Herr.
  pose proof (FixedForms.flat_map_nil _ _ Herr) as Heach.
  rewrite I2, I3, I4, I5, I6, A1, A2, A3, A4, A5.
  repeat split; apply FixedForms.flat_map_same; intros ir Hir;
    apply (FixedForms.alone_form B db0 ir (Heach ir Hir)).
Qed.

Lemma population_scripts_agree_witness :
  exists b,
    CompletePopulation.extract_all [] [plain_record; orphan_record]
      CompletePopulation.no_batches = (b, Returns tt)
    /\ PopulateNestedDataFixed.areas_of_interest_batch
         (PopulateNestedDataFixed.process_from plain_builtins 0
            [plain_record; orphan_record]
            (PopulateNestedDataFixed.initial fresh))
       = CompletePopulation.all_areas b.
Proof.
  eexists. split; [reflexivity|].
  apply (population_scripts_agree plain_builtins [plain_record; orphan_record]
           fresh [] _ tt eq_refl).
  reflexivity.
Defined.

(** ** The flat export (export_to_postgres.py) *)

Module JsonFacts.
Import Views.

(** Induction on a value and on everything it holds. *)
Lemma pyval_nested_ind (P : pyval -> Prop) :
  P VNone -> P VNaN -> (forall b, P (VBool b)) -> (forall z, P (VInt z)) ->
  (forall s, P (VStr s)) ->
  (forall l, Forall P l -> P (VList l)) ->
  (forall l, Forall P l -> P (VArr l)) ->
  (forall d, Forall (fun kv => P (snd kv)) d -> P (VDict d)) ->
  (forall d, Forall (fun kv => P (snd kv)) d -> P (VSeries d)) ->
  forall v, P v.
Proof.
  intros HN HNaN HB HI HS HL HA HD HSe.
  fix IH 1. intros v.
  destruct v as [| |b|z|s|l|l|d|d].
  - exact HN.
  - exact HNaN.
  - apply HB.
  - apply HI.
  - apply HS.
  - apply HL. induction l as [|x l IHl]; constructor; [apply IH | exact IHl].
  - apply HA. induction l as [|x l IHl]; constructor; [apply IH | exact IHl].
  - apply HD. induction d as [|[k x] d IHd]; constructor;
      [apply IH | exact IHd].
  - apply HSe. induction d as [|[k x] d IHd]; constructor;
      [apply IH | exact IHd].
Qed.

(** [json.dumps] returns on the values that hold no array, and raises a
    TypeError on the others. *)
Lemma json_dumps_jsonable v :
  if jsonable v then exists s, json_dumps v = Returns s
  else json_dumps v = Raises TypeError.
Proof.
  induction v as [| |b|z|s|l IH|l IH|d IH|d IH] using pyval_nested_ind;
    cbn [jsonable json_dumps]; try (eexists; reflexivity); try reflexivity.
  - destruct b; eexists; reflexivity.
  - induction IH as [|x l Hx Hl IHl]; cbn [forallb].
    + eexists. reflexivity.
    + destruct (jsonable x); cbn [andb].
      * destruct Hx as [sx ->]. cbn [obind].
        destruct (forallb jsonable l).
        -- destruct IHl as [sl E].
           destruct ((fix items (l : list pyval) : outcome (list string) :=
                        match l with
                        | [] => Returns []
                        | x :: r =>
                            obind (json_dumps x) (fun s =>
                            obind (items r) (fun ss => Returns (s :: ss)))
                        end) l) as [ss|e]; [|discriminate].
           eexists. reflexivity.
        -- destruct ((fix items (l : list pyval) : outcome (list string) :=
                        match l with
                        | [] => Returns []
                        | x :: r =>
                            obind (json_dumps x) (fun s =>
                            obind (items r) (fun ss => Returns (s :: ss)))
                        end) l) as [ss|e]; [discriminate|].
           cbn [obind] in *. exact IHl.
      * rewrite Hx. reflexivity.
  - induction IH as [|[k x] d Hx Hd IHd]; cbn [forallb].
    + eexists. reflexivity.
    + cbn [snd] in *. destruct (jsonable x); cbn [andb].
      * destruct Hx as [sx ->]. cbn [obind].
        destruct (forallb (fun kv => jsonable (snd kv)) d).
        -- destruct IHd as [sl E].
           destruct ((fix members (d : list (string * pyval))
                        : outcome (list string) :=
                        match d with
                        | [] => Returns []
                        | (k, x) :: r =>
                            obind (json_dumps x) (fun s =>
                            obind (members r) (fun ss =>
                            Returns ((json_string k ++ ": " ++ s)%string :: ss)))
                        end) d) as [ss|e]; [|discriminate].
           eexists. reflexivity.
        -- destruct ((fix members (d : list (string * pyval))
                        : outcome (list string) :=
                        match d with
                        | [] => Returns []
                        | (k, x) :: r =>
                            obind (json_dumps x) (fun s =>
                            obind (members r) (fun ss =>
                            Returns ((json_string k ++ ": " ++ s)%string :: ss)))
                        end) d) as [ss|e]; [discriminate|].
           cbn [obind] in *. exact IHd.
      * rewrite Hx. reflexivity.
Qed.

End JsonFacts.

Module ExportToPostgresFacts.
Import ExportToPostgres Views.

Lemma serialized_dumps o : json_dumps (serialized o) = Returns (member_text o).
Proof. destruct o; reflexivity. Qed.

Lemma serialize_dict B d :
  safe_json_serialize B (VDict d)
  = match d with
    | [] => None
    | _ => dumps_or_str B
             (VDict (map (fun kv => (fst kv,
                                     serialized (safe_json_serialize B (snd kv))))
                       d))
    end.
Proof.
  destruct d as [|[k v] d]; [reflexivity|].
  cbn [safe_json_serialize map fst snd]. do 3 f_equal.
  induction d as [|[k' v'] d IH]; [reflexivity|].
  cbn [map fst snd]. now rewrite IH.
Qed.

Lemma serialize_list B l :
  safe_json_serialize B (VList l)
  = match l with
    | [] => None
    | _ => dumps_or_str B
             (VList (map (fun x => serialized (safe_json_serialize B x)) l))
    end.
Proof.
  destruct l as [|x l]; reflexivity.
Qed.

Lemma dumps_members (f : string * pyval -> option string) d :
  json_dumps (VDict (map (fun kv => (fst kv, serialized (f kv))) d))
  = Returns ("{" ++ String.concat ", "
                      (map (fun kv => json_string (fst kv) ++ ": "
                                      ++ member_text (f kv)) d)
                 ++ "}")%string.
Proof.
  cbn [json_dumps].
  match goal with
  | |- obind ?m _ = _ =>
      assert (E : m = Returns (map (fun kv => json_string (fst kv) ++ ": "
                                              ++ member_text (f kv))%string d))
  end.
  { induction d as [|[k v] d IH]; [reflexivity|].
    cbn [map fst]. rewrite serialized_dumps. cbn [obind].
    rewrite IH. reflexivity. }
  rewrite E. reflexivity.
Qed.

Lemma dumps_items (f : pyval -> option string) l :
  json_dumps (VList (map (fun x => serialized (f x)) l))
  = Returns ("[" ++ String.concat ", " (map (fun x => member_text (f x)) l)
                 ++ "]")%string.
Proof.
  cbn [json_dumps].
  match goal with
  | |- obind ?m _ = _ =>
      assert (E : m = Returns (map (fun x => member_text (f x)) l))
  end.
  { induction l as [|x l IH]; [reflexivity|].
    cbn [map]. rewrite serialized_dumps. cbn [obind].
    rewrite IH. reflexivity. }
  rewrite E. reflexivity.
Qed.

(** Nothing but a blank cell is written as None. *)
Lemma dumps_or_str_some B v :
  v <> VNone -> exists s, dumps_or_str B v = Some s.
Proof.
  intros H. unfold dumps_or_str.
  destruct (json_dumps v); [eexists; reflexivity|].
  destruct v; try (eexists; reflexivity). now elim H.
Qed.

Lemma serialize_blank B v :
  if blank_cell v then safe_json_serialize B v = None
  else exists s, safe_json_serialize B v = Some s.
Proof.
  destruct v as [| |b|z|s|l|l|d|d]; cbn [blank_cell]; try reflexivity.
  - apply dumps_or_str_some. discriminate.
  - apply dumps_or_str_some. discriminate.
  - destruct s; cbn [String.eqb]; [reflexivity|].
    apply dumps_or_str_some. discriminate.
  - rewrite serialize_list. destruct l; cbn [nonempty negb]; [reflexivity|].
    apply dumps_or_str_some. discriminate.
  - destruct l; cbn [nonempty negb]; [reflexivity|].
    apply dumps_or_str_some. discriminate.
  - rewrite serialize_dict. destruct d; cbn [nonempty negb]; [reflexivity|].
    apply dumps_or_str_some. discriminate.
  - destruct d; cbn [nonempty negb]; [reflexivity|].
    apply dumps_or_str_some. discriminate.
Qed.

End ExportToPostgresFacts.

(** X20.  What [safe_json_serialize] makes of a dict or a list that is
    not empty: it serialises every member on its own and then dumps the
    container of the results, so each member arrives as a JSON string
    holding the JSON text of the member, not as the member itself ([null]
    for a member that is None, NaN or empty).  An integer 3 under the key
    n comes out as the string 3 in quotes, a nested dict as a string with
    escaped quotes.  The function never falls back to [str] here, and
    never answers None. *)
Theorem nested_members_are_serialised_twice :
  forall (B : builtins),
    (forall d, d <> [] ->
       ExportToPostgres.safe_json_serialize B (VDict d)
       = Some ("{" ++ String.concat ", "
                        (map (fun kv =>
                                json_string (fst kv) ++ ": "
                                ++ Views.member_text
                                     (ExportToPostgres.safe_json_serialize B
                                        (snd kv))) d)
                   ++ "}")%string)
    /\ (forall l, l <> [] ->
          ExportToPostgres.safe_json_serialize B (VList l)
          = Some ("[" ++ String.concat ", "
                           (map (fun x =>
                                   Views.member_text
                                     (ExportToPostgres.safe_json_serialize B x))
                              l)
                      ++ "]")%string).
Proof.
  intros B. split.
  - intros d H. rewrite ExportToPostgresFacts.serialize_dict.
    destruct d as [|kv d]; [now elim H|].
    unfold ExportToPostgres.dumps_or_str.
    now rewrite (ExportToPostgresFacts.dumps_members
                   (fun kv => ExportToPostgres.safe_json_serialize B (snd kv))).
  - intros l H. rewrite ExportToPostgresFacts.serialize_list.
    destruct l as [|x l]; [now elim H|].
    unfold ExportToPostgres.dumps_or_str.
    now rewrite (ExportToPostgresFacts.dumps_items
                   (ExportToPostgres.safe_json_serialize B)).
Qed.

Lemma nested_members_are_serialised_twice_witness :
  ExportToPostgres.safe_json_serialize plain_builtins
    (VDict [("n", VInt 3); ("tags", VArr [])])
  = Some ("{" ++ json_string "n" ++ ": " ++ json_string "3" ++ ", "
              ++ json_string "tags" ++ ": null}")%string.
Proof.
  apply (proj1 (nested_members_are_serialised_twice plain_builtins)
           [("n", VInt 3); ("tags", VArr [])]).
  discriminate.
Defined.

(** X21.  What [safe_json_serialize] makes of an array that is not
    empty, the form in which the parquet reader hands over a list column.
    When no element holds an array or a Series at any depth, the result
    is the JSON text of the list of the elements.  When some element
    does (a dict with a list field read from parquet, say), [json.dumps]
    raises, and the result is Python's [str] of the list, which is not
    JSON. *)
Theorem array_cell_is_json_or_repr :
  forall (B : builtins) (l : list pyval),
    l <> [] ->
    (forallb Views.jsonable l = true ->
       exists s, json_dumps (VList l) = Returns s
                 /\ ExportToPostgres.safe_json_serialize B (VArr l) = Some s)
    /\ (forallb Views.jsonable l = false ->
          json_dumps (VList l) = Raises TypeError
          /\ ExportToPostgres.safe_json_serialize B (VArr l)
             = Some (py_repr B (VList l))).
Proof.
  intros B l H.
  pose proof (JsonFacts.json_dumps_jsonable (VList l)) as J.
  cbn [Views.jsonable] in J.
  destruct l as [|x l]; [now elim H|].
  cbn [ExportToPostgres.safe_json_serialize]. unfold tolist.
  unfold ExportToPostgres.dumps_or_str.
  split; intros E; rewrite E in J.
  - destruct J as [s J]. exists s. now rewrite J.
  - now rewrite J.
Qed.

Lemma array_cell_is_json_or_repr_witness :
  ExportToPostgres.safe_json_serialize plain_builtins
    (VArr [VDict [("total_raised", VArr [VInt 1; VInt 2])]])
  = Some "<object>"
  /\ exists s, json_dumps (VList [VInt 1; VInt 2]) = Returns s
               /\ ExportToPostgres.safe_json_serialize plain_builtins
                    (VArr [VInt 1; VInt 2]) = Some s.
Proof.
  split.
  - apply (array_cell_is_json_or_repr plain_builtins
             [VDict [("total_raised", VArr [VInt 1; VInt 2])]]);
      [discriminate | reflexivity].
  - apply (array_cell_is_json_or_repr plain_builtins [VInt 1; VInt 2]);
      [discriminate | reflexivity].
Defined.

(** X22.  [flatten_complex_columns] keeps the frame in shape: as many
    rows, the same labels in the same order, and every cell of a column
    that is not on its list as it was.  A cell of a listed column becomes
    None when it is None, NaN or empty (an empty string, list, dict or
    array), and a string otherwise. *)
Theorem flatten_keeps_shape_and_scalars :
  forall (B : builtins) (df : list (list (string * pyval))),
    Forall2
      (Forall2 (fun cell cell' =>
         fst cell' = fst cell
         /\ (~ In (fst cell) ExportToPostgres.complex_columns ->
             snd cell' = snd cell)
         /\ (In (fst cell) ExportToPostgres.complex_columns ->
             if Views.blank_cell (snd cell) then snd cell' = VNone
             else exists s, snd cell' = VStr s)))
      df (ExportToPostgres.flatten_complex_columns B df).
Proof.
  intros B df. unfold ExportToPostgres.flatten_complex_columns.
  induction df as [|row df IH]; cbn [map]; constructor; [|exact IH].
  clear IH. induction row as [|cell row IH]; cbn [map]; constructor;
    [|exact IH].
  unfold ExportToPostgres.flatten_cell.
  destruct (existsb (String.eqb (fst cell)) ExportToPostgres.complex_columns)
    eqn:E; cbn [fst snd].
  - split; [reflexivity|]. split.
    + intros N. exfalso. apply N.
      apply existsb_exists in E as (c & Hc & Ec).
      apply String.eqb_eq in Ec. now subst c.
    + intros _.
      pose proof (ExportToPostgresFacts.serialize_blank B (snd cell)) as S.
      destruct (Views.blank_cell (snd cell)).
      * now rewrite S.
      * destruct S as [s ->]. now exists s.
  - split; [reflexivity|]. split; [reflexivity|].
    intros I. exfalso.
    assert (T : existsb (String.eqb (fst cell))
                  ExportToPostgres.complex_columns = true).
    { apply existsb_exists. exists (fst cell). split; [exact I|].
      apply String.eqb_refl. }
    congruence.
Qed.

(* ===================================================================== *)
(** * Where whole runs leave the specification *)
(* ===================================================================== *)

(** ** Reads that are not guarded (export_relational_fast.py) *)

Module UnguardedReads.
Import ExportRelationalFast.

Lemma nested_of_sequence row field x y l :
  assoc field row = Some (VList (x :: y :: l))
  \/ assoc field row = Some (VArr (x :: y :: l)) ->
  nested row field = Raises ValueError.
Proof.
  unfold nested, get. intros [-> | ->]; reflexivity.
Qed.

(** The first loop has no handler: a read that raises for one record ends
    it. *)
Lemma collect_raises B field : forall df idx acc j row,
  In field ["person"; "firm"; "location"] ->
  nth_error df j = Some row ->
  returned (nested row field) = false ->
  exists e, collect B idx df acc = Raises e.
Proof.
  induction df as [|row0 df IH]; intros idx acc j row Hf Hj Hr.
  - destruct j; discriminate.
  - cbn [collect].
    destruct (nested row0 "person") as [person|e] eqn:Ep; [|now exists e].
    destruct (nested row0 "firm") as [firm|e] eqn:Ef; [|now exists e].
    destruct (nested row0 "location") as [location|e] eqn:El; [|now exists e].
    cbn [obind]. destruct j as [|j].
    + injection Hj as ->. exfalso.
      destruct Hf as [<- | [<- | [<- | []]]].
      * now rewrite Ep in Hr.
      * now rewrite Ef in Hr.
      * now rewrite El in Hr.
    + eapply IH; eassumption.
Qed.

End UnguardedReads.

(** C8.  Not every nested read is guarded.  [safe_get] answers its
    default on whatever is not a dict, a list or an array included.  But
    [export_relational_fast.py] reads the nested objects of a record
    with [row.get(f, {}) if pd.notna(row.get(f)) else {}]: when the cell
    [person], [firm] or [location] of a record holds a list or an array
    of two or more elements, [pd.notna] answers an array, its truth value
    raises ValueError, and, the loop having no handler, the run ends
    there with the database as it was: the field is not resolved to its
    default and no table receives a row. *)
Theorem unguarded_nested_read_raises :
  forall (B : builtins) (df : list (list (string * pyval))) (db0 : database)
         (j : nat) (row : list (string * pyval)) (field : string)
         (x y : pyval) (l : list pyval),
    In field ["person"; "firm"; "location"] ->
    nth_error df j = Some row ->
    assoc field row = Some (VList (x :: y :: l))
    \/ assoc field row = Some (VArr (x :: y :: l)) ->
    (forall key default, safe_get (get row field VNone) key default = default)
    /\ ExportRelationalFast.nested row field = Raises ValueError
    /\ exists e,
         ExportRelationalFast.extract_and_bulk_insert B df db0 = (db0, Raises e).
Proof.
  intros B df db0 j row field x y l Hf Hj Ha.
  pose proof (UnguardedReads.nested_of_sequence row field x y l Ha) as Hn.
  split; [|split; [exact Hn|]].
  - intros key default. unfold get.
    destruct Ha as [-> | ->]; reflexivity.
  - destruct (UnguardedReads.collect_raises B field df 0
                {| ExportRelationalFast.persons_data := [];
                   ExportRelationalFast.firms_data := [];
                   ExportRelationalFast.locations_data := [] |} j row Hf Hj)
      as [e He]; [now rewrite Hn|].
    exists e. unfold ExportRelationalFast.extract_and_bulk_insert.
    unfold bind at 1, lift at 1. now rewrite He.
Qed.

Lemma unguarded_nested_read_raises_witness :
  safe_get (VList [VStr "a"; VStr "b"]) "slug" VNone = VNone
  /\ exists e,
       ExportRelationalFast.extract_and_bulk_insert plain_builtins
         [plain_record; [("person", VList [VStr "a"; VStr "b"])]] fresh
       = (fresh, Raises e).
Proof.
  destruct (unguarded_nested_read_raises plain_builtins
              [plain_record; [("person", VList [VStr "a"; VStr "b"])]] fresh
              1 [("person", VList [VStr "a"; VStr "b"])] "person"
              (VStr "a") (VStr "b") [])
    as (G & _ & R).
  - now left.
  - reflexivity.
  - now left.
  - split; [apply (G "slug" VNone) | exact R].
Defined.

(** ** Records that get no investor row (export_relational_fast.py) *)

Module FastFailure.
Import ExportRelationalFast.

(** Whether a fact row can be built does not depend on the registries. *)
Lemma investor_data_any_map B pm fm lm pm' fm' lm' idx row :
  returned (investor_data B pm fm lm idx row) = false ->
  returned (investor_data B pm' fm' lm' idx row) = false.
Proof.
  intros H.
  destruct (returned (investor_data B pm' fm' lm' idx row)) eqn:E;
    [|reflexivity].
  apply FastRun.investor_data_parts in E as [_ E].
  destruct (E pm fm lm) as [r Er]. now rewrite Er in H.
Qed.

Lemma to_sql_investors_ids rs db :
  ids (investors (to_sql_investors rs db))
  = ids (investors db) ++ seq (next_id (investors db)) (List.length rs)
  /\ next_id (investors (to_sql_investors rs db))
     = next_id (investors db) + List.length rs.
Proof.
  cbn [to_sql_investors investors set_investors].
  now rewrite TableFacts.ids_append_all, TableFacts.next_id_append_all.
Qed.

(** The second loop stops at the first record whose row cannot be built:
    at most the records before it have got a row. *)
Lemma create_investors_short B pm fm lm : forall df idx batch db j row,
  nth_error df j = Some row ->
  returned (investor_data B pm fm lm (idx + j) row) = false ->
  let r := create_investors B pm fm lm idx df batch db in
  (exists e, snd r = Raises e)
  /\ exists n,
       n <= List.length batch + j
       /\ ids (investors (fst r))
          = ids (investors db) ++ seq (next_id (investors db)) n.
Proof.
  induction df as [|row0 df IH]; intros idx batch db j row Hj Hr.
  - destruct j; discriminate.
  - cbn [create_investors]. cbv zeta.
    destruct (investor_data B pm fm lm idx row0) as [r0|e] eqn:E0;
      [rewrite !Steps.lift_returns | rewrite !Steps.lift_raises].
    + destruct j as [|j].
      * injection Hj as ->. rewrite Nat.add_0_r in Hr. now rewrite E0 in Hr.
      * cbn [nth_error] in Hj.
        replace (idx + S j) with (S idx + j) in Hr by lia.
        destruct (Nat.leb 1000 (List.length (batch ++ [r0]))).
        -- rewrite !Steps.modify_then.
           destruct (IH (S idx) [] (to_sql_investors (batch ++ [r0]) db)
                       j row Hj Hr) as (R & n & Hn & I).
           split; [exact R|].
           destruct (to_sql_investors_ids (batch ++ [r0]) db) as [I0 N0].
           rewrite I0, N0 in I. rewrite <- app_assoc, <- seq_app in I.
           exists (List.length (batch ++ [r0]) + n). split; [|exact I].
           rewrite length_app in *. cbn [List.length] in *. lia.
        -- destruct (IH (S idx) (batch ++ [r0]) db j row Hj Hr)
             as (R & n & Hn & I).
           split; [exact R|]. exists n. split; [|exact I].
           rewrite length_app in Hn. cbn [List.length] in Hn. lia.
    + cbn [fst snd]. split; [now exists e|].
      exists 0. cbn [seq]. rewrite app_nil_r. split; [lia | reflexivity].
Qed.

End FastFailure.

(** C3.  Not every record gets an investor row.  The second loop of
    [extract_and_bulk_insert] builds the row of a record with
    [int(row.get('vote_count', 0))], [bool(...)] and
    [pd.notna(row.get('person'))], and has no handler.  When the row of
    the record at position [j] cannot be built, the run raises, whatever
    the database it started from, and the table has received at most [j]
    rows, numbered on from where the table stood: the record itself and
    every record after it have no row, so in a freshly created table no
    row carries the ordinal [j + 1]. *)
Theorem unbuildable_record_gets_no_investor_row :
  forall (B : builtins) (df : list (list (string * pyval))) (db0 : database)
         (j : nat) (row : list (string * pyval)),
    nth_error df j = Some row ->
    returned (ExportRelationalFast.investor_data B [] [] [] j row) = false ->
    let r := ExportRelationalFast.extract_and_bulk_insert B df db0 in
    (exists e, snd r = Raises e)
    /\ (exists n,
          n <= j
          /\ ids (investors (fst r))
             = ids (investors db0) ++ seq (next_id (investors db0)) n)
    /\ (rows (investors db0) = [] -> next_id (investors db0) = 1 ->
        List.length (rows (investors (fst r))) < List.length df
        /\ ~ In (j + 1) (ids (investors (fst r)))).
Proof.
  intros B df db0 j row Hj Hr. cbv zeta.
  assert (Hlt : j < List.length df)
    by (apply nth_error_Some; now rewrite Hj).
  assert (Main : (exists e, snd (ExportRelationalFast.extract_and_bulk_insert
                                   B df db0) = Raises e)
                 /\ exists n,
                      n <= j
                      /\ ids (investors (fst (ExportRelationalFast.extract_and_bulk_insert
                                                B df db0)))
                         = ids (investors db0)
                           ++ seq (next_id (investors db0)) n).
  { assert (Nothing : forall db e,
              investors db = investors db0 ->
              (exists e', snd (db, @Raises unit e) = Raises e')
              /\ exists n, n <= j
                   /\ ids (investors (fst (db, @Raises unit e)))
                      = ids (investors db0)
                        ++ seq (next_id (investors db0)) n).
    { intros db e H. cbn [fst snd]. rewrite H. split; [now exists e|].
      exists 0. cbn [seq]. rewrite app_nil_r. split; [lia | reflexivity]. }
    unfold ExportRelationalFast.extract_and_bulk_insert.
    destruct (ExportRelationalFast.collect B 0 df _) as [c|e];
      [rewrite Steps.lift_returns
      | rewrite Steps.lift_raises; now apply Nothing].
    destruct (ExportRelationalFast.drop_duplicates
                (ExportRelationalFast.persons_data c) []) as [persons_df|e];
      [rewrite Steps.lift_returns, Steps.modify_then
      | rewrite Steps.lift_raises; now apply Nothing].
    destruct (ExportRelationalFast.drop_duplicates
                (ExportRelationalFast.firms_data c) []) as [firms_df|e];
      [rewrite Steps.lift_returns, Steps.modify_then
      | rewrite Steps.lift_raises; now apply Nothing].
    destruct (ExportRelationalFast.drop_duplicates
                (ExportRelationalFast.locations_data c) []) as [locations_df|e];
      [rewrite Steps.lift_returns, Steps.modify_then
      | rewrite Steps.lift_raises; now apply Nothing].
    rewrite !Steps.gets_then.
    set (db1 := to_sql_locations locations_df
                  (to_sql_firms firms_df (to_sql_persons persons_df db0))).
    destruct (FastFailure.create_investors_short B
                (select_map dim_key (persons db1))
                (select_map dim_key (firms db1))
                (select_map dim_key (locations db1)) df 0 [] db1 j row Hj)
      as (R & n & Hn & I).
    { cbn [Nat.add]. eapply FastFailure.investor_data_any_map. exact Hr. }
    split; [exact R|]. exists n. split; [exact Hn | exact I]. }
  destruct Main as (R & n & Hn & I).
  split; [exact R|]. split; [now exists n|].
  intros H0 H1. unfold ids in I. rewrite H0, H1 in I. cbn [map app] in I.
  split.
  - rewrite <- (length_map fst), I, length_seq. lia.
  - unfold ids. rewrite I. intros Hin. apply in_seq in Hin. lia.
Qed.

Lemma unbuildable_record_gets_no_investor_row_witness :
  let df := [[("vote_count", VInt 3)]; [("vote_count", VStr "many")];
             [("vote_count", VInt 3)]] in
  let r := ExportRelationalFast.extract_and_bulk_insert plain_builtins df fresh in
  (exists e, snd r = Raises e)
  /\ List.length (rows (investors (fst r))) < 3
  /\ ~ In 2 (ids (investors (fst r))).
Proof.
  cbv zeta.
  destruct (unbuildable_record_gets_no_investor_row plain_builtins
              [[("vote_count", VInt 3)]; [("vote_count", VStr "many")];
               [("vote_count", VInt 3)]] fresh 1
              [("vote_count", VStr "many")] eq_refl eq_refl)
    as (R & _ & F).
  destruct (F eq_refl eq_refl) as [L N].
  split; [exact R|]. split; [exact L | exact N].
Defined.

(** ** Companies and schools in whole runs *)

(** C6.  No run creates the company of a position or the school of a
    degree.  The registry code is idempotent as far as it goes, but it
    sits behind [if person_id], and both scripts resolve the person of a
    record with [safe_get(row, 'person', {})] on a Series, which answers
    the empty dict.  So whatever the frame, the database and the persons
    registered in it, the loop of [populate_nested_data_fixed.py] ends
    with the database as it was, both registries empty and no position
    or degree collected, and the loop of [complete_population.py] ends
    with no position and no degree, so that the block that writes the
    companies is skipped: a company name inside a position results in no
    row of [companies], where the specification asks for exactly one. *)
Theorem position_company_is_never_created :
  forall (B : builtins) (df : list (list (string * pyval))) (db0 : database)
         (person_map : registry),
    (let s := PopulateNestedDataFixed.process_from B 0 df
                (PopulateNestedDataFixed.initial db0) in
     PopulateNestedDataFixed.db s = db0
     /\ PopulateNestedDataFixed.company_map s = []
     /\ PopulateNestedDataFixed.school_map s = []
     /\ PopulateNestedDataFixed.positions_batch s = []
     /\ PopulateNestedDataFixed.degrees_batch s = [])
    /\ (let s := PopulateNestedDataFixed.process_nested_data B df db0 in
        companies (PopulateNestedDataFixed.db s) = companies db0
        /\ schools (PopulateNestedDataFixed.db s) = schools db0
        /\ positions (PopulateNestedDataFixed.db s) = positions db0
        /\ degrees (PopulateNestedDataFixed.db s) = degrees db0)
    /\ (let b := fst (CompletePopulation.extract_all person_map df
                        CompletePopulation.no_batches) in
        CompletePopulation.all_positions b = []
        /\ CompletePopulation.all_degrees b = [])
    /\ (let db' := fst (CompletePopulation.process_all_nested_data df db0) in
        companies db' = companies db0
        /\ schools db' = schools db0
        /\ rows (positions db') = []
        /\ rows (degrees db') = []).
Proof.
  intros B df db0 person_map. cbv zeta.
  destruct (FixedRun.process_from_career B df 0
              (PopulateNestedDataFixed.initial db0))
    as (H1 & H2 & H3 & H4 & H5).
  cbn [PopulateNestedDataFixed.initial PopulateNestedDataFixed.db
       PopulateNestedDataFixed.company_map PopulateNestedDataFixed.school_map
       PopulateNestedDataFixed.positions_batch
       PopulateNestedDataFixed.degrees_batch] in H1, H2, H3, H4, H5.
  split; [now repeat split|]. split; [|split].
  - unfold PopulateNestedDataFixed.process_nested_data,
      PopulateNestedDataFixed.final_bulk_insert.
    cbn [PopulateNestedDataFixed.db PopulateNestedDataFixed.set_db].
    rewrite H1, H4, H5. repeat split.
  - unfold CompletePopulation.extract_all.
    apply (CompletePopulationRun.extracted_no_career person_map df 0
             CompletePopulation.no_batches).
  - rewrite CompletePopulationRun.run_form.
    destruct (CompletePopulation.extract_all [] df CompletePopulation.no_batches)
      as [b [u|e]]; cbn [fst]; repeat split.
Qed.

Lemma position_company_is_never_created_witness :
  let db0 := to_sql_persons
               [ExportRelationalFast.person_entry plain_builtins 0 alice] fresh in
  select_map dim_key (persons db0) = [(KStr "a", 1)]
  /\ rows (companies db0) = []
  /\ companies (PopulateNestedDataFixed.db
                  (PopulateNestedDataFixed.process_nested_data plain_builtins
                     scenario db0))
     = companies db0
  /\ companies (fst (CompletePopulation.process_all_nested_data scenario db0))
     = companies db0.
Proof.
  cbv zeta. split; [reflexivity|]. split; [reflexivity|].
  destruct (position_company_is_never_created plain_builtins scenario
              (to_sql_persons
                 [ExportRelationalFast.person_entry plain_builtins 0 alice] fresh)
              [(KStr "a", 1)])
    as (_ & (F & _) & _ & (C & _)).
  split; [exact F | exact C].
Defined.
